(** * wellplate_analysis: a shallow embedding of the table transforms
    and of the pipeline orchestrator.

    Source files embedded here:
    - [io.py]            ([load_xlsx]),
    - [processing.py]    ([handle_ovrflw], [index_to_time], [normalize_by_OD],
                          [rename_sample_columns], [average_replicates],
                          [rename_and_average]),
    - [calibration.py]   ([rfu_to_mefl]),
    - [plotting.py]      ([plot_columns]),
    - [run_pipeline.py]  ([run_pipeline]).

    Conventions of the embedding.
    - A pandas DataFrame is a list of column labels and a list of rows, every
      row carrying its index label.  Labels may repeat, as they do after
      several wells were renamed to one condition.
    - Numbers are binary64 values with the rounding left out: a rational, one
      of the two infinities, or NaN.  Signed zeros are not distinguished.
    - Tables are the ones the program builds: [load_xlsx] reads a sheet into
      columns of Python objects, and every later step keeps them so.  The
      numbers in cells are therefore Python numbers: they multiply and add
      as binary64 values do, and their division refuses a zero divisor
      ([py_truediv]).
    - A raised Python exception is the [Raise] outcome of [result].
    - [NotModelled] marks the few places where pandas realigns or rejects
      labels in ways the embedding does not follow, or where the outcome
      depends on the order in which numpy visits the cells; every theorem
      below is stated where that outcome cannot occur.
    - Reading the workbook and the configuration, writing files and drawing
      figures are left to the caller: a run takes the parsed configuration
      and the workbook, and its trace lists what it logged, wrote and drew. *)

From Stdlib Require Import List ZArith QArith Qabs String Ascii Bool Lia.
Import ListNotations.

Local Open Scope string_scope.
Local Open Scope list_scope.

(* [String] hides the list function of the same name. *)
Local Abbreviation length := Datatypes.length.

(* ================================================================== *)
(** ** Python outcomes *)

Inductive exn : Type :=
| KeyError (key : string)
| ValueError (msg : string)
| TypeError (msg : string)
| IndexError (msg : string)
| AttributeError (msg : string)
| UnboundLocalError (var : string)
| ZeroDivisionError
| NotModelled (what : string).

Inductive result (A : Type) : Type :=
| Ok (a : A)
| Raise (e : exn).

Arguments Ok {A} a.
Arguments Raise {A} e.

Definition bind {A B : Type} (r : result A) (k : A -> result B) : result B :=
  match r with
  | Ok a => k a
  | Raise e => Raise e
  end.

Declare Scope result_scope.
Delimit Scope result_scope with result.
Notation "'do' x <- r ; k" := (bind r (fun x => k))
  (at level 10, x pattern, r at level 100, k at level 200) : result_scope.
Local Open Scope result_scope.

(** [mapM f l] runs [f] over [l] from the left and stops at the first
    exception. *)
Fixpoint mapM {A B : Type} (f : A -> result B) (l : list A) : result (list B) :=
  match l with
  | [] => Ok []
  | a :: l' => do b <- f a; do bs <- mapM f l'; Ok (b :: bs)
  end.

(* ================================================================== *)
(** ** Numbers: binary64 without rounding *)

Inductive fnum : Type :=
| Fin (q : Q)
| PInf
| NInf
| NaN.

Definition Qsign (q : Q) : comparison := (Qnum q ?= 0)%Z.

Definition fopp (x : fnum) : fnum :=
  match x with
  | Fin q => Fin (- q)
  | PInf => NInf
  | NInf => PInf
  | NaN => NaN
  end.

Definition fadd (x y : fnum) : fnum :=
  match x, y with
  | NaN, _ | _, NaN => NaN
  | Fin a, Fin b => Fin (a + b)
  | PInf, NInf | NInf, PInf => NaN
  | PInf, _ | _, PInf => PInf
  | NInf, _ | _, NInf => NInf
  end.

Definition fsub (x y : fnum) : fnum := fadd x (fopp y).

(** An infinity of sign given by [pos], scaled by something of sign [s]. *)
Definition inf_signed (pos : bool) (s : comparison) : fnum :=
  match s with
  | Eq => NaN
  | Gt => if pos then PInf else NInf
  | Lt => if pos then NInf else PInf
  end.

Definition fmul (x y : fnum) : fnum :=
  match x, y with
  | NaN, _ | _, NaN => NaN
  | Fin a, Fin b => Fin (a * b)
  | PInf, Fin b => inf_signed true (Qsign b)
  | NInf, Fin b => inf_signed false (Qsign b)
  | Fin a, PInf => inf_signed true (Qsign a)
  | Fin a, NInf => inf_signed false (Qsign a)
  | PInf, PInf | NInf, NInf => PInf
  | PInf, NInf | NInf, PInf => NInf
  end.

(** IEEE division: a finite non-zero number over zero is an infinity, zero
    over zero is NaN. *)
Definition fdiv (x y : fnum) : fnum :=
  match x, y with
  | NaN, _ | _, NaN => NaN
  | Fin a, Fin b =>
      match Qsign b with
      | Eq => inf_signed true (Qsign a)
      | _ => Fin (a / b)
      end
  | Fin _, PInf | Fin _, NInf => Fin 0
  | PInf, Fin b => match Qsign b with Lt => NInf | _ => PInf end
  | NInf, Fin b => match Qsign b with Lt => PInf | _ => NInf end
  | PInf, _ | NInf, _ => NaN
  end.

Definition fsum (l : list fnum) : fnum := fold_left fadd l (Fin 0).

Definition is_zero (x : fnum) : bool :=
  match x with
  | Fin q => Qeq_bool q 0
  | _ => false
  end.

(** Numerical equality, NaN equal to itself (the test [Index.equals] uses). *)
Definition fnum_eqb (x y : fnum) : bool :=
  match x, y with
  | Fin a, Fin b => Qeq_bool a b
  | PInf, PInf | NInf, NInf | NaN, NaN => true
  | _, _ => false
  end.

(* ================================================================== *)
(** ** Cells, labels, tables *)

(** What a cell of a loaded sheet can hold. *)
Inductive cell : Type :=
| CNum (x : fnum)                       (* int or float *)
| CStr (s : string)                     (* str *)
| CTime (hour minute second : Z)        (* datetime.time *)
| CNA                                   (* pd.NA *)
| CNone.                                (* None *)

(** [pd.isna]: None, NaN and pd.NA are the missing-data markers. *)
Definition isna (c : cell) : bool :=
  match c with
  | CNum NaN | CNA | CNone => true
  | _ => false
  end.

(** A number or a missing-data marker: what the data model allows in a
    measurement column. *)
Definition numeric_or_missing (c : cell) : bool :=
  match c with
  | CNum _ | CNA | CNone => true
  | CStr _ | CTime _ _ _ => false
  end.

(** A row label: a position of a RangeIndex, or a float. *)
Inductive label : Type :=
| LInt (z : Z)
| LFloat (x : fnum).

Definition label_num (l : label) : fnum :=
  match l with
  | LInt z => Fin (inject_Z z)
  | LFloat x => x
  end.

Definition row : Type := (label * list cell)%type.

Record DataFrame : Type := mkDF {
  columns : list string;
  rows : list row
}.

Definition index (df : DataFrame) : list label := map fst (rows df).

(** Every row has one cell per column. *)
Definition wf (df : DataFrame) : Prop :=
  Forall (fun r : row => length (snd r) = length (columns df)) (rows df).

Definition range_labels (n : nat) : list label :=
  map (fun i => LInt (Z.of_nat i)) (seq 0 n).

(** [Index.equals]: same length, pairwise equal values. *)
Fixpoint index_equals (a b : list label) : bool :=
  match a, b with
  | [], [] => true
  | x :: a', y :: b' => fnum_eqb (label_num x) (label_num y) && index_equals a' b'
  | _, _ => false
  end.

(** Replace the element at position [n]; a position past the end changes
    nothing (callers check the bound first). *)
Fixpoint set_nth {A : Type} (n : nat) (a : A) (l : list A) : list A :=
  match l, n with
  | [], _ => []
  | _ :: l', O => a :: l'
  | x :: l', S n' => x :: set_nth n' a l'
  end.

(** Positions of the columns carrying the label [name]. *)
Fixpoint positions_from (k : nat) (name : string) (cols : list string) : list nat :=
  match cols with
  | [] => []
  | c :: cols' =>
      if String.eqb c name then k :: positions_from (S k) name cols'
      else positions_from (S k) name cols'
  end.

Definition positions (name : string) (cols : list string) : list nat :=
  positions_from 0 name cols.

(** The cell of a row at a column position; a short row reads as None. *)
Definition cell_at (j : nat) (cells : list cell) : cell := nth j cells CNone.

(* ================================================================== *)
(** ** io.py *)

(** A workbook: sheet name to sheet; a sheet is its header row and its data
    rows, as [ws.values] yields them. *)
Record sheet : Type := mkSheet {
  header : list string;
  body : list (list cell)
}.

Definition workbook : Type := list (string * sheet).

Fixpoint lookup {A : Type} (k : string) (m : list (string * A)) : option A :=
  match m with
  | [] => None
  | (k', v) :: m' => if String.eqb k' k then Some v else lookup k m'
  end.

(** [load_xlsx]: the first row names the columns, the remaining rows are
    renumbered from 0 ([reset_index(drop=True)]). *)
Definition load_xlsx (wb : workbook) (sheet_name : string) : result DataFrame :=
  match lookup sheet_name wb with
  | None => Raise (KeyError sheet_name)
  | Some ws =>
      Ok (mkDF (header ws) (combine (range_labels (length (body ws))) (body ws)))
  end.

(* ================================================================== *)
(** ** processing.py: handle_ovrflw *)

(** The [integer] argument: the default [False], or a number. *)
Inductive replacement : Type :=
| RFalse
| RNum (q : Q).

(** [integer != False]; in Python [0 == False], so a zero is "not given". *)
Definition ne_False (integer : replacement) : bool :=
  match integer with
  | RFalse => false
  | RNum q => negb (Qeq_bool q 0)
  end.

Definition replacement_cell (integer : replacement) : cell :=
  match integer with
  | RFalse => CNA
  | RNum q => if ne_False integer then CNum (Fin q) else CNA
  end.

(** The row position [df.iloc[i, _]] designates: an integer counts from the
    end when negative; a float is refused when the pair of keys is
    validated. *)
Definition iloc_row (n : nat) (i : label) : result nat :=
  match i with
  | LFloat _ =>
      Raise (ValueError "Location based indexing can only have [integer, integer slice (START point is INCLUDED, END point is EXCLUDED), listlike of integers, boolean array] types")
  | LInt z =>
      if (0 <=? z)%Z && (z <? Z.of_nat n)%Z then Ok (Z.to_nat z)
      else if (z <? 0)%Z && (- Z.of_nat n <=? z)%Z then Ok (Z.to_nat (z + Z.of_nat n))
      else Raise (IndexError "single positional indexer is out-of-bounds")
  end.

Definition iloc_get (df : DataFrame) (i : label) (j : nat) : result cell :=
  do p <- iloc_row (length (rows df)) i;
  match nth_error (rows df) p with
  | None => Raise (IndexError "single positional indexer is out-of-bounds")
  | Some r =>
      match nth_error (snd r) j with
      | None => Raise (IndexError "single positional indexer is out-of-bounds")
      | Some c => Ok c
      end
  end.

Definition iloc_set (df : DataFrame) (p j : nat) (c : cell) : DataFrame :=
  match nth_error (rows df) p with
  | None => df
  | Some r => mkDF (columns df) (set_nth p (fst r, set_nth j c (snd r)) (rows df))
  end.

(** [cell == "OVRFLW"] used as a condition.  Comparing pd.NA yields pd.NA,
    whose truth value is refused. *)
Definition eq_OVRFLW (c : cell) : result bool :=
  match c with
  | CStr s => Ok (String.eqb s "OVRFLW")
  | CNA => Raise (TypeError "boolean value of NA is ambiguous")
  | _ => Ok false
  end.

(** The inner loop, [for i in df.index], over the labels still to visit.
    The table is updated in place, so what was written before an exception
    stays written: the loop returns the table together with the exception. *)
Fixpoint ovrflw_rows (integer : replacement) (j : nat) (labels : list label)
    (df : DataFrame) : DataFrame * option exn :=
  match labels with
  | [] => (df, None)
  | i :: labels' =>
      match iloc_get df i j with
      | Raise e => (df, Some e)
      | Ok c =>
          match eq_OVRFLW c with
          | Raise e => (df, Some e)
          | Ok false => ovrflw_rows integer j labels' df
          | Ok true =>
              match iloc_row (length (rows df)) i with
              | Raise e => (df, Some e)
              | Ok p =>
                  ovrflw_rows integer j labels'
                    (iloc_set df p j (replacement_cell integer))
              end
          end
      end
  end.

(** The outer loop, [for j, col in enumerate(df.columns)], over the column
    positions still to visit. *)
Fixpoint ovrflw_cols (integer : replacement) (js : list nat) (df : DataFrame)
    : DataFrame * option exn :=
  match js with
  | [] => (df, None)
  | j :: js' =>
      if (1 <? j)%nat then
        match ovrflw_rows integer j (index df) df with
        | (df', None) => ovrflw_cols integer js' df'
        | (df', Some e) => (df', Some e)
        end
      else ovrflw_cols integer js' df
  end.

Definition ovrflw_loop (integer : replacement) (df : DataFrame)
    : DataFrame * option exn :=
  ovrflw_cols integer (seq 0 (length (columns df))) df.

(** [handle_ovrflw] as a function of the table's value. *)
Definition handle_ovrflw (df : DataFrame) (integer : replacement) : result DataFrame :=
  match ovrflw_loop integer df with
  | (df', None) => Ok df'
  | (_, Some e) => Raise e
  end.

(* ================================================================== *)
(** ** processing.py: index_to_time *)

(** [df.dropna()]: the rows that hold no missing-data marker. *)
Definition no_missing (r : row) : bool := forallb (fun c => negb (isna c)) (snd r).

Definition dropna (df : DataFrame) : DataFrame :=
  mkDF (columns df) (filter no_missing (rows df)).

(** [timedelta(days=0, hours=h, minutes=m, seconds=s).total_seconds()]. *)
Definition total_seconds (h m s : Z) : Q := inject_Z (h * 3600 + m * 60 + s).

(** The body of the loop over the "Time" column. *)
Definition total_hours (time : cell) : result fnum :=
  match time with
  | CTime h m s => Ok (Fin (total_seconds h m s / 3600))
  | _ => Raise (AttributeError "hour")
  end.

(** The positions at which [df[name]] / [df.loc[:, name]] finds one column. *)
Definition single_column (name : string) (df : DataFrame) : result nat :=
  match positions name (columns df) with
  | [] => Raise (KeyError name)
  | [j] => Ok j
  | _ => Raise (NotModelled "a label shared by several columns selects a DataFrame")
  end.

(** [for time in df.loc[:, "Time"]].  Iterating the DataFrame that a shared
    label selects yields column labels, which have no [hour]. *)
Definition time_column (df : DataFrame) : result (list cell) :=
  match positions "Time" (columns df) with
  | [] => Raise (KeyError "Time")
  | [j] => Ok (map (fun r : row => cell_at j (snd r)) (rows df))
  | _ => Raise (AttributeError "hour")
  end.

(** [df[name] = values]: overwrite the columns called [name] when there are
    some, append a new last column otherwise.  [values] has one entry per
    row at every call site. *)
Definition setitem (df : DataFrame) (name : string) (values : list cell) : DataFrame :=
  match positions name (columns df) with
  | [] =>
      mkDF (columns df ++ [name])
           (map (fun rv : row * cell => (fst (fst rv), snd (fst rv) ++ [snd rv]))
                (combine (rows df) values))
  | ps =>
      mkDF (columns df)
           (map (fun rv : row * cell =>
                   (fst (fst rv),
                    fold_left (fun cs p => set_nth p (snd rv) cs) ps (snd (fst rv))))
                (combine (rows df) values))
  end.

Fixpoint remove_nth {A : Type} (n : nat) (l : list A) : list A :=
  match l, n with
  | [], _ => []
  | _ :: l', O => l'
  | x :: l', S n' => x :: remove_nth n' l'
  end.

Definition label_of_cell (c : cell) : result label :=
  match c with
  | CNum x => Ok (LFloat x)
  | _ => Raise (NotModelled "an index of values that are not floats")
  end.

(** [df.set_index(name, inplace=True)]: the column becomes the row index and
    leaves the columns (drop=True is the default). *)
Definition set_index (df : DataFrame) (name : string) : result DataFrame :=
  match positions name (columns df) with
  | [] => Raise (KeyError name)
  | [j] =>
      do rs <- mapM (fun r : row =>
                       do l <- label_of_cell (cell_at j (snd r));
                       Ok (l, remove_nth j (snd r)))
                    (rows df);
      Ok (mkDF (remove_nth j (columns df)) rs)
  | _ => Raise (ValueError "Index data must be 1-dimensional")
  end.

Definition index_to_time (df : DataFrame) : result DataFrame :=
  let df := dropna df in
  do times <- time_column df;
  do hours_elapsed <- mapM total_hours times;
  let df := setitem df "hours elapsed" (map CNum hours_elapsed) in
  set_index df "hours elapsed".

(* ================================================================== *)
(** ** processing.py: normalize_by_OD *)

(** [df.iloc[:, k:]]. *)
Definition iloc_cols_from (k : nat) (df : DataFrame) : DataFrame :=
  mkDF (skipn k (columns df)) (map (fun r : row => (fst r, skipn k (snd r))) (rows df)).

(** What Python's [a / b] gives for two cells of columns of objects: a
    value, ZeroDivisionError or TypeError.  Two numbers divide unless the
    divisor is zero; pd.NA absorbs a number, a string or pd.NA; anything
    else (None, a time of day, a string against a number) has no division. *)
Inductive outcome : Type :=
| Val (c : cell)
| ZeroDiv
| TypeErr.

Definition py_truediv (a b : cell) : outcome :=
  match a, b with
  | CNum x, CNum y => if is_zero y then ZeroDiv else Val (CNum (fdiv x y))
  | CNA, CNum _ | CNA, CStr _ | CNA, CNA | CNum _, CNA | CStr _, CNA => Val CNA
  | _, _ => TypeErr
  end.

(** The same on the pairs pandas retries after a TypeError: only the pairs
    without a missing operand are divided, the others are filled with NaN. *)
Definition masked_truediv (a b : cell) : outcome :=
  if isna a || isna b then Val (CNum NaN) else py_truediv a b.

Definition is_ZeroDiv (o : outcome) : bool :=
  match o with
  | ZeroDiv => true
  | _ => false
  end.

Definition is_TypeErr (o : outcome) : bool :=
  match o with
  | TypeErr => true
  | _ => false
  end.

Definition value_of (o : outcome) : cell :=
  match o with
  | Val c => c
  | _ => CNone
  end.

(** The pairs of cells an elementwise operation visits: row with row, cell
    with cell, as far as both reach. *)
Definition cell_pairs (left right : list row) : list (label * list (cell * cell)) :=
  map (fun lr : row * row => (fst (fst lr), combine (snd (fst lr)) (snd (snd lr))))
      (combine left right).

Definition outcomes (op : cell -> cell -> outcome)
    (ps : list (label * list (cell * cell))) : list outcome :=
  flat_map (fun r : label * list (cell * cell) =>
              map (fun ab : cell * cell => op (fst ab) (snd ab)) (snd r)) ps.

Definition values (op : cell -> cell -> outcome)
    (ps : list (label * list (cell * cell))) : list row :=
  map (fun r : label * list (cell * cell) =>
         (fst r, map (fun ab : cell * cell => value_of (op (fst ab) (snd ab))) (snd r)))
      ps.

(** [left / right] on the cells of two frames of objects, which pandas
    divides as one block.  numpy divides pair by pair and the first
    exception ends the pass.  A ZeroDivisionError is the outcome of the
    division; a TypeError makes pandas divide once more, on the pairs
    without a missing operand, filling the others with NaN.  When both
    exceptions are waiting in the first pass, the one met first decides;
    the embedding follows the cases where either order ends alike. *)
Definition div_block (left right : list row) : result (list row) :=
  let ps := cell_pairs left right in
  let direct := outcomes py_truediv ps in
  let masked := outcomes masked_truediv ps in
  if negb (existsb is_TypeErr direct) then
    if existsb is_ZeroDiv direct then Raise ZeroDivisionError
    else Ok (values py_truediv ps)
  else if negb (existsb is_ZeroDiv direct) then
    if existsb is_TypeErr masked then Raise (TypeError "unsupported operand type(s) for /")
    else Ok (values masked_truediv ps)
  else if existsb is_ZeroDiv masked && negb (existsb is_TypeErr masked) then
    Raise ZeroDivisionError
  else Raise (NotModelled "an outcome that depends on the order of the cells").

Definition columns_eqb (a b : list string) : bool :=
  if list_eq_dec string_dec a b then true else false.

(** [left / right] for two frames.  Frames carrying the same labels divide
    cell by cell; otherwise pandas realigns both operands first. *)
Definition truediv (left right : DataFrame) : result DataFrame :=
  if index_equals (index left) (index right)
     && columns_eqb (columns left) (columns right)
  then do rs <- div_block (rows left) (rows right); Ok (mkDF (columns left) rs)
  else Raise (NotModelled "division of frames with different labels").

Definition normalize_by_OD (df_od df_fl : DataFrame) : result DataFrame :=
  truediv (iloc_cols_from 2 df_fl) (iloc_cols_from 2 df_od).

(* ================================================================== *)
(** ** processing.py: rename_sample_columns *)

Definition rename_label (rename_map : list (string * string)) (col : string) : string :=
  match lookup col rename_map with
  | Some new => new
  | None => col
  end.

Definition rename_sample_columns (df : DataFrame) (rename_map : list (string * string))
    : DataFrame :=
  mkDF (map (rename_label rename_map) (columns df)) (rows df).

(* ================================================================== *)
(** ** processing.py: average_replicates *)

(** [s.startswith(pre)]. *)
Definition startswith (s pre : string) : bool := String.prefix pre s.

(** The column positions [df[names]] selects: for every requested label, in
    the order requested, every column that carries it. *)
Fixpoint getitem_positions (cols : list string) (names : list string)
    : result (list nat) :=
  match names with
  | [] => Ok []
  | n :: names' =>
      match positions n cols with
      | [] => Raise (KeyError n)
      | ps => do rest <- getitem_positions cols names'; Ok (ps ++ rest)
      end
  end.

(** The numbers among some cells, the missing ones skipped; a string or a
    time among them cannot be averaged. *)
Fixpoint numeric_values (cs : list cell) : result (list fnum) :=
  match cs with
  | [] => Ok []
  | c :: cs' =>
      if isna c then numeric_values cs'
      else match c with
           | CNum x => do xs <- numeric_values cs'; Ok (x :: xs)
           | _ => Raise (TypeError "could not convert to numeric")
           end
  end.

Definition count (xs : list fnum) : fnum := Fin (inject_Z (Z.of_nat (length xs))).

(** [mean] with [skipna=True]: NaN when nothing is left to average. *)
Definition mean (cs : list cell) : result fnum :=
  do xs <- numeric_values cs;
  Ok (match xs with
      | [] => NaN
      | _ => fdiv (fsum xs) (count xs)
      end).

Definition select (ps : list nat) (cells : list cell) : list cell :=
  map (fun j => cell_at j cells) ps.

(** [df[names].mean(axis=1)]. *)
Definition mean_axis1 (df : DataFrame) (names : list string) : result (list cell) :=
  do ps <- getitem_positions (columns df) names;
  mapM (fun r : row => do m <- mean (select ps (snd r)); Ok (CNum m)) (rows df).

(** [pd.DataFrame(index=df.index)]. *)
Definition empty_like (df : DataFrame) : DataFrame :=
  mkDF [] (map (fun r : row => (fst r, [])) (rows df)).

Fixpoint average_loop (conds : list string) (df df_avg : DataFrame) : result DataFrame :=
  match conds with
  | [] => Ok df_avg
  | cond :: conds' =>
      let replicate_cols := filter (fun col => startswith col cond) (columns df) in
      match replicate_cols with
      | [] => average_loop conds' df df_avg
      | _ =>
          do m <- mean_axis1 df replicate_cols;
          average_loop conds' df (setitem df_avg cond m)
      end
  end.

Section SetIteration.

(** Python does not fix the order in which a set is iterated.
    [set_iter l] is the order in which [set(l)] yields its elements. *)
Variable set_iter : list string -> list string.

Definition average_replicates (df : DataFrame) (conditions : list string)
    : result DataFrame :=
  let conditions := set_iter conditions in
  average_loop conditions df (empty_like df).

(** [rename_and_average]: the columns are renamed first; the empty table
    takes its row labels from the table passed in, the loop reads the
    renamed one. *)
Definition rename_and_average (df : DataFrame) (rename_map : list (string * string))
    (conditions : list string) : result DataFrame :=
  let df_renamed := rename_sample_columns df rename_map in
  let conditions := set_iter conditions in
  average_loop conditions df_renamed (empty_like df).

End SetIteration.

(* ================================================================== *)
(** ** calibration.py: rfu_to_mefl *)

(** [10**-6], and [6.022*(10**23)]. *)
Definition micro : Q := 1 # 1000000.
Definition avogadro : Q := (6022 # 1000) * inject_Z (10 ^ 23).

(** Lines 24-27: the molecule count of every known concentration. *)
Definition fluor_molecules (fluor_conc_uM : list Q) (well_volume_uL : Q) : list fnum :=
  let well_volume := well_volume_uL * micro in
  map (fun conc => Fin (conc * well_volume * avogadro)) fluor_conc_uM.

Definition column (j : nat) (df : DataFrame) : list cell :=
  map (fun r : row => cell_at j (snd r)) (rows df).

(** [df[names].mean()]: one mean per selected column, over all rows. *)
Definition mean_axis0 (df : DataFrame) (names : list string) : result (list fnum) :=
  do ps <- getitem_positions (columns df) names;
  mapM (fun j => mean (column j df)) ps.

(** [scipy.stats.linregress]: the slope, the intercept and the square of the
    correlation coefficient (the coefficient itself need not be rational). *)
Record LinregressResult : Type := mkLR {
  lr_slope : fnum;
  lr_intercept : fnum;
  lr_rvalue_sq : fnum
}.

Fixpoint finite_values (l : list fnum) : option (list Q) :=
  match l with
  | [] => Some []
  | Fin q :: l' =>
      match finite_values l' with
      | Some qs => Some (q :: qs)
      | None => None
      end
  | _ :: _ => None
  end.

(** IEEE [==]: NaN differs from everything. *)
Definition ieee_eqb (x y : fnum) : bool :=
  match x, y with
  | NaN, _ | _, NaN => false
  | _, _ => fnum_eqb x y
  end.

Definition all_identical (l : list fnum) : bool :=
  match l with
  | [] => true
  | x :: l' => forallb (ieee_eqb x) l'
  end.

Definition qsum (l : list Q) : Q := fold_left Qplus l 0.

Definition qmean (l : list Q) : Q := qsum l / inject_Z (Z.of_nat (length l)).

Definition linregress (x y : list fnum) : result LinregressResult :=
  if (length x =? 0)%nat || (length y =? 0)%nat then
    Raise (ValueError "Inputs must not be empty.")
  else if negb (length x =? length y)%nat then
    Raise (ValueError "all the input array dimensions must match")
  else if (1 <? length x)%nat && all_identical x then
    Raise (ValueError "Cannot calculate a linear regression if all x values are identical")
  else
    match finite_values x, finite_values y with
    | Some xs, Some ys =>
        let xmean := qmean xs in
        let ymean := qmean ys in
        let ssxm := qmean (map (fun a => (a - xmean) * (a - xmean)) xs) in
        let ssxym :=
          qmean (map (fun ab => (fst ab - xmean) * (snd ab - ymean)) (combine xs ys)) in
        let ssym := qmean (map (fun b => (b - ymean) * (b - ymean)) ys) in
        let r_sq :=
          if Qeq_bool ssxm 0 || Qeq_bool ssym 0 then 0
          else ssxym * ssxym / (ssxm * ssym) in
        let slope := fdiv (Fin ssxym) (Fin ssxm) in
        let intercept := fsub (Fin ymean) (fmul slope (Fin xmean)) in
        Ok (mkLR slope intercept (Fin r_sq))
    | _, _ => Ok (mkLR NaN NaN NaN)
    end.

(** [col.startswith('A') or ... or col.startswith('H')]. *)
Definition is_well (col : string) : bool :=
  startswith col "A" || startswith col "B" || startswith col "C"
  || startswith col "D" || startswith col "E" || startswith col "F"
  || startswith col "G" || startswith col "H".

Definition is_None (c : cell) : bool :=
  match c with
  | CNone => true
  | _ => false
  end.

(** One cell of [(df.loc[:, col] * slope) + intercept].  A number is
    multiplied and added to; pd.NA absorbs both operations; a string or a
    time of day has no product with a float.  Neither has None: on the
    TypeError it raises pandas multiplies once more, the cells that are not
    missing only, and fills the others with NaN.  [masked] says that the
    column holds a None, so that this second pass is the one that counts. *)
Definition calibrate_cell (masked : bool) (slope intercept : fnum) (c : cell)
    : result cell :=
  match c with
  | CNum x => Ok (CNum (fadd (fmul x slope) intercept))
  | CNA => Ok (if masked then CNum NaN else CNA)
  | CNone => Ok (CNum NaN)
  | CStr _ | CTime _ _ _ => Raise (TypeError "can't multiply sequence by non-int of type 'float'")
  end.

(** [(df.loc[:, col] * slope) + intercept] for a label that names one column. *)
Definition calibrated_column (slope intercept : fnum) (df : DataFrame) (col : string)
    : result (list cell) :=
  match positions col (columns df) with
  | [j] =>
      let cells := column j df in
      mapM (calibrate_cell (existsb is_None cells) slope intercept) cells
  | _ => Raise (NotModelled "assignment to columns that share a label")
  end.

(** Lines 24-40: everything before the copy. *)
Definition calibration_fit (df : DataFrame) (fluor_conc_uM : list Q) (well_volume_uL : Q)
    (fluorescein_wells : list string) (background_well : option string)
    : result (list fnum * list fnum * LinregressResult) :=
  let fluor_molecules := fluor_molecules fluor_conc_uM well_volume_uL in
  do rfus <- mean_axis0 df fluorescein_wells;
  do rfus <-
    match background_well with
    | None => Ok rfus
    | Some bg =>
        do j <- single_column bg df;
        do bg_mean <- mean (column j df);
        Ok (map (fun x => fsub x bg_mean) rfus)
    end;
  do LR <- linregress rfus fluor_molecules;
  Ok (rfus, fluor_molecules, LR).

(** The loop of lines 43-45 on table values: it reads [df] and writes
    [df_MEFL]. *)
Fixpoint mefl_loop (cols : list string) (slope intercept : fnum)
    (df df_MEFL : DataFrame) : result DataFrame :=
  match cols with
  | [] => Ok df_MEFL
  | col :: cols' =>
      if is_well col then
        do values <- calibrated_column slope intercept df col;
        mefl_loop cols' slope intercept df (setitem df_MEFL col values)
      else mefl_loop cols' slope intercept df df_MEFL
  end.

Definition mefl_output : Type :=
  (DataFrame * list fnum * list fnum * fnum * fnum * fnum)%type.

Definition rfu_to_mefl (df : DataFrame) (fluor_conc_uM : list Q) (well_volume_uL : Q)
    (fluorescein_wells : list string) (background_well : option string)
    : result mefl_output :=
  do fit <- calibration_fit df fluor_conc_uM well_volume_uL fluorescein_wells
              background_well;
  let '(rfus, fluor_molecules, LR) := fit in
  let intercept := lr_intercept LR in
  let slope := lr_slope LR in
  let r_squared := lr_rvalue_sq LR in
  (* df.copy(): on table values, the copy is the value itself *)
  let df_MEFL := df in
  do df_MEFL <- mefl_loop (columns df_MEFL) slope intercept df df_MEFL;
  Ok (df_MEFL, rfus, fluor_molecules, slope, intercept, r_squared).

(* ================================================================== *)
(** ** Tables as objects

    [handle_ovrflw] writes into the table it is given and returns that same
    table; [rfu_to_mefl] copies its argument and writes into the copy.  A
    store of table objects makes the difference visible: a reference is a
    position in the store. *)

Definition ref : Type := nat.
Definition heap : Type := list DataFrame.

Definition load (h : heap) (r : ref) : option DataFrame := nth_error h r.
Definition store (h : heap) (r : ref) (df : DataFrame) : heap := set_nth r df h.

(** [df.copy()]: a new object holding the same value. *)
Definition copy (h : heap) (df : DataFrame) : ref * heap := (length h, h ++ [df]).

Definition dangling : exn := NotModelled "a reference to no table".

(** [handle_ovrflw] on a table object: the object is updated in place, also
    when the loop stops on an exception, and the reference passed in is the
    one returned. *)
Definition handle_ovrflw_obj (r : ref) (integer : replacement) (h : heap)
    : result ref * heap :=
  match load h r with
  | None => (Raise dangling, h)
  | Some df =>
      match ovrflw_loop integer df with
      | (df', None) => (Ok r, store h r df')
      | (df', Some e) => (Raise e, store h r df')
      end
  end.

(** The loop of lines 43-45 on table objects: every pass reads the object
    [df] and writes the object [df_MEFL]. *)
Fixpoint mefl_loop_obj (cols : list string) (slope intercept : fnum)
    (df df_MEFL : ref) (h : heap) : result unit * heap :=
  match cols with
  | [] => (Ok tt, h)
  | col :: cols' =>
      if is_well col then
        match load h df, load h df_MEFL with
        | Some src, Some dst =>
            match calibrated_column slope intercept src col with
            | Raise e => (Raise e, h)
            | Ok values =>
                mefl_loop_obj cols' slope intercept df df_MEFL
                  (store h df_MEFL (setitem dst col values))
            end
        | _, _ => (Raise dangling, h)
        end
      else mefl_loop_obj cols' slope intercept df df_MEFL h
  end.

Definition mefl_output_obj : Type :=
  (ref * list fnum * list fnum * fnum * fnum * fnum)%type.

Definition rfu_to_mefl_obj (df : ref) (fluor_conc_uM : list Q) (well_volume_uL : Q)
    (fluorescein_wells : list string) (background_well : option string) (h : heap)
    : result mefl_output_obj * heap :=
  match load h df with
  | None => (Raise dangling, h)
  | Some src =>
      match calibration_fit src fluor_conc_uM well_volume_uL fluorescein_wells
              background_well with
      | Raise e => (Raise e, h)
      | Ok (rfus, fluor_molecules, LR) =>
          let intercept := lr_intercept LR in
          let slope := lr_slope LR in
          let r_squared := lr_rvalue_sq LR in
          let (df_MEFL, h) := copy h src in
          match mefl_loop_obj (columns src) slope intercept df df_MEFL h with
          | (Raise e, h) => (Raise e, h)
          | (Ok _, h) =>
              (Ok (df_MEFL, rfus, fluor_molecules, slope, intercept, r_squared), h)
          end
      end
  end.

(* ================================================================== *)
(** ** run_pipeline.py *)

(** What a run leaves behind, in order: log lines, files, figures. *)
Inductive event : Type :=
| Info (msg : string)
| ToCsv (path : string) (df : DataFrame)
| PlotCalibration (path : string)
| PlotColumns (path : string).

(** A stage of the run: it may raise, and it extends the trace either way. *)
Definition M (A : Type) : Type := list event -> result A * list event.

Definition ret {A : Type} (a : A) : M A := fun tr => (Ok a, tr).

Definition raise {A : Type} (e : exn) : M A := fun tr => (Raise e, tr).

Definition bindM {A B : Type} (m : M A) (k : A -> M B) : M B :=
  fun tr =>
    match m tr with
    | (Ok a, tr') => k a tr'
    | (Raise e, tr') => (Raise e, tr')
    end.

Definition lift {A : Type} (r : result A) : M A := fun tr => (r, tr).

Definition emit (e : event) : M unit := fun tr => (Ok tt, tr ++ [e]).

Declare Scope pipeline_scope.
Delimit Scope pipeline_scope with pipeline.
Notation "x <- m ;; k" := (bindM m (fun x => k))
  (at level 61, m at next level, right associativity) : pipeline_scope.
Notation "' p <- m ;; k" := (bindM m (fun x => let p := x in k))
  (at level 61, p pattern, m at next level, right associativity) : pipeline_scope.
Notation "m ;; k" := (bindM m (fun _ => k))
  (at level 61, right associativity) : pipeline_scope.

(** A local variable of a Python function: assigned or not yet. *)
Inductive binding (A : Type) : Type :=
| Unbound
| Bound (a : A).

Arguments Unbound {A}.
Arguments Bound {A} a.

Definition read_local {A : Type} (var : string) (b : binding A) : M A :=
  match b with
  | Bound a => ret a
  | Unbound => raise (UnboundLocalError var)
  end.

(** The parsed configuration.  An optional key that is absent is [None];
    for [calibration] and [conditions], [None] also stands for a value that
    Python takes as false (null, an empty mapping). *)
Record calibration_cfg : Type := mkCalibration {
  fluorescein_calibration_wells : list string;
  background_well : option string;
  fluorescein_micromolar_concentration : list Q;
  microliters_in_wells : Q;
  calibration_plot : string
}.

Record plot_cfg : Type := mkPlot {
  source : string;
  plot_cols : list string;
  name : option string;
  title : string;
  units : string;
  filename : string
}.

Record config : Type := mkConfig {
  file_path : option string;
  sheets : option (string * string);          (* od600, fluorescence *)
  rename_map : option (list (string * string));
  plotting : option (list plot_cfg);          (* the "plots" of the section *)
  output_folder : option string;
  clean_replacement : replacement;
  calibration : option calibration_cfg;
  conditions : option (list string)
}.

Record pipeline_output : Type := mkOutput {
  normalized_MEFL_replicates : option DataFrame;
  normalized_MEFL_average : option DataFrame;
  out_slope : option fnum;
  out_intercept : option fnum;
  out_r_squared : option fnum
}.

Definition require {A : Type} (section : string) (v : option A) : M A :=
  match v with
  | Some a => ret a
  | None => raise (KeyError ("Missing required config section: " ++ section))
  end.

Definition info (msg : string) : M unit := emit (Info msg).

Definition join (folder file : string) : string := folder ++ "/" ++ file.

Definition to_csv (df : DataFrame) (path : string) : M unit := emit (ToCsv path df).

(** [df.index = new_index]: refused when the lengths differ. *)
Definition assign_index (df : DataFrame) (new_index : list label) : result DataFrame :=
  if (length new_index =? length (rows df))%nat then
    Ok (mkDF (columns df)
             (map (fun lr : label * row => (fst lr, snd (snd lr)))
                  (combine new_index (rows df))))
  else Raise (ValueError "Length mismatch").

Definition mem (s : string) (l : list string) : bool :=
  existsb (String.eqb s) l.

Local Open Scope pipeline_scope.

Section Pipeline.

Variable set_iter : list string -> list string.

(** Lines 22-51: configuration check, loading, alignment check, overflow
    cleaning, time index. *)
Definition load_and_index (cfg : config) (wb : workbook)
    : M (string * DataFrame * DataFrame) :=
  require "file_path" (file_path cfg) ;;
  sh <- require "sheets" (sheets cfg) ;;
  require "rename_map" (rename_map cfg) ;;
  require "plotting" (plotting cfg) ;;
  let output_folder :=
    match output_folder cfg with Some d => d | None => "results" end in
  df_od600 <- lift (load_xlsx wb (fst sh)) ;;
  df_sfGFP <- lift (load_xlsx wb (snd sh)) ;;
  if negb (index_equals (index df_od600) (index df_sfGFP)) then
    raise (ValueError "OD600 and fluorescence time axes do not match.")
  else
    info "Data imported." ;;
    df_sfGFP <- lift (handle_ovrflw df_sfGFP (clean_replacement cfg)) ;;
    info "Fluorescence data cleaned." ;;
    df_od600 <- lift (index_to_time df_od600) ;;
    df_sfGFP <- lift (assign_index df_sfGFP (index df_od600)) ;;
    info "Time indices set." ;;
    ret (output_folder, df_od600, df_sfGFP).

(** Lines 54-77. *)
Definition calibrate (cfg : config) (output_folder : string) (df_sfGFP : DataFrame)
    : M (option DataFrame * option fnum * option fnum * option fnum) :=
  match calibration cfg with
  | Some calibration_cfg =>
      let fluor_wells := fluorescein_calibration_wells calibration_cfg in
      let background := background_well calibration_cfg in
      let fluor_conc_uM := fluorescein_micromolar_concentration calibration_cfg in
      let well_volume := microliters_in_wells calibration_cfg in
      out <- lift (rfu_to_mefl df_sfGFP fluor_conc_uM well_volume fluor_wells
                     background) ;;
      let '(df_MEFL, RFU, MEFL, Slope, Intercept, R_squared) := out in
      to_csv df_MEFL (join output_folder "MEFL.csv") ;;
      info ("MEFL data saved to " ++ output_folder ++ "/MEFL.csv") ;;
      let conversion_file := calibration_plot calibration_cfg in
      emit (PlotCalibration (join output_folder conversion_file)) ;;
      info "Calibration complete." ;;
      ret (Some df_MEFL, Some Slope, Some Intercept, Some R_squared)
  | None =>
      info "No calibration performed; using raw RFU values." ;;
      ret (None, None, None, None)
  end.

(** [average_replicates] followed by the export of its result. *)
Definition average_and_save (df : DataFrame) (conditions : list string)
    (output_folder file what : string) : M DataFrame :=
  df_avg <- lift (average_replicates set_iter df conditions) ;;
  to_csv df_avg (join output_folder file) ;;
  info ("Averaged " ++ what ++ " replicate data saved to " ++ output_folder ++ "/" ++ file) ;;
  ret df_avg.

(** Lines 150-172: one requested figure. *)
Definition plot_one (df_map : list (string * option DataFrame))
    (output_folder : string) (plot : plot_cfg) : M unit :=
  match lookup (source plot) df_map with
  | Some (Some df_to_plot) =>
      let missing :=
        filter (fun c => negb (mem c (columns df_to_plot))) (plot_cols plot) in
      match missing with
      | [] => emit (PlotColumns (join output_folder (filename plot)))
      | _ =>
          match name plot with
          | Some n =>
              raise (ValueError ("Columns not found in dataframe for plot '" ++ n ++ "'"))
          | None => raise (KeyError "name")
          end
      end
  | _ =>
      raise (ValueError ("Plot source '" ++ source plot
                         ++ "' requested but data not available"))
  end.

Fixpoint plot_all (df_map : list (string * option DataFrame))
    (output_folder : string) (plots : list plot_cfg) : M unit :=
  match plots with
  | [] => ret tt
  | plot :: plots' =>
      plot_one df_map output_folder plot ;;
      plot_all df_map output_folder plots'
  end.

(** Lines 79-185, from renaming to the returned dictionary. *)
Definition analyse (cfg : config) (output_folder : string)
    (df_od600 df_sfGFP : DataFrame) (df_MEFL : option DataFrame)
    (Slope Intercept R_squared : option fnum) : M pipeline_output :=
  rename_map <- require "rename_map" (rename_map cfg) ;;
  let df_od600 := rename_sample_columns df_od600 rename_map in
  let df_sfGFP := rename_sample_columns df_sfGFP rename_map in
  let df_MEFL :=
    match df_MEFL with
    | Some df => Some (rename_sample_columns df rename_map)
    | None => None
    end in
  info "Samples named." ;;
  df_norm_sfGFP <- lift (normalize_by_OD df_od600 df_sfGFP) ;;
  info "RFU normalized by optical density." ;;
  (* df_norm_MEFL is assigned only under [if df_MEFL is not None] *)
  df_norm_MEFL <-
    match df_MEFL with
    | Some df =>
        df_norm_MEFL <- lift (normalize_by_OD df_od600 df) ;;
        info "MEFL normalized by optical density." ;;
        to_csv df_norm_MEFL (join output_folder "normalized_MEFL_replicates.csv") ;;
        info ("normalized MEFL data saved to " ++ output_folder
              ++ "/normalized_MEFL_replicates.csv") ;;
        ret (Bound df_norm_MEFL)
    | None => ret Unbound
    end ;;
  averages <-
    match conditions cfg with
    | Some (c :: cs) =>
        let conditions := c :: cs in
        df_od600_avg <- average_and_save df_od600 conditions output_folder
                          "OD_replicate_averages.csv" "OD600" ;;
        df_sfGFP_avg <- average_and_save df_sfGFP conditions output_folder
                          "RFU_replicate_averages.csv" "RFU" ;;
        df_norm_sfGFP_avg <- average_and_save df_norm_sfGFP conditions output_folder
                               "normalized_RFU_replicate_averages.csv"
                               "normalized RFU" ;;
        df_MEFL_avg <-
          match df_MEFL with
          | Some df =>
              avg <- average_and_save df conditions output_folder
                       "MEFL_replicate_averages.csv" "MEFL" ;;
              ret (Some avg)
          | None => ret None
          end ;;
        (* [if df_norm_MEFL is not None] reads the local variable *)
        df <- read_local "df_norm_MEFL" df_norm_MEFL ;;
        df_norm_MEFL_avg <- average_and_save df conditions output_folder
                              "normalized_MEFL_replicate_averages.csv"
                              "normalized MEFL" ;;
        info "Technical replicates averaged." ;;
        ret (Some df_od600_avg, Some df_sfGFP_avg, Some df_norm_sfGFP_avg,
             df_MEFL_avg, Some df_norm_MEFL_avg)
    | _ => ret (None, None, None, None, None)
    end ;;
  let '(df_od600_avg, df_sfGFP_avg, df_norm_sfGFP_avg, df_MEFL_avg,
        df_norm_MEFL_avg) := averages in
  (* the dictionary literal reads every variable it lists *)
  df_norm_MEFL <- read_local "df_norm_MEFL" df_norm_MEFL ;;
  let df_map :=
    [ ("normalized MEFL average", df_norm_MEFL_avg);
      ("normalized MEFL replicates", Some df_norm_MEFL);
      ("MEFL average", df_MEFL_avg);
      ("MEFL replicates", df_MEFL);
      ("normalized RFU average", df_norm_sfGFP_avg);
      ("normalized RFU replicates", Some df_norm_sfGFP);
      ("RFU average", df_sfGFP_avg);
      ("RFU replicates", Some df_sfGFP);
      ("OD average", df_od600_avg);
      ("OD replicates", Some df_od600) ] in
  plot_configs <- require "plotting" (plotting cfg) ;;
  plot_all df_map output_folder plot_configs ;;
  info "Requested data plotted." ;;
  info "Pipeline completed successfully." ;;
  ret (mkOutput (Some df_norm_MEFL) df_norm_MEFL_avg Slope Intercept R_squared).

Definition run_pipeline (cfg : config) (wb : workbook) : M pipeline_output :=
  ' (output_folder, df_od600, df_sfGFP) <- load_and_index cfg wb ;;
  ' (df_MEFL, Slope, Intercept, R_squared) <- calibrate cfg output_folder df_sfGFP ;;
  analyse cfg output_folder df_od600 df_sfGFP df_MEFL Slope Intercept R_squared.

End Pipeline.

(* ================================================================== *)
(** ** plotting.py

    What [plot_columns] asks matplotlib to draw: one curve per pass of its
    loop, and the file the figure is saved to.  The drawing itself is
    matplotlib's. *)

(** A colour: an entry of the tab10 palette, or one the caller named. *)
Inductive color : Type :=
| Tab10 (i : nat)
| Named (name : string).

(** [cm.tab10.colors]: the ten colours of the palette. *)
Definition tab10_colors : list color := map Tab10 (seq 0 10).

(** One call of [plt.plot(df.index, df.loc[:, col], color=, label=)]. *)
Record curve : Type := mkCurve {
  curve_column : string;
  curve_x : list label;
  curve_y : list (list cell);
  curve_color : color;
  curve_label : string
}.

Record figure : Type := mkFigure {
  fig_curves : list curve;
  fig_title : string;
  fig_xlabel : string;
  fig_ylabel : string;
  fig_path : string
}.

(** [zip(a, b, c)]: as long as the shortest of the three. *)
Fixpoint zip3 {A B C : Type} (a : list A) (b : list B) (c : list C)
    : list (A * B * C) :=
  match a, b, c with
  | x :: a', y :: b', z :: c' => (x, y, z) :: zip3 a' b' c'
  | _, _, _ => []
  end.

(** [df.loc[:, col]]: every column carrying the label; KeyError when there
    is none. *)
Definition loc_column (df : DataFrame) (col : string) : result (list (list cell)) :=
  match positions col (columns df) with
  | [] => Raise (KeyError col)
  | ps => Ok (map (fun j => column j df) ps)
  end.

Definition plot_columns (df : DataFrame) (columns : list string) (title units : string)
    (output_folder filename : string) (colors : option (list color))
    (labels : option (list string)) : result (figure * DataFrame) :=
  let labels := match labels with Some l => l | None => columns end in
  let colors :=
    match colors with
    | Some c => c
    | None => firstn (length columns) tab10_colors
    end in
  do curves <- mapM (fun clc : string * color * string =>
                       let '(col, color, label) := clc in
                       do y <- loc_column df col;
                       Ok (mkCurve col (index df) y color label))
                    (zip3 columns colors labels);
  Ok (mkFigure curves title "Time (hours)" units (join output_folder filename), df).


(* ================================================================== *)
(** * Specification vocabulary

    What the statements below say about tables, written without reference
    to the loops of the source, and the intermediate states of those loops
    that the proofs go through ([sweep_with], [sweep], [fix_row]). *)

Fixpoint mapi_from {A B : Type} (k : nat) (f : nat -> A -> B) (l : list A) : list B :=
  match l with
  | [] => []
  | a :: l' => f k a :: mapi_from (S k) f l'
  end.

(** [mapi f l]: [f] applied to every element together with its position. *)
Definition mapi {A B : Type} (f : nat -> A -> B) (l : list A) : list B :=
  mapi_from 0 f l.

(** The cell holds the overflow sentinel. *)
Definition is_sentinel (c : cell) : bool :=
  match c with
  | CStr s => String.eqb s "OVRFLW"
  | _ => false
  end.

Definition is_NA (c : cell) : bool :=
  match c with
  | CNA => true
  | _ => false
  end.

(** What an overflow cell is to become: the substitute when one is given,
    the missing-data marker otherwise. *)
Definition substitute (integer : replacement) : cell :=
  match integer with
  | RFalse => CNA
  | RNum q => CNum (Fin q)
  end.

(** The cell at column position [j] after cleaning with [v]. *)
Definition clean_cell (v : cell) (j : nat) (c : cell) : cell :=
  if (1 <? j)%nat && is_sentinel c then v else c.

Definition cleaned (v : cell) (df : DataFrame) : DataFrame :=
  mkDF (columns df) (map (fun r : row => (fst r, mapi (clean_cell v) (snd r))) (rows df)).

(** No pd.NA outside the first two columns. *)
Definition no_NA_outside_metadata (df : DataFrame) : bool :=
  forallb (fun r : row => forallb (fun c => negb (is_NA c)) (skipn 2 (snd r))) (rows df).

(** The substitute is absent, or it is a number other than zero. *)
Definition usable (integer : replacement) : bool :=
  match integer with
  | RFalse => true
  | RNum _ => ne_False integer
  end.

(** A row whose cells at the column positions below [a] went through [g]:
    the state of a row while a loop walks the columns from the left. *)
Definition sweep_with (g : nat -> cell -> cell) (a : nat) (r : row) : row :=
  (fst r, mapi (fun k c => if (k <? a)%nat then g k c else c) (snd r)).

(** The row after the overflow loop has passed the column positions below
    [a]. *)
Definition sweep (v : cell) (a : nat) (r : row) : row :=
  sweep_with (clean_cell v) a r.

(** The row after one pass of the inner loop over column position [j]. *)
Definition fix_row (v : cell) (j : nat) (r : row) : row :=
  (fst r,
   match nth_error (snd r) j with
   | Some c => if is_sentinel c then set_nth j v (snd r) else snd r
   | None => snd r
   end).

(** [hour + minute/60 + second/3600] of a time of day. *)
Definition elapsed_hours (time : cell) : Q :=
  match time with
  | CTime h m s => inject_Z h + inject_Z m / 60 + inject_Z s / 3600
  | _ => 0
  end.

Definition is_time (c : cell) : bool :=
  match c with
  | CTime _ _ _ => true
  | _ => false
  end.

(** The row label is the float [q], up to the representation of [q]. *)
Definition label_is (l : label) (q : Q) : Prop :=
  exists q', l = LFloat (Fin q') /\ q' == q.




(** The label begins with one of the eight row letters of a plate. *)
Definition row_letters : list ascii := ["A"; "B"; "C"; "D"; "E"; "F"; "G"; "H"]%char.

Definition begins_with_row_letter (col : string) : bool :=
  match col with
  | String c _ => existsb (Ascii.eqb c) row_letters
  | EmptyString => false
  end.

(** [c'] is what calibration makes of [c]: [value * slope + intercept] of
    a number, a missing-data marker of a missing cell. *)
Definition is_calibrated (slope intercept : fnum) (c c' : cell) : Prop :=
  match c with
  | CNum x => c' = CNum (fadd (fmul x slope) intercept)
  | CNA | CNone => isna c' = true
  | CStr _ | CTime _ _ _ => False
  end.

(** The calibrated cell in closed form, for a column that holds a None
    ([masked]) or does not. *)
Definition calibrated_cell (masked : bool) (slope intercept : fnum) (c : cell) : cell :=
  match c with
  | CNum x => CNum (fadd (fmul x slope) intercept)
  | CNone => CNum NaN
  | CNA => if masked then CNum NaN else CNA
  | _ => c
  end.

(** The cell at column position [j] of the calibrated table: converted under
    a well label, as it was under any other label. *)
Definition calibrate_at (df : DataFrame) (slope intercept : fnum)
    (j : nat) (c : cell) : cell :=
  if is_well (nth j (columns df) "")
  then calibrated_cell (existsb is_None (column j df)) slope intercept c
  else c.

Definition calibrated_table (slope intercept : fnum) (df : DataFrame) : DataFrame :=
  mkDF (columns df)
       (map (fun r : row => (fst r, mapi (calibrate_at df slope intercept) (snd r)))
            (rows df)).

(** No two columns share a label that begins with a row letter. *)
Definition well_labels_distinct (df : DataFrame) : bool :=
  forallb (fun col => negb (begins_with_row_letter col)
                      || (length (positions col (columns df)) =? 1)%nat)
          (columns df).

(** Numbers or missing-data markers in every cell under a label that begins
    with a row letter. *)
Definition wells_numeric (df : DataFrame) : bool :=
  forallb (fun r : row =>
             forallb (fun b : bool => b)
               (mapi (fun j c => negb (begins_with_row_letter (nth j (columns df) ""))
                                 || numeric_or_missing c)
                     (snd r)))
          (rows df).

(** Some condition of [conds] is a prefix of the label. *)
Definition matched (conds : list string) (col : string) : bool :=
  existsb (fun cond => startswith col cond) conds.

(** Numbers or missing-data markers in every cell of a matched column. *)
Definition matched_numeric (conds : list string) (df : DataFrame) : bool :=
  forallb (fun r : row =>
             forallb (fun b : bool => b)
               (mapi (fun j c => negb (matched conds (nth j (columns df) ""))
                                 || numeric_or_missing c)
                     (snd r)))
          (rows df).

(** The condition names no column: no column label starts with it. *)
Definition matches_nothing (cond : string) (df : DataFrame) : bool :=
  forallb (fun col => negb (startswith col cond)) (columns df).

(** The first of the required sections, in the order the run checks them,
    that the configuration lacks. *)
Definition first_missing_section (cfg : config) : option string :=
  match file_path cfg, sheets cfg, rename_map cfg, plotting cfg with
  | None, _, _, _ => Some "file_path"
  | Some _, None, _, _ => Some "sheets"
  | Some _, Some _, None, _ => Some "rename_map"
  | Some _, Some _, Some _, None => Some "plotting"
  | Some _, Some _, Some _, Some _ => None
  end.

(** The first of the two sheets, optical density before fluorescence, that
    the workbook lacks. *)
Definition first_missing_sheet (wb : workbook) (sh : string * string) : option string :=
  match lookup (fst sh) wb, lookup (snd sh) wb with
  | None, _ => Some (fst sh)
  | Some _, None => Some (snd sh)
  | Some _, Some _ => None
  end.

(** Every data row of the sheet has one cell per header cell. *)
Definition rectangular (ws : sheet) : bool :=
  forallb (fun r : list cell => (length r =? length (header ws))%nat) (body ws).

(** No pd.NA outside the first two columns of the sheet. *)
Definition sheet_no_NA (ws : sheet) : bool :=
  forallb (fun r : list cell => forallb (fun c => negb (is_NA c)) (skipn 2 r)) (body ws).




(** The column positions whose label starts with [cond], each once, from
    the left. *)
Definition matched_positions (cond : string) (df : DataFrame) : list nat :=
  filter (fun j => startswith (nth j (columns df) "") cond)
         (seq 0 (length (columns df))).

(** The column positions that [df[replicate_cols]] selects for [cond]:
    the labels that start with [cond] are looked up one by one, and a label
    shared by several columns selects them all every time it is listed. *)
Definition selected_positions (df : DataFrame) (cond : string) : list nat :=
  match getitem_positions (columns df)
          (filter (fun col => startswith col cond) (columns df)) with
  | Ok ps => ps
  | Raise _ => []
  end.

(** The conditions that are a prefix of some column label, in the order
    given. *)
Definition matching (conds : list string) (df : DataFrame) : list string :=
  filter (fun cond => negb (matches_nothing cond df)) conds.

(** The mean of some cells as a cell. *)
Definition mean_cell (cells : list cell) : cell :=
  match mean cells with
  | Ok x => CNum x
  | Raise _ => CNone
  end.

(** The table holding, for every condition of [conds] and every row of
    [df], the mean of the row's cells at the positions [sel cond]. *)
Definition averaged (sel : string -> list nat) (conds : list string) (df : DataFrame)
    : DataFrame :=
  mkDF conds
       (map (fun r : row =>
               (fst r, map (fun cond => mean_cell (select (sel cond) (snd r))) conds))
            (rows df)).

(** A finite number, or one of the missing-data markers of a numeric
    column (NaN, None). *)
Definition finite_or_missing (c : cell) : bool :=
  match c with
  | CNum (Fin _) | CNum NaN | CNone => true
  | _ => false
  end.

(** The finite numbers among some cells, in order. *)
Fixpoint finite_cells (cs : list cell) : list Q :=
  match cs with
  | [] => []
  | CNum (Fin q) :: cs' => q :: finite_cells cs'
  | _ :: cs' => finite_cells cs'
  end.

(** The files a trace wrote, and the figures it drew, in order. *)
Fixpoint csv_files (tr : list event) : list string :=
  match tr with
  | [] => []
  | ToCsv path _ :: tr' => path :: csv_files tr'
  | _ :: tr' => csv_files tr'
  end.

Fixpoint figures (tr : list event) : list string :=
  match tr with
  | [] => []
  | PlotCalibration path :: tr' => path :: figures tr'
  | PlotColumns path :: tr' => path :: figures tr'
  | _ :: tr' => figures tr'
  end.

(** The names of the five tables of replicate averages, in the order a run
    writes them. *)
Definition average_files : list string :=
  [ "OD_replicate_averages.csv"; "RFU_replicate_averages.csv";
    "normalized_RFU_replicate_averages.csv"; "MEFL_replicate_averages.csv";
    "normalized_MEFL_replicate_averages.csv" ].

(** The table a plot asks for is there. *)
Definition source_available (df_map : list (string * option DataFrame)) (p : plot_cfg)
    : bool :=
  match lookup (source p) df_map with
  | Some (Some _) => true
  | _ => false
  end.

(** The table a plot asks for is there and has every column it asks for. *)
Definition drawable (df_map : list (string * option DataFrame)) (p : plot_cfg) : bool :=
  match lookup (source p) df_map with
  | Some (Some d) => forallb (fun c => mem c (columns d)) (plot_cols p)
  | _ => false
  end.


(** The configuration lists at least one condition. *)
Definition has_conditions (cfg : config) : bool :=
  match conditions cfg with
  | Some (_ :: _) => true
  | _ => false
  end.

(* ================================================================== *)
(** * Example inputs *)

Definition num (z : Z) : cell := CNum (Fin (inject_Z z)).

(** Two reading cycles of two wells; the fluorescence sheet was read at
    other times of day than the optical-density sheet. *)
Definition od_sheet : sheet :=
  mkSheet ["Time"; "Temp"; "A1"; "A2"]
          [ [CTime 0 0 0; num 30; num 1; num 1];
            [CTime 0 30 0; num 30; num 1; num 1] ].

Definition fl_sheet : sheet :=
  mkSheet ["Time"; "Temp"; "A1"; "A2"]
          [ [CTime 0 0 0; num 30; num 2; num 3];
            [CTime 0 45 0; num 30; num 4; num 6] ].

(** A fluorescence sheet with one reading cycle more. *)
Definition fl_sheet_long : sheet :=
  mkSheet ["Time"; "Temp"; "A1"; "A2"]
          [ [CTime 0 0 0; num 30; num 2; num 3];
            [CTime 0 30 0; num 30; num 4; num 6];
            [CTime 1 0 0; num 30; num 6; num 9] ].

Definition example_workbook : workbook :=
  [("OD600", od_sheet); ("GFP", fl_sheet); ("GFP long", fl_sheet_long)].

Definition example_calibration : calibration_cfg :=
  mkCalibration ["A1"; "A2"] None [1; 2] 200 "calibration.png".

Definition example_rename_map : list (string * string) :=
  [("A1", "cond"); ("A2", "cond")].

Definition config_with_calibration : config :=
  mkConfig (Some "plate.xlsx") (Some ("OD600", "GFP")) (Some example_rename_map)
           (Some []) None RFalse (Some example_calibration) None.

Definition config_without_calibration : config :=
  mkConfig (Some "plate.xlsx") (Some ("OD600", "GFP")) (Some example_rename_map)
           (Some []) None RFalse None None.

Definition config_long_sheet : config :=
  mkConfig (Some "plate.xlsx") (Some ("OD600", "GFP long")) (Some example_rename_map)
           (Some []) None RFalse (Some example_calibration) None.

(** The order in which the examples iterate a set: first occurrences. *)
Definition first_occurrences : list string -> list string := nodup string_dec.

(** The log lines of a trace. *)
Fixpoint info_lines (tr : list event) : list string :=
  match tr with
  | [] => []
  | Info msg :: tr' => msg :: info_lines tr'
  | _ :: tr' => info_lines tr'
  end.

(** A loaded optical-density table whose second reading is incomplete. *)
Definition od_table : DataFrame :=
  mkDF ["Time"; "Temp"; "A1"; "A2"]
       [ (LInt 0, [CTime 0 0 0; num 30; num 1; num 1]);
         (LInt 1, [CTime 0 30 0; num 30; CNone; num 1]);
         (LInt 2, [CTime 1 15 0; num 30; num 1; num 1]) ].

(** A loaded fluorescence table with one overflow reading. *)
Definition overflow_table : DataFrame :=
  mkDF ["Time"; "Temp"; "A1"; "A2"]
       [ (LInt 0, [CTime 0 0 0; num 30; num 2; num 3]);
         (LInt 1, [CTime 0 30 0; num 30; CStr "OVRFLW"; num 6]) ].

(** The same readings in a table indexed by elapsed hours. *)
Definition overflow_table_by_time : DataFrame :=
  mkDF ["Time"; "Temp"; "A1"; "A2"]
       [ (LFloat (Fin 0), [CTime 0 0 0; num 30; num 2; num 3]);
         (LFloat (Fin (1 # 2)), [CTime 0 30 0; num 30; CStr "OVRFLW"; num 6]) ].

(** [overflow_table] with the overflow reading replaced by [c]. *)
Definition overflow_replaced (c : cell) : DataFrame :=
  mkDF ["Time"; "Temp"; "A1"; "A2"]
       [ (LInt 0, [CTime 0 0 0; num 30; num 2; num 3]);
         (LInt 1, [CTime 0 30 0; num 30; c; num 6]) ].







(** Fluorescence readings of two calibration wells and one sample well. *)
Definition fl_calibration : DataFrame :=
  mkDF ["Time"; "Temp"; "A1"; "A2"; "B1"]
       [ (LInt 0, [CTime 0 0 0; num 30; num 10; num 20; num 7]);
         (LInt 1, [CTime 0 30 0; num 30; num 10; num 20; CNone]) ].

(** Section 8.6 of the specification: three readings of two wells, already
    indexed by elapsed hours and renamed to one condition. *)
Definition od_scenario : DataFrame :=
  mkDF ["Time"; "Temp"; "cond"; "cond"]
       [ (LFloat (Fin 0), [CTime 0 0 0; num 30; num 1; num 1]);
         (LFloat (Fin (1 # 2)), [CTime 0 30 0; num 30; num 1; num 1]);
         (LFloat (Fin 1), [CTime 1 0 0; num 30; num 1; num 1]) ].

Definition fl_scenario : DataFrame :=
  mkDF ["Time"; "Temp"; "cond"; "cond"]
       [ (LFloat (Fin 0), [CTime 0 0 0; num 30; num 2; num 3]);
         (LFloat (Fin (1 # 2)), [CTime 0 30 0; num 30; num 4; num 6]);
         (LFloat (Fin 1), [CTime 1 0 0; num 30; num 6; num 9]) ].

(** Three renamed wells: two replicates of "WT" and one well of "WT2". *)
Definition replicate_table : DataFrame :=
  mkDF ["WT"; "WT"; "WT2"] [ (LFloat (Fin 0), [num 1; num 2; num 6]) ].

(** A configuration without the rename map, and one naming a sheet the
    example workbook does not have. *)
Definition config_without_rename_map : config :=
  mkConfig (Some "plate.xlsx") (Some ("OD600", "GFP")) None
           (Some []) None RFalse (Some example_calibration) None.

Definition config_unknown_sheet : config :=
  mkConfig (Some "plate.xlsx") (Some ("OD600", "mCherry")) (Some example_rename_map)
           (Some []) None RFalse (Some example_calibration) None.

(** A fluorescence sheet with one overflow reading. *)
Definition overflow_sheet : sheet :=
  mkSheet ["Time"; "Temp"; "A1"; "A2"]
          [ [CTime 0 0 0; num 30; num 2; num 3];
            [CTime 0 30 0; num 30; CStr "OVRFLW"; num 6] ].

(** A table whose second time of day was read as text. *)
Definition od_text_time : DataFrame :=
  mkDF ["Time"; "Temp"; "A1"]
       [ (LInt 0, [CTime 0 0 0; num 30; num 1]);
         (LInt 1, [CStr "0:30:00"; num 30; num 1]) ].

(** Three wells under labels of their own; one reading is missing. *)
Definition named_wells : DataFrame :=
  mkDF ["WT_1"; "WT_2"; "mut_1"]
       [ (LFloat (Fin 0), [num 1; num 3; num 5]);
         (LFloat (Fin (1 # 2)), [num 2; CNone; num 7]) ].

(** A run with calibration, one condition and one figure. *)
Definition example_plot : plot_cfg :=
  mkPlot "normalized MEFL average" ["cond"] (Some "MEFL per OD")
         "Normalized MEFL" "MEFL/OD600" "normalized_MEFL.png".

Definition config_with_conditions : config :=
  mkConfig (Some "plate.xlsx") (Some ("OD600", "GFP")) (Some example_rename_map)
           (Some [example_plot]) None RFalse (Some example_calibration) (Some ["cond"]).

(** Two figures: one of a table that is there, one of averages that were
    not computed. *)
Definition plot_of_replicates : plot_cfg :=
  mkPlot "OD replicates" ["A1"; "A2"] (Some "OD") "Growth" "OD600" "od.png".

Definition plot_of_averages : plot_cfg :=
  mkPlot "OD average" ["cond"] (Some "OD mean") "Mean growth" "OD600" "od_mean.png".

Definition tables_without_averages : list (string * option DataFrame) :=
  [ ("OD average", None); ("OD replicates", Some od_table) ].

(** One reading of eleven samples. *)
Definition eleven_samples : DataFrame :=
  mkDF ["s1"; "s2"; "s3"; "s4"; "s5"; "s6"; "s7"; "s8"; "s9"; "s10"; "s11"]
       [ (LFloat (Fin 0),
          [num 1; num 2; num 3; num 4; num 5; num 6; num 7; num 8; num 9; num 10; num 11]) ].


(* ================================================================== *)
(** * Lists: positions and updates *)

Lemma nth_error_set_nth {A : Type} (n k : nat) (a : A) (l : list A) :
  nth_error (set_nth n a l) k =
  if (k =? n)%nat then (if (k <? length l)%nat then Some a else None)
  else nth_error l k.
Proof.
  revert n k. induction l as [|x l IH]; intros n k.
  - simpl. destruct (k =? n)%nat; destruct n, k; reflexivity.
  - destruct n as [|n], k as [|k]; simpl; try reflexivity.
    rewrite IH. reflexivity.
Qed.

Lemma set_nth_app_middle {A : Type} (done : list A) (x y : A) (todo : list A) :
  set_nth (length done) y (done ++ x :: todo) = done ++ y :: todo.
Proof.
  induction done as [|d done IH]; simpl; [reflexivity|]. now rewrite IH.
Qed.

Lemma nth_error_app_middle {A : Type} (done : list A) (x : A) (todo : list A) :
  nth_error (done ++ x :: todo) (length done) = Some x.
Proof.
  induction done as [|d done IH]; simpl; auto.
Qed.

Lemma nth_error_mapi_from {A B : Type} (f : nat -> A -> B) (l : list A) (k n : nat) :
  nth_error (mapi_from k f l) n = option_map (f (k + n)%nat) (nth_error l n).
Proof.
  revert k n. induction l as [|a l IH]; intros k [|n]; simpl; try reflexivity.
  - now rewrite Nat.add_0_r.
  - rewrite IH. now rewrite Nat.add_succ_r.
Qed.

Lemma nth_error_mapi {A B : Type} (f : nat -> A -> B) (l : list A) (n : nat) :
  nth_error (mapi f l) n = option_map (f n) (nth_error l n).
Proof.
  unfold mapi. now rewrite nth_error_mapi_from.
Qed.

Lemma mapi_from_length {A B : Type} (f : nat -> A -> B) (l : list A) (k : nat) :
  length (mapi_from k f l) = length l.
Proof.
  revert k. induction l as [|a l IH]; intros k; simpl; auto.
Qed.

Lemma mapi_length {A B : Type} (f : nat -> A -> B) (l : list A) :
  length (mapi f l) = length l.
Proof.
  apply mapi_from_length.
Qed.

(** Two position-wise maps agree when their functions agree on the cells
    that are there. *)
Lemma mapi_ext_in {A B : Type} (f g : nat -> A -> B) (l : list A) :
  (forall n a, nth_error l n = Some a -> f n a = g n a) -> mapi f l = mapi g l.
Proof.
  intros H. apply nth_error_ext. intros n. rewrite !nth_error_mapi.
  destruct (nth_error l n) as [a|] eqn:E; simpl; [|reflexivity].
  now rewrite (H n a E).
Qed.

Lemma mapi_id {A : Type} (f : nat -> A -> A) (l : list A) :
  (forall n a, nth_error l n = Some a -> f n a = a) -> mapi f l = l.
Proof.
  intros H. apply nth_error_ext. intros n. rewrite nth_error_mapi.
  destruct (nth_error l n) as [a|] eqn:E; simpl; [|reflexivity].
  now rewrite (H n a E).
Qed.

Lemma nth_error_skipn_In {A : Type} (k j : nat) (l : list A) (a : A) :
  (k <= j)%nat -> nth_error l j = Some a -> In a (skipn k l).
Proof.
  revert j l. induction k as [|k IH]; intros j l Hk E.
  - simpl. eapply nth_error_In; eauto.
  - destruct j as [|j]; [lia|]. destruct l as [|x l]; [discriminate|].
    simpl in *. apply (IH j); [lia|assumption].
Qed.


(* ================================================================== *)
(** * handle_ovrflw *)

Lemma iloc_row_in_range (n k : nat) :
  (k < n)%nat -> iloc_row n (LInt (Z.of_nat k)) = Ok k.
Proof.
  intros H. unfold iloc_row.
  replace (0 <=? Z.of_nat k)%Z with true by (symmetry; apply Z.leb_le; lia).
  replace (Z.of_nat k <? Z.of_nat n)%Z with true by (symmetry; apply Z.ltb_lt; lia).
  simpl. now rewrite Nat2Z.id.
Qed.

Lemma eq_OVRFLW_not_NA (c : cell) :
  is_NA c = false -> eq_OVRFLW c = Ok (is_sentinel c).
Proof.
  destruct c; simpl; intros H; try reflexivity; discriminate.
Qed.

Lemma replacement_cell_usable (integer : replacement) :
  usable integer = true -> replacement_cell integer = substitute integer.
Proof.
  destruct integer as [|q]; simpl; [reflexivity|]. intros ->. reflexivity.
Qed.

(** The inner loop over the rows still to visit, when the labels are the
    row positions. *)
Lemma ovrflw_rows_range (integer : replacement) (j : nat) (cs : list string)
    (todo done : list row) :
  usable integer = true ->
  map fst todo = map (fun i => LInt (Z.of_nat i)) (seq (length done) (length todo)) ->
  Forall (fun r : row => exists c, nth_error (snd r) j = Some c /\ is_NA c = false) todo ->
  ovrflw_rows integer j (map fst todo) (mkDF cs (done ++ todo)) =
  (mkDF cs (done ++ map (fix_row (substitute integer) j) todo), None).
Proof.
  intros Hu. revert done. induction todo as [|r todo IH]; intros done Hl Hc.
  - reflexivity.
  - inversion Hc as [|? ? [c [Ec Hna]] Hc']; subst.
    simpl in Hl. injection Hl as Hr Hl.
    assert (Hlt : (length done < length (done ++ r :: todo))%nat)
      by (rewrite length_app; simpl; lia).
    simpl map. simpl ovrflw_rows. unfold iloc_get. simpl rows.
    rewrite Hr, (iloc_row_in_range _ _ Hlt). simpl bind.
    rewrite nth_error_app_middle, Ec, (eq_OVRFLW_not_NA _ Hna).
    assert (Hstep : forall r', fst r' = fst r ->
              ovrflw_rows integer j (map fst todo) (mkDF cs (done ++ r' :: todo)) =
              (mkDF cs (done ++ r' :: map (fix_row (substitute integer) j) todo), None)).
    { intros r' _.
      change (r' :: todo) with ([r'] ++ todo).
      change (r' :: map (fix_row (substitute integer) j) todo)
        with ([r'] ++ map (fix_row (substitute integer) j) todo).
      rewrite !app_assoc. apply IH; [|assumption].
      rewrite length_app. simpl. now rewrite Nat.add_1_r. }
    destruct (is_sentinel c) eqn:Es.
    + unfold iloc_set. simpl rows. simpl columns.
      rewrite nth_error_app_middle, set_nth_app_middle.
      rewrite (replacement_cell_usable _ Hu).
      rewrite Hstep by reflexivity.
      unfold fix_row at 2. now rewrite Ec, Es.
    + rewrite Hstep by reflexivity.
      unfold fix_row at 2. rewrite Ec, Es. now destruct r.
Qed.

(** Writing [g a c] at position [a] moves the sweep one column to the
    right. *)
Lemma sweep_with_set (g : nat -> cell -> cell) (a : nat) (r : row) (c : cell) :
  nth_error (snd r) a = Some c ->
  (fst r, set_nth a (g a c) (snd (sweep_with g a r))) = sweep_with g (S a) r.
Proof.
  intros Ec. unfold sweep_with. simpl. f_equal.
  apply nth_error_ext. intros k.
  rewrite nth_error_set_nth, !nth_error_mapi, mapi_length.
  destruct (Nat.eqb_spec k a) as [->|Hk].
  - rewrite Ec. simpl.
    assert (Hlen : (a < length (snd r))%nat) by (apply nth_error_Some; congruence).
    apply Nat.ltb_lt in Hlen. rewrite Hlen.
    replace (a <? S a)%nat with true by (symmetry; apply Nat.ltb_lt; lia).
    reflexivity.
  - destruct (nth_error (snd r) k); simpl; [|reflexivity].
    replace (k <? S a)%nat with (k <? a)%nat; [reflexivity|].
    destruct (Nat.ltb_spec k a), (Nat.ltb_spec k (S a)); try reflexivity; lia.
Qed.

(** A position whose cell [g] leaves alone is passed without a change. *)
Lemma sweep_with_skip (g : nat -> cell -> cell) (a : nat) (r : row) :
  (forall c, nth_error (snd r) a = Some c -> g a c = c) ->
  sweep_with g (S a) r = sweep_with g a r.
Proof.
  intros Hg. unfold sweep_with. f_equal. apply mapi_ext_in. intros k c Ek.
  destruct (Nat.ltb_spec k a), (Nat.ltb_spec k (S a)); try reflexivity; try lia.
  assert (k = a) by lia. subst k. now apply Hg.
Qed.

Lemma sweep_with_0 (g : nat -> cell -> cell) (r : row) : sweep_with g 0 r = r.
Proof.
  unfold sweep_with. destruct r as [l cells]. simpl. f_equal.
  apply mapi_id. reflexivity.
Qed.

Lemma sweep_with_all (g : nat -> cell -> cell) (n : nat) (r : row) :
  (length (snd r) <= n)%nat -> sweep_with g n r = (fst r, mapi g (snd r)).
Proof.
  intros Hn. unfold sweep_with. f_equal. apply mapi_ext_in. intros k c Ek.
  assert (k < length (snd r))%nat by (apply nth_error_Some; congruence).
  replace (k <? n)%nat with true by (symmetry; apply Nat.ltb_lt; lia).
  reflexivity.
Qed.

Lemma sweep_with_cell (g : nat -> cell -> cell) (a : nat) (r : row) :
  nth_error (snd (sweep_with g a r)) a = nth_error (snd r) a.
Proof.
  unfold sweep_with. simpl. rewrite nth_error_mapi.
  destruct (nth_error (snd r) a); simpl; [|reflexivity].
  now rewrite Nat.ltb_irrefl.
Qed.

(** One pass of the inner loop moves the sweep one column to the right. *)
Lemma fix_row_sweep (v : cell) (a : nat) (r : row) :
  (1 < a)%nat -> fix_row v a (sweep v a r) = sweep v (S a) r.
Proof.
  intros Ha. unfold fix_row, sweep. rewrite sweep_with_cell.
  change (fst (sweep_with (clean_cell v) a r)) with (fst r).
  destruct (nth_error (snd r) a) as [c|] eqn:Ec.
  - destruct (is_sentinel c) eqn:Es.
    + rewrite <- (sweep_with_set _ _ _ _ Ec). unfold clean_cell. rewrite Es.
      replace (1 <? a)%nat with true by (symmetry; apply Nat.ltb_lt; lia).
      reflexivity.
    + rewrite sweep_with_skip; [reflexivity|].
      intros c' Ec'. assert (c' = c) by congruence. subst c'.
      unfold clean_cell. rewrite Es. now rewrite andb_false_r.
  - rewrite sweep_with_skip; [reflexivity|]. intros c' Ec'. congruence.
Qed.

(** The first two column positions are passed without a change. *)
Lemma sweep_metadata (v : cell) (a : nat) (r : row) :
  (a <= 1)%nat -> sweep v (S a) r = sweep v a r.
Proof.
  intros Ha. apply sweep_with_skip. intros c _. unfold clean_cell.
  replace (1 <? a)%nat with false by (symmetry; apply Nat.ltb_ge; lia).
  reflexivity.
Qed.

(** The outer loop from column position [a] on, started from the table
    swept up to [a]. *)
Lemma ovrflw_cols_sweep (integer : replacement) (cs : list string) (rs : list row)
    (b a : nat) :
  usable integer = true ->
  Forall (fun r : row => length (snd r) = length cs) rs ->
  map fst rs = range_labels (length rs) ->
  forallb (fun r : row => forallb (fun c => negb (is_NA c)) (skipn 2 (snd r))) rs = true ->
  (a + b = length cs)%nat ->
  ovrflw_cols integer (seq a b) (mkDF cs (map (sweep (substitute integer) a) rs)) =
  (mkDF cs (map (sweep (substitute integer) (a + b)) rs), None).
Proof.
  intros Hu Hwf Hidx Hna. revert a.
  induction b as [|b IH]; intros a Hab.
  - simpl. now rewrite Nat.add_0_r.
  - simpl seq. simpl ovrflw_cols.
    replace (a + S b)%nat with (S a + b)%nat by lia.
    destruct (Nat.ltb_spec 1 a) as [Ha|Ha].
    + unfold index. simpl rows.
      pose proof (ovrflw_rows_range integer a cs
                    (map (sweep (substitute integer) a) rs) [] Hu) as Hin.
      simpl app in Hin. rewrite Hin; clear Hin.
      * rewrite map_map.
        rewrite (map_ext _ _ (fun r => fix_row_sweep (substitute integer) a r Ha)).
        apply IH. lia.
      * rewrite map_map, length_map. simpl length.
        etransitivity; [|exact Hidx]. apply map_ext. reflexivity.
      * apply Forall_forall. intros r' Hr'.
        apply in_map_iff in Hr' as [r [<- Hr]].
        unfold sweep. rewrite sweep_with_cell.
        rewrite Forall_forall in Hwf. specialize (Hwf r Hr).
        destruct (nth_error (snd r) a) as [c|] eqn:Ec.
        -- exists c. split; [reflexivity|].
           rewrite forallb_forall in Hna. specialize (Hna r Hr).
           rewrite forallb_forall in Hna.
           specialize (Hna c (nth_error_skipn_In 2 a _ c Ha Ec)).
           now destruct (is_NA c).
        -- apply nth_error_None in Ec. lia.
    + rewrite <- (map_ext _ _ (fun r => sweep_metadata (substitute integer) a r Ha)).
      apply IH. lia.
Qed.

(** [handle_ovrflw] on a freshly loaded table (row labels 0, 1, ...) that
    holds no pd.NA outside its first two columns, with no substitute or a
    substitute other than zero. *)
Lemma handle_ovrflw_cleaned (df : DataFrame) (integer : replacement) :
  wf df ->
  index df = range_labels (length (rows df)) ->
  no_NA_outside_metadata df = true ->
  usable integer = true ->
  handle_ovrflw df integer = Ok (cleaned (substitute integer) df).
Proof.
  intros Hwf Hidx Hna Hu. destruct df as [cs rs].
  unfold wf, index, no_NA_outside_metadata in *. simpl in *.
  unfold handle_ovrflw, ovrflw_loop. simpl columns.
  pose proof (ovrflw_cols_sweep integer cs rs (length cs) 0 Hu Hwf Hidx Hna eq_refl) as H.
  rewrite (map_ext _ _ (sweep_with_0 (clean_cell (substitute integer)))), map_id in H.
  rewrite H. unfold cleaned. simpl. do 2 f_equal.
  apply map_ext_in. intros r Hr. apply sweep_with_all.
  rewrite Forall_forall in Hwf. rewrite (Hwf r Hr). lia.
Qed.


Lemma clean_cell_idempotent (v : cell) (j : nat) (c : cell) :
  is_sentinel v = false -> clean_cell v j (clean_cell v j c) = clean_cell v j c.
Proof.
  intros Hv. unfold clean_cell.
  destruct ((1 <? j)%nat && is_sentinel c) eqn:E; [|now rewrite E].
  now rewrite Hv, andb_false_r.
Qed.

Lemma mapi_mapi {A B C : Type} (f : nat -> A -> B) (g : nat -> B -> C) (l : list A) :
  mapi g (mapi f l) = mapi (fun j a => g j (f j a)) l.
Proof.
  apply nth_error_ext. intros n. rewrite !nth_error_mapi.
  now destruct (nth_error l n).
Qed.

(** Cleaning a cleaned table changes nothing, as long as the substitute is
    not itself the sentinel. *)
Lemma cleaned_idempotent (v : cell) (df : DataFrame) :
  is_sentinel v = false -> cleaned v (cleaned v df) = cleaned v df.
Proof.
  intros Hv. unfold cleaned. simpl. f_equal. rewrite map_map. apply map_ext.
  intros r. simpl. f_equal. rewrite mapi_mapi. apply mapi_ext_in.
  intros j c _. now apply clean_cell_idempotent.
Qed.

Lemma cleaned_wf (v : cell) (df : DataFrame) : wf df -> wf (cleaned v df).
Proof.
  unfold wf, cleaned. simpl. intros H. apply Forall_forall. intros r' Hr'.
  apply in_map_iff in Hr' as [r [<- Hr]]. simpl. rewrite mapi_length.
  rewrite Forall_forall in H. now apply H.
Qed.

Lemma cleaned_index (v : cell) (df : DataFrame) : index (cleaned v df) = index df.
Proof.
  unfold index, cleaned. simpl. now rewrite map_map.
Qed.

Lemma cleaned_rows_length (v : cell) (df : DataFrame) :
  length (rows (cleaned v df)) = length (rows df).
Proof.
  unfold cleaned. simpl. apply length_map.
Qed.

Lemma cleaned_no_NA (v : cell) (df : DataFrame) :
  is_NA v = false ->
  no_NA_outside_metadata df = true ->
  no_NA_outside_metadata (cleaned v df) = true.
Proof.
  unfold no_NA_outside_metadata, cleaned. cbn [rows]. intros Hv H.
  apply forallb_forall. intros r' Hr'. apply in_map_iff in Hr' as [r [<- Hr]].
  cbn [snd]. apply forallb_forall. intros c' Hc'.
  destruct (In_nth_error _ _ Hc') as [j Ej].
  rewrite nth_error_skipn, nth_error_mapi in Ej.
  destruct (nth_error (snd r) (2 + j)) as [c|] eqn:Ec; [|discriminate].
  simpl in Ej. injection Ej as <-. unfold clean_cell.
  destruct ((1 <? S (S j))%nat && is_sentinel c); [now rewrite Hv|].
  rewrite forallb_forall in H. specialize (H r Hr). rewrite forallb_forall in H.
  apply H. apply (nth_error_skipn_In 2 (2 + j)); [lia|exact Ec].
Qed.

(** With a substitute other than zero, a second pass of [handle_ovrflw]
    returns what the first pass returned. *)
Lemma handle_ovrflw_twice_with_substitute (df : DataFrame) (q : Q) :
  wf df ->
  index df = range_labels (length (rows df)) ->
  no_NA_outside_metadata df = true ->
  Qeq_bool q 0 = false ->
  exists df',
    handle_ovrflw df (RNum q) = Ok df' /\ handle_ovrflw df' (RNum q) = Ok df'.
Proof.
  intros Hwf Hidx Hna Hq.
  assert (Hu : usable (RNum q) = true) by (simpl; now rewrite Hq).
  exists (cleaned (substitute (RNum q)) df).
  split; [now apply handle_ovrflw_cleaned|].
  rewrite handle_ovrflw_cleaned.
  - now rewrite cleaned_idempotent.
  - now apply cleaned_wf.
  - now rewrite cleaned_index, cleaned_rows_length.
  - now apply cleaned_no_NA.
  - exact Hu.
Qed.

(* ================================================================== *)
(** * index_to_time *)

Lemma mapM_map_ok {A B : Type} (f : A -> result B) (g : A -> B) (l : list A) :
  (forall a, In a l -> f a = Ok (g a)) -> mapM f l = Ok (map g l).
Proof.
  induction l as [|a l IH]; intros H; simpl; [reflexivity|].
  rewrite (H a (or_introl eq_refl)). simpl.
  rewrite IH by (intros; apply H; now right). reflexivity.
Qed.

Lemma mapM_map {A B C : Type} (f : B -> result C) (h : A -> B) (l : list A) :
  mapM f (map h l) = mapM (fun a => f (h a)) l.
Proof.
  induction l as [|a l IH]; simpl; [reflexivity|]. now rewrite IH.
Qed.

Lemma mapM_length {A B : Type} (f : A -> result B) (l : list A) (l' : list B) :
  mapM f l = Ok l' -> length l' = length l.
Proof.
  revert l'. induction l as [|a l IH]; intros l' H; simpl in H.
  - injection H as <-. reflexivity.
  - destruct (f a); [|discriminate]. simpl in H.
    destruct (mapM f l) eqn:E; [|discriminate]. simpl in H.
    injection H as <-. simpl. now rewrite (IH _ eq_refl).
Qed.

Lemma combine_map_r {A B : Type} (g : A -> B) (l : list A) :
  combine l (map g l) = map (fun a => (a, g a)) l.
Proof.
  induction l as [|a l IH]; simpl; [reflexivity|]. now rewrite IH.
Qed.

Lemma positions_from_app (k : nat) (name : string) (a b : list string) :
  positions_from k name (a ++ b) =
  positions_from k name a ++ positions_from (k + length a) name b.
Proof.
  revert k. induction a as [|c a IH]; intros k; simpl.
  - now rewrite Nat.add_0_r.
  - rewrite IH. replace (S k + length a)%nat with (k + S (length a))%nat by lia.
    destruct (String.eqb c name); reflexivity.
Qed.

Lemma positions_new_last (name : string) (cols : list string) :
  positions name cols = [] -> positions name (cols ++ [name]) = [length cols].
Proof.
  unfold positions. intros H. rewrite positions_from_app, H. simpl.
  now rewrite String.eqb_refl.
Qed.

Lemma remove_nth_last {A : Type} (l : list A) (x : A) :
  remove_nth (length l) (l ++ [x]) = l.
Proof.
  induction l as [|a l IH]; simpl; [reflexivity|]. now rewrite IH.
Qed.

Lemma cell_at_last (cells : list cell) (c : cell) :
  cell_at (length cells) (cells ++ [c]) = c.
Proof.
  unfold cell_at. rewrite app_nth2 by lia. now rewrite Nat.sub_diag.
Qed.

(** [total_seconds / 3600] is [hour + minute/60 + second/3600]. *)
Lemma total_hours_elapsed (h m s : Z) :
  total_seconds h m s / 3600 == elapsed_hours (CTime h m s).
Proof.
  unfold total_seconds, elapsed_hours.
  rewrite !inject_Z_plus, !inject_Z_mult. field.
Qed.

(** The result of [index_to_time] in closed form: the rows without missing
    values, relabelled by the hours their "Time" cell stands for; the
    columns are the columns of the input. *)
Lemma index_to_time_rows (df : DataFrame) (j : nat) :
  wf df ->
  positions "Time" (columns df) = [j] ->
  positions "hours elapsed" (columns df) = [] ->
  forallb (fun r : row => is_time (cell_at j (snd r))) (filter no_missing (rows df)) = true ->
  index_to_time df =
  Ok (mkDF (columns df)
        (map (fun r : row =>
                (match cell_at j (snd r) with
                 | CTime h m s => LFloat (Fin (total_seconds h m s / 3600))
                 | _ => LFloat NaN
                 end, snd r))
             (filter no_missing (rows df)))).
Proof.
  intros Hwf Ht Hh Htimes. unfold index_to_time, time_column, dropna. simpl columns.
  rewrite Ht. simpl rows. simpl bind.
  set (kept := filter no_missing (rows df)) in *.
  set (hours := fun r : row =>
                  match cell_at j (snd r) with
                  | CTime h m s => Fin (total_seconds h m s / 3600)
                  | _ => NaN
                  end).
  assert (Hm : mapM total_hours (map (fun r : row => cell_at j (snd r)) kept)
               = Ok (map hours kept)).
  { rewrite <- (map_map (fun r : row => cell_at j (snd r))
                        (fun c => match c with
                                  | CTime h m s => Fin (total_seconds h m s / 3600)
                                  | _ => NaN
                                  end)).
    apply mapM_map_ok. intros c Hc. apply in_map_iff in Hc as [r [<- Hr]].
    rewrite forallb_forall in Htimes. specialize (Htimes r Hr).
    destruct (cell_at j (snd r)); try discriminate. reflexivity. }
  rewrite Hm. simpl bind. unfold setitem. simpl columns. rewrite Hh. simpl rows.
  unfold set_index. simpl columns. rewrite (positions_new_last _ _ Hh).
  simpl rows. rewrite remove_nth_last.
  rewrite map_map, combine_map_r, map_map. simpl. rewrite mapM_map.
  rewrite (mapM_map_ok _ (fun r : row =>
             (match cell_at j (snd r) with
              | CTime h m s => LFloat (Fin (total_seconds h m s / 3600))
              | _ => LFloat NaN
              end, snd r))).
  - simpl. reflexivity.
  - intros r Hr.
    assert (Hlen : length (snd r) = length (columns df)).
    { unfold wf in Hwf. rewrite Forall_forall in Hwf. apply Hwf.
      unfold kept in Hr. now apply filter_In in Hr. }
    simpl. rewrite <- Hlen, cell_at_last, remove_nth_last. simpl.
    unfold hours. destruct (cell_at j (snd r)); reflexivity.
Qed.


(* ================================================================== *)
(** * normalize_by_OD *)

Lemma Qsign_Eq (q : Q) : Qsign q = Eq <-> Qeq_bool q 0 = true.
Proof.
  unfold Qsign, Qeq_bool. simpl. rewrite Z.mul_1_r.
  rewrite Z.compare_eq_iff. symmetry. apply Z.eqb_eq.
Qed.

Lemma fdiv_zero (x y : Q) :
  Qeq_bool y 0 = true ->
  fdiv (Fin x) (Fin y) =
  if Qeq_bool x 0 then NaN else match Qsign x with Lt => NInf | _ => PInf end.
Proof.
  intros Hy. unfold fdiv. apply Qsign_Eq in Hy. rewrite Hy.
  destruct (Qeq_bool x 0) eqn:Hx.
  - apply Qsign_Eq in Hx. now rewrite Hx.
  - destruct (Qsign x) eqn:Hs; try reflexivity.
    apply Qsign_Eq in Hs. congruence.
Qed.

Lemma fdiv_nonzero (x y : Q) :
  Qeq_bool y 0 = false -> fdiv (Fin x) (Fin y) = Fin (x / y).
Proof.
  intros Hy. unfold fdiv. destruct (Qsign y) eqn:Hs; try reflexivity.
  apply Qsign_Eq in Hs. congruence.
Qed.

Lemma index_equals_length (a b : list label) :
  index_equals a b = true -> length a = length b.
Proof.
  revert b. induction a as [|x a IH]; intros [|y b] H; simpl in *;
    try discriminate; [reflexivity|].
  apply andb_prop in H as [_ H]. now rewrite (IH b H).
Qed.



















(* ================================================================== *)
(** * rfu_to_mefl: applying the fit *)

Lemma calibrate_cell_numeric (masked : bool) (slope intercept : fnum) (c : cell) :
  numeric_or_missing c = true ->
  calibrate_cell masked slope intercept c = Ok (calibrated_cell masked slope intercept c).
Proof.
  destruct c; simpl; intros H; try reflexivity; discriminate.
Qed.

(** The test of line 44 is the test for a leading row letter. *)
Lemma is_well_row_letter (col : string) : is_well col = begins_with_row_letter col.
Proof.
  destruct col as [|c s]; [reflexivity|].
  destruct c as [[] [] [] [] [] [] [] []]; destruct s; reflexivity.
Qed.

Lemma calibrated_cell_is_calibrated (masked : bool) (slope intercept : fnum) (c : cell) :
  numeric_or_missing c = true ->
  is_calibrated slope intercept c (calibrated_cell masked slope intercept c).
Proof.
  destruct c; simpl; intros H; try reflexivity; try discriminate.
  now destruct masked.
Qed.

Lemma positions_from_In (k : nat) (name : string) (pre post : list string) :
  In (k + length pre)%nat (positions_from k name (pre ++ name :: post)).
Proof.
  revert k. induction pre as [|c pre IH]; intros k; simpl.
  - rewrite String.eqb_refl, Nat.add_0_r. now left.
  - replace (k + S (length pre))%nat with (S k + length pre)%nat by lia.
    destruct (String.eqb c name); [right|]; apply IH.
Qed.

(** A label carried by one column only sits where it was found. *)
Lemma positions_single (name : string) (pre post : list string) :
  length (positions name (pre ++ name :: post)) = 1%nat ->
  positions name (pre ++ name :: post) = [length pre].
Proof.
  intros H. pose proof (positions_from_In 0 name pre post) as Hin.
  fold (positions name (pre ++ name :: post)) in Hin.
  destruct (positions name (pre ++ name :: post)) as [|j [|? ?]]; try discriminate.
  simpl in Hin. destruct Hin as [<-|[]]. reflexivity.
Qed.

Lemma nth_app_middle (pre post : list string) (col : string) :
  nth (length pre) (pre ++ col :: post) "" = col.
Proof.
  rewrite app_nth2 by lia. now rewrite Nat.sub_diag.
Qed.

Lemma combine_map_map {A B C : Type} (f : A -> B) (g : A -> C) (l : list A) :
  combine (map f l) (map g l) = map (fun a => (f a, g a)) l.
Proof.
  induction l as [|a l IH]; simpl; [reflexivity|]. now rewrite IH.
Qed.

Lemma forallb_mapi_nth (f : nat -> cell -> bool) (cells : list cell) (j : nat) (c : cell) :
  forallb (fun b : bool => b) (mapi f cells) = true ->
  nth_error cells j = Some c -> f j c = true.
Proof.
  intros H E. rewrite forallb_forall in H. apply H.
  apply (nth_error_In _ j). now rewrite nth_error_mapi, E.
Qed.

Lemma cell_at_nth_error (j : nat) (cells : list cell) (c : cell) :
  nth_error cells j = Some c -> cell_at j cells = c.
Proof.
  intros E. unfold cell_at. now apply nth_error_nth.
Qed.

Section ApplyFit.

Variables (slope intercept : fnum) (src : DataFrame).

Hypothesis src_wf : wf src.
Hypothesis src_distinct : well_labels_distinct src = true.
Hypothesis src_numeric : wells_numeric src = true.

Lemma well_cell_numeric (r : row) (a : nat) :
  In r (rows src) -> (a < length (columns src))%nat ->
  is_well (nth a (columns src) "") = true ->
  exists c, nth_error (snd r) a = Some c /\ numeric_or_missing c = true.
Proof.
  intros Hr Ha Hw.
  assert (Hlen : length (snd r) = length (columns src)).
  { unfold wf in src_wf. rewrite Forall_forall in src_wf. now apply src_wf. }
  destruct (nth_error (snd r) a) as [c|] eqn:Ec.
  - exists c. split; [reflexivity|].
    unfold wells_numeric in src_numeric. rewrite forallb_forall in src_numeric.
    pose proof (forallb_mapi_nth _ _ _ _ (src_numeric r Hr) Ec) as H.
    simpl in H. now rewrite <- is_well_row_letter, Hw in H.
  - apply nth_error_None in Ec. lia.
Qed.

(** The loop on table values, from the column at position [length pre] on,
    started from the table swept up to there. *)
Lemma mefl_loop_sweep (post pre : list string) :
  columns src = pre ++ post ->
  mefl_loop post slope intercept src
    (mkDF (columns src)
          (map (sweep_with (calibrate_at src slope intercept) (length pre))
               (rows src))) =
  Ok (mkDF (columns src)
          (map (sweep_with (calibrate_at src slope intercept)
                           (length (columns src)))
               (rows src))).
Proof.
  set (g := calibrate_at src slope intercept).
  revert pre. induction post as [|col post IH]; intros pre Hcols.
  - simpl. rewrite Hcols, app_nil_r. reflexivity.
  - assert (Hcols' : columns src = (pre ++ [col]) ++ post)
      by (rewrite <- app_assoc; exact Hcols).
    assert (Hnth : nth (length pre) (columns src) "" = col)
      by (rewrite Hcols; apply nth_app_middle).
    assert (Ha : (length pre < length (columns src))%nat)
      by (rewrite Hcols, length_app; simpl; lia).
    specialize (IH (pre ++ [col]) Hcols').
    rewrite length_app in IH. simpl length in IH. rewrite Nat.add_1_r in IH.
    simpl mefl_loop. destruct (is_well col) eqn:Hw.
    + assert (Hpos : positions col (columns src) = [length pre]).
      { rewrite Hcols. apply positions_single. rewrite <- Hcols.
        unfold well_labels_distinct in src_distinct.
        rewrite forallb_forall in src_distinct.
        specialize (src_distinct col).
        rewrite <- is_well_row_letter, Hw in src_distinct. simpl in src_distinct.
        apply Nat.eqb_eq. apply src_distinct. rewrite Hcols.
        apply in_or_app. right. now left. }
      unfold calibrated_column. rewrite Hpos. cbv zeta.
      set (m := existsb is_None (column (length pre) src)).
      unfold column. rewrite mapM_map.
      rewrite (mapM_map_ok _ (fun r : row =>
                 calibrated_cell m slope intercept (cell_at (length pre) (snd r)))).
      * simpl bind. unfold setitem. simpl columns. rewrite Hpos. simpl rows.
        rewrite combine_map_map, map_map. simpl.
        rewrite <- IH. do 2 f_equal. apply map_ext_in. intros r Hr.
        destruct (well_cell_numeric r (length pre) Hr Ha) as [c [Ec _]];
          [now rewrite Hnth|].
        rewrite <- (sweep_with_set g _ _ _ Ec).
        rewrite (cell_at_nth_error _ _ _ Ec).
        unfold g, calibrate_at. now rewrite Hnth, Hw.
      * intros r Hr.
        destruct (well_cell_numeric r (length pre) Hr Ha) as [c [Ec Hc]];
          [now rewrite Hnth|].
        rewrite (cell_at_nth_error _ _ _ Ec). now apply calibrate_cell_numeric.
    + rewrite <- IH. do 2 f_equal. apply map_ext. intros r.
      symmetry. apply sweep_with_skip. intros c _.
      unfold g, calibrate_at. now rewrite Hnth, Hw.
Qed.

(** The loop of lines 43-45 on table values, in closed form. *)
Lemma mefl_loop_calibrated :
  mefl_loop (columns src) slope intercept src src =
  Ok (calibrated_table slope intercept src).
Proof.
  pose proof (mefl_loop_sweep (columns src) [] eq_refl) as H.
  simpl length in H.
  rewrite (map_ext _ _ (sweep_with_0 (calibrate_at src slope intercept))),
    map_id in H.
  destruct src as [cs rs] eqn:Esrc. simpl in *. rewrite H.
  unfold calibrated_table. simpl. do 2 f_equal.
  apply map_ext_in. intros r Hr. apply sweep_with_all.
  unfold wf in src_wf. rewrite Forall_forall in src_wf.
  simpl in src_wf. rewrite (src_wf r Hr). lia.
Qed.

End ApplyFit.

(** [rfu_to_mefl] on table values: the fit, then the calibrated table. *)
Lemma rfu_to_mefl_value (src : DataFrame) (fluor_conc_uM : list Q) (well_volume_uL : Q)
    (fluorescein_wells : list string) (background : option string)
    (rfus molecules : list fnum) (LR : LinregressResult) :
  wf src ->
  well_labels_distinct src = true ->
  wells_numeric src = true ->
  calibration_fit src fluor_conc_uM well_volume_uL fluorescein_wells background
    = Ok (rfus, molecules, LR) ->
  rfu_to_mefl src fluor_conc_uM well_volume_uL fluorescein_wells background =
  Ok (calibrated_table (lr_slope LR) (lr_intercept LR) src, rfus, molecules,
      lr_slope LR, lr_intercept LR, lr_rvalue_sq LR).
Proof.
  intros Hwf Hd Hn Hfit. unfold rfu_to_mefl. rewrite Hfit. simpl bind.
  now rewrite (mefl_loop_calibrated _ _ src Hwf Hd Hn).
Qed.

Lemma set_nth_same {A : Type} (n : nat) (a : A) (l : list A) :
  nth_error l n = Some a -> set_nth n a l = l.
Proof.
  revert n. induction l as [|x l IH]; intros [|n] H; simpl in *; try discriminate.
  - now injection H as ->.
  - now rewrite IH.
Qed.

Lemma set_nth_twice {A : Type} (n : nat) (a b : A) (l : list A) :
  set_nth n b (set_nth n a l) = set_nth n b l.
Proof.
  revert n. induction l as [|x l IH]; intros [|n]; simpl; try reflexivity.
  now rewrite IH.
Qed.

Lemma load_store_same (h : heap) (r : ref) (old new : DataFrame) :
  load h r = Some old -> load (store h r new) r = Some new.
Proof.
  unfold load, store. intros H. rewrite nth_error_set_nth, Nat.eqb_refl.
  assert (Hlt : (r < length h)%nat) by (apply nth_error_Some; congruence).
  apply Nat.ltb_lt in Hlt. now rewrite Hlt.
Qed.

Lemma load_store_other (h : heap) (r r' : ref) (new : DataFrame) :
  r' <> r -> load (store h r new) r' = load h r'.
Proof.
  unfold load, store. intros H. rewrite nth_error_set_nth.
  destruct (Nat.eqb_spec r' r); [contradiction|reflexivity].
Qed.

(** The loop on table objects writes what the loop on table values
    computes, into the destination object and nowhere else, as long as
    source and destination are different objects. *)
Lemma mefl_loop_obj_value (cols : list string) (slope intercept : fnum)
    (df df_MEFL : ref) (src : DataFrame) :
  df <> df_MEFL ->
  forall (h : heap) (dst dst' : DataFrame),
    load h df = Some src ->
    load h df_MEFL = Some dst ->
    mefl_loop cols slope intercept src dst = Ok dst' ->
    mefl_loop_obj cols slope intercept df df_MEFL h = (Ok tt, store h df_MEFL dst').
Proof.
  intros Hne. induction cols as [|col cols IH]; intros h dst dst' Hsrc Hdst Hloop.
  - simpl in *. injection Hloop as <-. unfold store.
    now rewrite (set_nth_same _ _ _ Hdst).
  - simpl in *. destruct (is_well col).
    + rewrite Hsrc, Hdst.
      destruct (calibrated_column slope intercept src col) as [values|e];
        [|discriminate].
      simpl in Hloop.
      rewrite (IH (store h df_MEFL (setitem dst col values))
                  (setitem dst col values) dst').
      * unfold store. now rewrite set_nth_twice.
      * now rewrite load_store_other.
      * eapply load_store_same; eauto.
      * assumption.
    + eapply IH; eauto.
Qed.

(** The cells of a calibrated table, one at a time. *)
Lemma calibrated_table_cell (slope intercept : fnum) (df : DataFrame)
    (i j : nat) (r : row) (col : string) (c : cell) :
  nth_error (rows df) i = Some r ->
  nth_error (columns df) j = Some col ->
  nth_error (snd r) j = Some c ->
  exists r',
    nth_error (rows (calibrated_table slope intercept df)) i = Some r'
    /\ fst r' = fst r
    /\ length (snd r') = length (snd r)
    /\ nth_error (snd r') j =
       Some (if is_well col
             then calibrated_cell (existsb is_None (column j df)) slope intercept c
             else c).
Proof.
  intros Hr Hcol Hc. unfold calibrated_table. simpl rows.
  rewrite nth_error_map, Hr. simpl. eexists. split; [reflexivity|]. simpl.
  repeat split.
  - apply mapi_length.
  - rewrite nth_error_mapi, Hc. simpl. unfold calibrate_at.
    now rewrite (nth_error_nth _ _ _ Hcol).
Qed.


(* ================================================================== *)
(** * average_replicates *)

Lemma map_fst_combine_same_length {A B : Type} (l : list A) (l' : list B) :
  length l' = length l -> map fst (combine l l') = l.
Proof.
  revert l'. induction l as [|a l IH]; intros [|b l'] H; simpl in *;
    try discriminate; [reflexivity|].
  now rewrite IH by lia.
Qed.

(** Assigning a column of the right length leaves the row labels alone. *)
Lemma setitem_index (df : DataFrame) (name : string) (values : list cell) :
  length values = length (rows df) -> index (setitem df name values) = index df.
Proof.
  intros Hlen. unfold setitem, index.
  destruct (positions name (columns df)); simpl rows; rewrite map_map;
    rewrite <- (map_fst_combine_same_length (rows df) values Hlen) at 2;
    rewrite map_map; reflexivity.
Qed.

Lemma mean_axis1_length (df : DataFrame) (names : list string) (m : list cell) :
  mean_axis1 df names = Ok m -> length m = length (rows df).
Proof.
  unfold mean_axis1. destruct (getitem_positions (columns df) names); [|discriminate].
  simpl. apply mapM_length.
Qed.

Lemma index_length (df df' : DataFrame) :
  index df = index df' -> length (rows df) = length (rows df').
Proof.
  unfold index. intros H. apply (f_equal (@length label)) in H.
  now rewrite !length_map in H.
Qed.

(** Whatever the loop returns carries the row labels of its input. *)
Lemma average_loop_index (conds : list string) (df : DataFrame) :
  forall df_avg df_out,
    index df_avg = index df ->
    average_loop conds df df_avg = Ok df_out ->
    index df_out = index df.
Proof.
  induction conds as [|cond conds IH]; intros df_avg df_out Hidx Hloop; simpl in Hloop.
  - now injection Hloop as <-.
  - destruct (filter (fun col => startswith col cond) (columns df)) as [|n ns] eqn:Ef.
    + eapply IH; eauto.
    + destruct (mean_axis1 df (n :: ns)) as [m|] eqn:Em; [|discriminate].
      simpl in Hloop. eapply IH; [|exact Hloop].
      rewrite setitem_index; [assumption|].
      rewrite (mean_axis1_length _ _ _ Em). symmetry. now apply index_length.
Qed.

Lemma index_empty_like (df : DataFrame) : index (empty_like df) = index df.
Proof.
  unfold index, empty_like. simpl. now rewrite map_map.
Qed.

(** Conditions that match no column add nothing. *)
Lemma average_loop_no_match (conds : list string) (df df_avg : DataFrame) :
  forallb (fun cond => matches_nothing cond df) conds = true ->
  average_loop conds df df_avg = Ok df_avg.
Proof.
  induction conds as [|cond conds IH]; intros H; simpl in *; [reflexivity|].
  apply andb_prop in H as [Hc H].
  replace (filter (fun col => startswith col cond) (columns df)) with (@nil string).
  - now apply IH.
  - symmetry. unfold matches_nothing in Hc. rewrite forallb_forall in Hc.
    induction (columns df) as [|c cs IHc]; simpl; [reflexivity|].
    specialize (Hc c (or_introl eq_refl)) as Hcc.
    destruct (startswith c cond); [discriminate|].
    apply IHc. intros x Hx. apply Hc. now right.
Qed.

Lemma positions_from_nonempty (k : nat) (name : string) (cols : list string) :
  In name cols -> positions_from k name cols <> [].
Proof.
  revert k. induction cols as [|c cols IH]; intros k; simpl; [tauto|].
  intros [->|H].
  - rewrite String.eqb_refl. discriminate.
  - destruct (String.eqb c name); [discriminate|now apply IH].
Qed.

(** Labels taken from the table select without a KeyError. *)
Lemma getitem_positions_ok (cols names : list string) :
  (forall n, In n names -> In n cols) ->
  exists ps, getitem_positions cols names = Ok ps.
Proof.
  induction names as [|n names IH]; intros H; simpl.
  - now exists [].
  - destruct (positions n cols) as [|p ps] eqn:Ep.
    + exfalso. apply (positions_from_nonempty 0 n cols); [|exact Ep].
      apply H. now left.
    + destruct IH as [rest ->]; [intros; apply H; now right|].
      simpl. eauto.
Qed.

Lemma numeric_values_ok (cs : list cell) :
  forallb numeric_or_missing cs = true -> exists xs, numeric_values cs = Ok xs.
Proof.
  induction cs as [|c cs IH]; intros H; simpl in *.
  - now exists [].
  - apply andb_prop in H as [Hc H]. destruct (IH H) as [xs Exs].
    destruct c as [[]| | | |]; try discriminate; simpl; rewrite Exs; simpl; eauto.
Qed.

Lemma positions_from_nth (k : nat) (name : string) (cols : list string) (j : nat) :
  In j (positions_from k name cols) ->
  (k <= j)%nat /\ nth_error cols (j - k) = Some name.
Proof.
  revert k. induction cols as [|c cols IH]; intros k H; simpl in H; [tauto|].
  destruct (String.eqb_spec c name) as [->|Hne].
  - destruct H as [<-|H].
    + rewrite Nat.sub_diag. split; [lia|reflexivity].
    + destruct (IH _ H) as [Hk E]. split; [lia|].
      replace (j - k)%nat with (S (j - S k)) by lia. exact E.
  - destruct (IH _ H) as [Hk E]. split; [lia|].
    replace (j - k)%nat with (S (j - S k)) by lia. exact E.
Qed.

(** Every position [df[names]] selects sits under one of the labels asked
    for. *)
Lemma getitem_positions_In (cols names : list string) (ps : list nat) (j : nat) :
  getitem_positions cols names = Ok ps -> In j ps ->
  exists n, In n names /\ nth_error cols j = Some n.
Proof.
  revert ps. induction names as [|n names IH]; intros ps H Hj; simpl in H.
  - injection H as <-. destruct Hj.
  - destruct (positions n cols) as [|p ps0] eqn:Ep; [discriminate|].
    destruct (getitem_positions cols names) as [rest|]; [|discriminate].
    simpl in H. injection H as <-.
    change (In j ((p :: ps0) ++ rest)) in Hj. apply in_app_or in Hj as [Hj|Hj].
    + exists n. split; [now left|].
      rewrite <- Ep in Hj. apply positions_from_nth in Hj as [_ E].
      now rewrite Nat.sub_0_r in E.
    + destruct (IH rest eq_refl Hj) as [n' [Hn' E]]. exists n'. split; [now right|exact E].
Qed.

Lemma mapM_ok {A B : Type} (f : A -> result B) (l : list A) :
  (forall a, In a l -> exists b, f a = Ok b) -> exists bs, mapM f l = Ok bs.
Proof.
  induction l as [|a l IH]; intros H; simpl.
  - now exists [].
  - destruct (H a (or_introl eq_refl)) as [b ->].
    destruct IH as [bs ->]; [intros; apply H; now right|]. simpl. eauto.
Qed.

(** When the cells under the labels asked for are numbers or missing-data
    markers, the row-wise mean of those columns exists. *)
Lemma mean_axis1_ok (conds : list string) (df : DataFrame) (names : list string) :
  matched_numeric conds df = true ->
  (forall n, In n names -> In n (columns df) /\ matched conds n = true) ->
  exists m, mean_axis1 df names = Ok m.
Proof.
  intros Hnum Hin. unfold mean_axis1.
  destruct (getitem_positions_ok (columns df) names) as [ps Eps];
    [intros n Hn; now apply Hin|].
  rewrite Eps. simpl.
  apply mapM_ok. intros r Hr. unfold mean.
  destruct (numeric_values_ok (select ps (snd r))) as [xs ->]; [|simpl; eauto].
  apply forallb_forall. intros c Hc. unfold select in Hc.
  apply in_map_iff in Hc as [j [<- Hj]].
  destruct (getitem_positions_In _ _ _ _ Eps Hj) as [n [Hn En]].
  unfold cell_at. destruct (nth_error (snd r) j) as [c|] eqn:Ec.
  - rewrite (nth_error_nth _ _ _ Ec).
    unfold matched_numeric in Hnum. rewrite forallb_forall in Hnum.
    pose proof (forallb_mapi_nth _ _ _ _ (Hnum r Hr) Ec) as H. simpl in H.
    rewrite (nth_error_nth _ _ _ En) in H.
    destruct (Hin n Hn) as [_ Hm]. now rewrite Hm in H.
  - apply nth_error_None in Ec. now rewrite nth_overflow.
Qed.

Lemma average_loop_ok (conds : list string) (df : DataFrame) (todo : list string) :
  matched_numeric conds df = true ->
  (forall cond, In cond todo -> In cond conds) ->
  forall df_avg, exists df_out, average_loop todo df df_avg = Ok df_out.
Proof.
  intros Hnum. induction todo as [|cond todo IH]; intros Hsub df_avg; simpl.
  - eauto.
  - assert (Hsub' : forall c, In c todo -> In c conds) by (intros; apply Hsub; now right).
    destruct (filter (fun col => startswith col cond) (columns df)) as [|n ns] eqn:Ef.
    + now apply IH.
    + destruct (mean_axis1_ok conds df (n :: ns) Hnum) as [m ->].
      * intros x Hx. rewrite <- Ef in Hx. apply filter_In in Hx as [Hx Hs].
        split; [assumption|]. unfold matched. apply existsb_exists.
        exists cond. split; [apply Hsub; now left|assumption].
      * simpl. now apply IH.
Qed.


Lemma positions_from_notin (k : nat) (name : string) (cols : list string) :
  ~ In name cols -> positions_from k name cols = [].
Proof.
  revert k. induction cols as [|c cols IH]; intros k H; simpl; [reflexivity|].
  destruct (String.eqb_spec c name) as [->|Hne].
  - exfalso. apply H. now left.
  - apply IH. intros Hin. apply H. now right.
Qed.

Lemma positions_distinct (name : string) (pre post : list string) :
  NoDup (pre ++ name :: post) -> positions name (pre ++ name :: post) = [length pre].
Proof.
  intros Hnd. unfold positions. rewrite positions_from_app. simpl.
  rewrite String.eqb_refl.
  apply NoDup_remove_2 in Hnd.
  rewrite (positions_from_notin 0 name pre), (positions_from_notin _ name post);
    [reflexivity| |]; intros Hin; apply Hnd; apply in_or_app; auto.
Qed.

(** When no two columns share a label, [df[names]] for the labels that
    satisfy [p], in column order, selects every such column once. *)
Lemma getitem_positions_distinct (p : string -> bool) (post pre : list string) :
  NoDup (pre ++ post) ->
  getitem_positions (pre ++ post) (filter p post) =
  Ok (filter (fun j => p (nth j (pre ++ post) "")) (seq (length pre) (length post))).
Proof.
  revert pre. induction post as [|c post IH]; intros pre Hnd; [reflexivity|].
  assert (Hcols : pre ++ c :: post = (pre ++ [c]) ++ post) by now rewrite <- app_assoc.
  specialize (IH (pre ++ [c])). rewrite <- Hcols in IH. specialize (IH Hnd).
  rewrite length_app in IH. simpl length in IH. rewrite Nat.add_1_r in IH.
  simpl filter. simpl seq. simpl filter. rewrite nth_app_middle.
  destruct (p c); [|exact IH].
  simpl getitem_positions. rewrite (positions_distinct c pre post Hnd), IH.
  reflexivity.
Qed.

Lemma fsum_finite (qs : list Q) (a : Q) :
  fold_left fadd (map Fin qs) (Fin a) = Fin (fold_left Qplus qs a).
Proof.
  revert a. induction qs as [|q qs IH]; intros a; simpl; [reflexivity|]. apply IH.
Qed.

(** The mean of cells whose numbers are the finite [qs], at least one: the
    sum of [qs] divided by their count. *)
Lemma mean_finite (cs : list cell) (qs : list Q) :
  numeric_values cs = Ok (map Fin qs) ->
  qs <> [] ->
  exists q, mean cs = Ok (Fin q)
    /\ q * inject_Z (Z.of_nat (length qs)) == qsum qs.
Proof.
  intros Hv Hne. unfold mean. rewrite Hv. simpl bind.
  destruct qs as [|q0 qs]; [contradiction|].
  cbn [map]. unfold fsum, count. rewrite <- (map_cons Fin), fsum_finite, length_map.
  fold (qsum (q0 :: qs)).
  assert (Hn : Qeq_bool (inject_Z (Z.of_nat (length (q0 :: qs)))) 0 = false).
  { destruct (Qeq_bool (inject_Z (Z.of_nat (length (q0 :: qs)))) 0) eqn:E;
      [|reflexivity].
    apply Qeq_bool_eq in E. unfold Qeq, inject_Z in E. cbn [Qnum Qden length] in E.
    lia. }
  rewrite (fdiv_nonzero _ _ Hn). eexists. split; [reflexivity|].
  field. intros H0. apply Qeq_bool_neq in Hn. contradiction.
Qed.

(** All cells of a row are missing: the mean is NaN, a missing-data marker. *)
Lemma mean_all_missing (cs : list cell) :
  forallb isna cs = true -> mean cs = Ok NaN.
Proof.
  intros H. unfold mean.
  assert (E : numeric_values cs = Ok []).
  { induction cs as [|c cs IH]; simpl in *; [reflexivity|].
    apply andb_prop in H as [Hc H]. rewrite Hc. now apply IH. }
  now rewrite E.
Qed.

(** Section 8.6 of the specification.  With optical densities of 1 the
    normalized table holds the fluorescence readings, and the averaged
    column holds 2.5, 5 and 7.5: the two columns that share the label
    "cond" are both selected twice, which leaves the mean as it was. *)
Lemma end_to_end_scenario :
  normalize_by_OD od_scenario fl_scenario
    = Ok (mkDF ["cond"; "cond"]
            [ (LFloat (Fin 0), [CNum (Fin (2 / 1)); CNum (Fin (3 / 1))]);
              (LFloat (Fin (1 # 2)), [CNum (Fin (4 / 1)); CNum (Fin (6 / 1))]);
              (LFloat (Fin 1), [CNum (Fin (6 / 1)); CNum (Fin (9 / 1))]) ])
  /\ (do df_norm <- normalize_by_OD od_scenario fl_scenario;
      average_replicates first_occurrences df_norm ["cond"])
     = Ok (mkDF ["cond"]
             [ (LFloat (Fin 0), [CNum (Fin ((2 + 3 + 2 + 3) / 4))]);
               (LFloat (Fin (1 # 2)), [CNum (Fin ((4 + 6 + 4 + 6) / 4))]);
               (LFloat (Fin 1), [CNum (Fin ((6 + 9 + 6 + 9) / 4))]) ])
  /\ (2 + 3 + 2 + 3) / 4 == 5 / 2
  /\ (4 + 6 + 4 + 6) / 4 == 5
  /\ (6 + 9 + 6 + 9) / 4 == 15 / 2.
Proof.
  repeat split; vm_compute; reflexivity.
Qed.

(* ================================================================== *)
(** * run_pipeline *)

Lemma bindM_Ok_inv {A B : Type} (m : M A) (k : A -> M B) (tr tr' : list event) (b : B) :
  bindM m k tr = (Ok b, tr') ->
  exists a tr1, m tr = (Ok a, tr1) /\ k a tr1 = (Ok b, tr').
Proof.
  unfold bindM. destruct (m tr) as [[a|e] tr1]; intros H; [eauto|discriminate].
Qed.

Tactic Notation "inv_bind" hyp(H) "as" ident(a) ident(tr) ident(E) :=
  apply bindM_Ok_inv in H; destruct H as (a & tr & E & H).

(** With no calibration, [df_norm_MEFL] is never assigned, and the rest of
    the run reads it. *)
Lemma analyse_unbound (set_iter : list string -> list string) (cfg : config)
    (output_folder : string) (df_od600 df_sfGFP : DataFrame)
    (Slope Intercept R_squared : option fnum) (tr tr' : list event)
    (out : pipeline_output) :
  analyse set_iter cfg output_folder df_od600 df_sfGFP None Slope Intercept R_squared tr
    <> (Ok out, tr').
Proof.
  unfold analyse. intros H.
  inv_bind H as rm t1 E1.
  inv_bind H as u1 t2 E2.
  inv_bind H as df_norm t3 E3.
  inv_bind H as u2 t4 E4.
  inv_bind H as b t5 E5.
  unfold ret in E5. injection E5 as <- <-.
  inv_bind H as averages t6 E6.
  destruct averages as [[[[? ?] ?] ?] ?].
  inv_bind H as df t7 E7. discriminate.
Qed.

(** A run whose configuration has no calibration section never returns. *)
Lemma run_pipeline_without_calibration (set_iter : list string -> list string)
    (cfg : config) (wb : workbook) (tr : list event) :
  calibration cfg = None ->
  exists e tr', run_pipeline set_iter cfg wb tr = (Raise e, tr').
Proof.
  intros Hcal.
  destruct (run_pipeline set_iter cfg wb tr) as [[out|e] tr'] eqn:H; [|eauto].
  exfalso. unfold run_pipeline in H.
  inv_bind H as loaded t1 E1. destruct loaded as [[output_folder df_od600] df_sfGFP].
  inv_bind H as cal t2 E2. destruct cal as [[[df_MEFL Slope] Intercept] R_squared].
  unfold calibrate in E2. rewrite Hcal in E2.
  inv_bind E2 as u t3 E3. unfold ret in E2. injection E2 as <- <- <- <- <-.
  now apply analyse_unbound in H.
Qed.

Lemma index_length_rows (df : DataFrame) : length (index df) = length (rows df).
Proof.
  unfold index. apply length_map.
Qed.

(** Tables of different row counts stop the run at the guard of line 36,
    before anything is logged. *)
Lemma load_and_index_guard (cfg : config) (wb : workbook) (tr : list event)
    (fp : string) (sh : string * string) (rm : list (string * string))
    (plots : list plot_cfg) (od fl : DataFrame) :
  file_path cfg = Some fp ->
  sheets cfg = Some sh ->
  rename_map cfg = Some rm ->
  plotting cfg = Some plots ->
  load_xlsx wb (fst sh) = Ok od ->
  load_xlsx wb (snd sh) = Ok fl ->
  length (rows od) <> length (rows fl) ->
  load_and_index cfg wb tr =
  (Raise (ValueError "OD600 and fluorescence time axes do not match."), tr).
Proof.
  intros Hfp Hsh Hrm Hpl Hod Hfl Hlen. unfold load_and_index.
  rewrite Hfp, Hsh, Hrm, Hpl. unfold bindM, require, ret, lift. simpl.
  rewrite Hod, Hfl.
  destruct (index_equals (index od) (index fl)) eqn:E; [|reflexivity].
  apply index_equals_length in E. rewrite !index_length_rows in E. contradiction.
Qed.

Lemma assign_index_index (df df' : DataFrame) (new_index : list label) :
  assign_index df new_index = Ok df' -> index df' = new_index.
Proof.
  unfold assign_index. destruct (Nat.eqb_spec (length new_index) (length (rows df)));
    [|discriminate].
  intros H. injection H as <-. unfold index. simpl. rewrite map_map. simpl.
  now apply map_fst_combine_same_length.
Qed.

(** Past the time indexing, the fluorescence table carries the row labels of
    the optical-density table. *)
Lemma load_and_index_shared_index (cfg : config) (wb : workbook) (tr tr' : list event)
    (output_folder : string) (df_od600 df_sfGFP : DataFrame) :
  load_and_index cfg wb tr = (Ok (output_folder, df_od600, df_sfGFP), tr') ->
  index df_sfGFP = index df_od600.
Proof.
  unfold load_and_index. intros H.
  inv_bind H as fp t1 E1. inv_bind H as sh t2 E2.
  inv_bind H as rm t3 E3. inv_bind H as plots t4 E4.
  inv_bind H as od t5 E5. inv_bind H as fl t6 E6.
  destruct (negb (index_equals (index od) (index fl))); [discriminate|].
  inv_bind H as u1 t7 E7. inv_bind H as fl1 t8 E8.
  inv_bind H as u2 t9 E9. inv_bind H as od1 t10 E10.
  inv_bind H as fl2 t11 E11. inv_bind H as u3 t12 E12.
  unfold ret in H. injection H as _ <- <- _.
  unfold lift in E11. injection E11 as E11 _.
  now apply assign_index_index in E11.
Qed.


(* ================================================================== *)
(** * The overflow normalizer: claims C6 and C7 *)

(** C6, counterexample.  The claim is stated for every table and every
    substitute.  (1) On a table indexed by elapsed hours the loop uses the
    row labels as row positions and stops with a ValueError.  (2) With the
    substitute 0 the overflow cell becomes pd.NA, not 0.  (3) A table that
    already holds pd.NA outside its first two columns stops the loop with a
    TypeError. *)
Lemma handle_ovrflw_not_for_every_table :
  handle_ovrflw overflow_table_by_time (RNum 9999)
    = Raise (ValueError "Location based indexing can only have [integer, integer slice (START point is INCLUDED, END point is EXCLUDED), listlike of integers, boolean array] types")
  /\ handle_ovrflw overflow_table (RNum 0) = Ok (overflow_replaced CNA)
  /\ handle_ovrflw (overflow_replaced CNA) (RNum 9999)
     = Raise (TypeError "boolean value of NA is ambiguous").
Proof.
  repeat split; vm_compute; reflexivity.
Qed.

(** C6, as amended.  For every table whose row labels are the row positions
    0, 1, ... (a table as loaded), whose rows have one cell per column and
    which holds no pd.NA outside its first two columns, and for a substitute
    that is absent or a number other than zero: [handle_ovrflw] returns a
    table with the same columns and the same row labels, in which every row
    has the length it had, every cell outside the first two columns that
    held the overflow sentinel holds the substitute (pd.NA when none was
    given), and every other cell is unchanged. *)
Theorem handle_ovrflw_replaces_sentinels (df : DataFrame) (integer : replacement) :
  wf df ->
  index df = range_labels (length (rows df)) ->
  no_NA_outside_metadata df = true ->
  usable integer = true ->
  exists df',
    handle_ovrflw df integer = Ok df'
    /\ columns df' = columns df
    /\ index df' = index df
    /\ forall i r,
         nth_error (rows df) i = Some r ->
         exists r',
           nth_error (rows df') i = Some r'
           /\ length (snd r') = length (snd r)
           /\ forall j c,
                nth_error (snd r) j = Some c ->
                nth_error (snd r') j =
                Some (if (1 <? j)%nat && is_sentinel c then substitute integer else c).
Proof.
  intros Hwf Hidx Hna Hu. exists (cleaned (substitute integer) df).
  split; [now apply handle_ovrflw_cleaned|].
  split; [reflexivity|]. split.
  - unfold index, cleaned. simpl. now rewrite map_map.
  - intros i r Hr. unfold cleaned. simpl rows. rewrite nth_error_map, Hr. simpl.
    eexists. split; [reflexivity|]. simpl. split; [apply mapi_length|].
    intros j c Hc. now rewrite nth_error_mapi, Hc.
Qed.

(** C6, witness: the loaded table with one overflow reading, substitute
    9999. *)
Lemma handle_ovrflw_replaces_sentinels_example :
  exists df',
    handle_ovrflw overflow_table (RNum 9999) = Ok df'
    /\ columns df' = columns overflow_table
    /\ index df' = index overflow_table
    /\ forall i r,
         nth_error (rows overflow_table) i = Some r ->
         exists r',
           nth_error (rows df') i = Some r'
           /\ length (snd r') = length (snd r)
           /\ forall j c,
                nth_error (snd r) j = Some c ->
                nth_error (snd r') j =
                Some (if (1 <? j)%nat && is_sentinel c
                      then substitute (RNum 9999) else c).
Proof.
  apply (handle_ovrflw_replaces_sentinels overflow_table (RNum 9999)).
  - repeat constructor.
  - reflexivity.
  - reflexivity.
  - reflexivity.
Defined.

(** C7, at the failing input.  With no substitute the first pass writes
    pd.NA into the overflow cell of the table object; the second pass over
    the same object compares that pd.NA with the sentinel and stops with a
    TypeError instead of returning the table unchanged. *)
Theorem handle_ovrflw_second_pass_raises :
  handle_ovrflw_obj 0%nat RFalse [overflow_table] = (Ok 0%nat, [overflow_replaced CNA])
  /\ handle_ovrflw_obj 0%nat RFalse [overflow_replaced CNA]
     = (Raise (TypeError "boolean value of NA is ambiguous"), [overflow_replaced CNA]).
Proof.
  split; vm_compute; reflexivity.
Qed.


(* ================================================================== *)
(** * The normalizer: claim C5 *)




(* ================================================================== *)
(** * The time indexer: claim C3 *)

(** C3, counterexample.  The table returned for a loaded table with an
    incomplete second reading has lost that reading and is labelled by
    elapsed hours, and its columns still start with "Time". *)
Lemma index_to_time_time_column_stays :
  index_to_time od_table =
  Ok (mkDF ["Time"; "Temp"; "A1"; "A2"]
        [ (LFloat (Fin (0 / 3600)), [CTime 0 0 0; num 30; num 1; num 1]);
          (LFloat (Fin (4500 / 3600)), [CTime 1 15 0; num 30; num 1; num 1]) ]).
Proof.
  vm_compute. reflexivity.
Qed.

Lemma positions_In (k : nat) (name : string) (cols : list string) (j : nat) :
  In j (positions_from k name cols) -> In name cols.
Proof.
  revert k. induction cols as [|c cols IH]; intros k H; simpl in *; [tauto|].
  destruct (String.eqb_spec c name) as [->|Hne]; [now left|].
  right. now apply (IH (S k)).
Qed.

(** C3, as amended.  For every table with one cell per column in every row,
    exactly one column labelled "Time", no column labelled "hours elapsed",
    and a time of day in the "Time" cell of every row without missing
    values: [index_to_time] returns a table that holds exactly the rows
    without missing values, each with all of its cells, labelled by
    [hour + minute/60 + second/3600] of its "Time" cell; the columns are
    the columns of the input, "Time" included. *)
Theorem index_to_time_elapsed_hours (df : DataFrame) (j : nat) :
  wf df ->
  positions "Time" (columns df) = [j] ->
  positions "hours elapsed" (columns df) = [] ->
  forallb (fun r : row => is_time (cell_at j (snd r))) (filter no_missing (rows df)) = true ->
  exists df',
    index_to_time df = Ok df'
    /\ columns df' = columns df
    /\ In "Time" (columns df')
    /\ map snd (rows df') = map snd (filter no_missing (rows df))
    /\ Forall2 (fun l (r : row) => label_is l (elapsed_hours (cell_at j (snd r))))
               (index df') (filter no_missing (rows df)).
Proof.
  intros Hwf Ht Hh Htimes. eexists.
  split; [apply (index_to_time_rows df j); assumption|].
  simpl. repeat split.
  - apply (positions_In 0 "Time" _ j). unfold positions in Ht. rewrite Ht. now left.
  - rewrite map_map. reflexivity.
  - unfold index. simpl. rewrite map_map. simpl.
    rewrite forallb_forall in Htimes.
    induction (filter no_missing (rows df)) as [|r rs IH]; simpl; constructor.
    + specialize (Htimes r (or_introl eq_refl)).
      destruct (cell_at j (snd r)) as [| |h m s| |]; try discriminate.
      eexists. split; [reflexivity|]. apply total_hours_elapsed.
    + apply IH. intros x Hx. apply Htimes. now right.
Qed.

(** C3, witness: the loaded table with an incomplete second reading. *)
Lemma index_to_time_elapsed_hours_example :
  exists df',
    index_to_time od_table = Ok df'
    /\ columns df' = columns od_table
    /\ In "Time" (columns df')
    /\ map snd (rows df') = map snd (filter no_missing (rows od_table))
    /\ Forall2 (fun l (r : row) => label_is l (elapsed_hours (cell_at 0 (snd r))))
               (index df') (filter no_missing (rows od_table)).
Proof.
  apply (index_to_time_elapsed_hours od_table 0%nat).
  - repeat constructor.
  - reflexivity.
  - reflexivity.
  - reflexivity.
Defined.


(* ================================================================== *)
(** * Applying the calibration: claim C8 *)

Lemma load_app_old (h : heap) (r : ref) (df new : DataFrame) :
  load h r = Some df -> load (h ++ [new]) r = Some df.
Proof.
  unfold load. intros H. rewrite nth_error_app1; [assumption|].
  apply nth_error_Some. congruence.
Qed.

(** C8.  For every store of table objects and every table object [df] in it
    whose rows have one cell per column, whose labels beginning with one of
    the letters A to H name one column each and whose cells under such
    labels are numbers or missing-data markers: when the fit of lines 24-40
    succeeds, [rfu_to_mefl] returns a new object (a reference the store did
    not hold before), the object passed in and every other object of the
    store are unchanged, and the new table has the columns and row labels
    of the input, [value * slope + intercept] in every cell under a label
    beginning with one of the letters A to H (a missing cell stays missing)
    and the cell of the input everywhere else. *)
Theorem rfu_to_mefl_obj_frame (h : heap) (df : ref) (src : DataFrame)
    (fluor_conc_uM : list Q) (well_volume_uL : Q) (fluorescein_wells : list string)
    (background : option string) (rfus molecules : list fnum) (LR : LinregressResult) :
  load h df = Some src ->
  wf src ->
  well_labels_distinct src = true ->
  wells_numeric src = true ->
  calibration_fit src fluor_conc_uM well_volume_uL fluorescein_wells background
    = Ok (rfus, molecules, LR) ->
  exists dst,
    rfu_to_mefl_obj df fluor_conc_uM well_volume_uL fluorescein_wells background h
      = (Ok (length h, rfus, molecules, lr_slope LR, lr_intercept LR, lr_rvalue_sq LR),
         h ++ [dst])
    /\ length h <> df
    /\ load (h ++ [dst]) df = Some src
    /\ (forall r, r <> length h -> load (h ++ [dst]) r = load h r)
    /\ columns dst = columns src
    /\ index dst = index src
    /\ forall i j r col c,
         nth_error (rows src) i = Some r ->
         nth_error (columns src) j = Some col ->
         nth_error (snd r) j = Some c ->
         exists r' c',
           nth_error (rows dst) i = Some r'
           /\ length (snd r') = length (snd r)
           /\ nth_error (snd r') j = Some c'
           /\ if begins_with_row_letter col
              then is_calibrated (lr_slope LR) (lr_intercept LR) c c'
              else c' = c.
Proof.
  intros Hload Hwf Hd Hn Hfit.
  assert (Hlt : (df < length h)%nat) by (apply nth_error_Some; unfold load in Hload; congruence).
  exists (calibrated_table (lr_slope LR) (lr_intercept LR) src).
  split; [|split; [lia|split; [now apply load_app_old|split; [|split; [reflexivity|split]]]]].
  - unfold rfu_to_mefl_obj. rewrite Hload, Hfit. unfold copy.
    rewrite (mefl_loop_obj_value (columns src) (lr_slope LR) (lr_intercept LR)
               df (length h) src (Nat.lt_neq _ _ Hlt) (h ++ [src]) src
               (calibrated_table (lr_slope LR) (lr_intercept LR) src)).
    + unfold store. now rewrite set_nth_app_middle.
    + now apply load_app_old.
    + unfold load. apply nth_error_app_middle.
    + now apply mefl_loop_calibrated.
  - intros r Hr. unfold load.
    destruct (Nat.lt_ge_cases r (length h)) as [Hrl|Hrl].
    + now rewrite nth_error_app1.
    + rewrite nth_error_app2 by assumption.
      assert (E : nth_error h r = None) by (now apply nth_error_None).
      rewrite E. destruct (r - length h)%nat as [|k] eqn:Ek; [lia|].
      simpl. now destruct k.
  - unfold index, calibrated_table. simpl. now rewrite map_map.
  - intros i j r col c Hr Hcol Hc.
    destruct (calibrated_table_cell (lr_slope LR) (lr_intercept LR) src i j r col c
                Hr Hcol Hc) as [r' [E [_ [Hlen Hcell]]]].
    rewrite is_well_row_letter in Hcell.
    exists r'. eexists. split; [exact E|]. split; [exact Hlen|]. split; [exact Hcell|].
    destruct (begins_with_row_letter col) eqn:Hb; [|reflexivity].
    apply calibrated_cell_is_calibrated.
    unfold wells_numeric in Hn. rewrite forallb_forall in Hn.
    pose proof (forallb_mapi_nth _ _ _ _ (Hn r (nth_error_In _ _ Hr)) Hc) as H.
    cbv beta in H. now rewrite (nth_error_nth _ _ _ Hcol), Hb in H.
Qed.

(** C8, witness: a store holding one fluorescence table with two
    calibration wells and a sample well. *)
Lemma rfu_to_mefl_obj_frame_example :
  exists rfus molecules LR dst,
    rfu_to_mefl_obj 0%nat [1; 2] 200 ["A1"; "A2"] None [fl_calibration]
      = (Ok (1%nat, rfus, molecules, lr_slope LR, lr_intercept LR, lr_rvalue_sq LR),
         [fl_calibration; dst])
    /\ 1%nat <> 0%nat
    /\ load [fl_calibration; dst] 0%nat = Some fl_calibration
    /\ (forall r, r <> 1%nat -> load [fl_calibration; dst] r = load [fl_calibration] r)
    /\ columns dst = columns fl_calibration
    /\ index dst = index fl_calibration
    /\ forall i j r col c,
         nth_error (rows fl_calibration) i = Some r ->
         nth_error (columns fl_calibration) j = Some col ->
         nth_error (snd r) j = Some c ->
         exists r' c',
           nth_error (rows dst) i = Some r'
           /\ length (snd r') = length (snd r)
           /\ nth_error (snd r') j = Some c'
           /\ if begins_with_row_letter col
              then is_calibrated (lr_slope LR) (lr_intercept LR) c c'
              else c' = c.
Proof.
  destruct (calibration_fit fl_calibration [1; 2] 200 ["A1"; "A2"] None)
    as [[[rfus molecules] LR]|e] eqn:Hfit; [|discriminate Hfit].
  exists rfus, molecules, LR.
  apply (rfu_to_mefl_obj_frame [fl_calibration] 0%nat fl_calibration
           [1; 2] 200 ["A1"; "A2"] None rfus molecules LR).
  - reflexivity.
  - repeat constructor.
  - reflexivity.
  - reflexivity.
  - exact Hfit.
Defined.


(* ================================================================== *)
(** * The replicate averager: claims C9 and C10 *)

(** C9, at the failing input.  Two replicates renamed to "WT" and a third
    well renamed to "WT2", readings 1, 2 and 6, condition "WT".  The
    condition is a prefix of all three labels, and the arithmetic mean of
    the three matched columns is 3.  The code selects the matched columns
    by label, [df[["WT"; "WT"; "WT2"]]]; a label shared by two columns
    selects both of them each time it is listed, so the mean is taken over
    1, 2, 1, 2, 6 and the averaged column holds 12/5. *)
Theorem average_replicates_counts_shared_labels_twice :
  average_replicates first_occurrences replicate_table ["WT"]
    = Ok (mkDF ["WT"] [(LFloat (Fin 0), [CNum (Fin (12 / 5))])])
  /\ filter (fun col => startswith col "WT") (columns replicate_table)
     = ["WT"; "WT"; "WT2"]
  /\ Qeq_bool (12 / 5) ((1 + 2 + 6) / 3) = false.
Proof.
  repeat split; vm_compute; reflexivity.
Qed.

(** C10.  For every table, every condition list and every order in which
    the set of conditions is iterated: a table returned by
    [average_replicates] has exactly the row labels of the input, in the
    same order; a table is returned whenever the cells of the matched
    columns are numbers or missing-data markers; and when no condition
    matches any column the table returned has those row labels and no
    column. *)
Theorem average_replicates_keeps_index (set_iter : list string -> list string)
    (df : DataFrame) (conditions : list string) :
  (forall df_avg,
     average_replicates set_iter df conditions = Ok df_avg -> index df_avg = index df)
  /\ (matched_numeric (set_iter conditions) df = true ->
      exists df_avg, average_replicates set_iter df conditions = Ok df_avg)
  /\ (forallb (fun cond => matches_nothing cond df) (set_iter conditions) = true ->
      average_replicates set_iter df conditions = Ok (mkDF [] (map (fun r : row => (fst r, [])) (rows df)))).
Proof.
  unfold average_replicates. repeat split.
  - intros df_avg H. eapply average_loop_index; [|exact H]. apply index_empty_like.
  - intros H. eapply average_loop_ok; eauto.
  - intros H. now apply average_loop_no_match.
Qed.

(** C10, witness: the three renamed wells, with a condition that matches
    and one that does not. *)
Lemma average_replicates_keeps_index_example :
  exists df_avg,
    average_replicates first_occurrences replicate_table ["WT"; "mutant"] = Ok df_avg
    /\ index df_avg = index replicate_table.
Proof.
  destruct (proj1 (proj2 (average_replicates_keeps_index first_occurrences
                            replicate_table ["WT"; "mutant"])) eq_refl)
    as [df_avg E].
  exists df_avg. split; [exact E|].
  exact (proj1 (average_replicates_keeps_index first_occurrences
                  replicate_table ["WT"; "mutant"]) df_avg E).
Defined.


(* ================================================================== *)
(** * The calibration fit: claim C1 *)

(** Lines 24-27 in one formula: one factor of 10^-6, for the volume. *)
Lemma fluor_molecules_formula (fluor_conc_uM : list Q) (well_volume_uL : Q) :
  Forall2 (fun count conc =>
             exists q, count = Fin q
               /\ q == conc * well_volume_uL * (6022 # 1000) * inject_Z (10 ^ 17))
          (fluor_molecules fluor_conc_uM well_volume_uL) fluor_conc_uM.
Proof.
  assert (H : inject_Z (10 ^ 23) == inject_Z (10 ^ 17) * 1000000)
    by (vm_compute; reflexivity).
  unfold fluor_molecules, avogadro.
  remember (inject_Z (10 ^ 23)) as a eqn:Ea. remember (inject_Z (10 ^ 17)) as k eqn:Ek.
  clear Ea Ek.
  induction fluor_conc_uM as [|c l IH]; simpl; constructor.
  - eexists. split; [reflexivity|]. unfold micro. rewrite H. field.
  - exact IH.
Qed.

(** The counts [rfu_to_mefl] returns are the ones of lines 24-27. *)
Lemma rfu_to_mefl_molecules (df : DataFrame) (fluor_conc_uM : list Q)
    (well_volume_uL : Q) (fluorescein_wells : list string) (background : option string)
    (df_MEFL : DataFrame) (rfus molecules : list fnum) (slope intercept r_squared : fnum) :
  rfu_to_mefl df fluor_conc_uM well_volume_uL fluorescein_wells background
    = Ok (df_MEFL, rfus, molecules, slope, intercept, r_squared) ->
  molecules = fluor_molecules fluor_conc_uM well_volume_uL.
Proof.
  unfold rfu_to_mefl, calibration_fit. intros E.
  destruct (mean_axis0 df fluorescein_wells) as [rfus0|]; [|discriminate E].
  cbn [bind] in E.
  destruct (match background with
            | Some bg =>
                do j <- single_column bg df;
                do bg_mean <- mean (column j df);
                Ok (map (fun x => fsub x bg_mean) rfus0)
            | None => Ok rfus0
            end) as [rfus1|]; [|discriminate E].
  cbn [bind] in E.
  destruct (linregress rfus1 (fluor_molecules fluor_conc_uM well_volume_uL))
    as [LR|]; [|discriminate E].
  cbn [bind] in E.
  destruct (mefl_loop (columns df) (lr_slope LR) (lr_intercept LR) df df);
    [|discriminate E].
  cbn [bind] in E. now injection E as _ _ <- _ _ _.
Qed.

(** C1, at the failing input.  For a concentration of 1 micromolar in 200
    microliters the claim expects 1 * 1e-6 * 200 * 1e-6 * 6.022e23 =
    1.2044e14 molecules.  The code multiplies the concentration by the
    volume in litres and by Avogadro's number and never converts micromolar
    to molar: the count it returns is 1.2044e20, off by a factor of a
    million and so not within relative tolerance 1e-9 of 1.2044e14. *)
Theorem rfu_to_mefl_count_scenario :
  exists df_MEFL rfus q1 q2 slope intercept r_squared,
    rfu_to_mefl fl_calibration [1; 2] 200 ["A1"; "A2"] None
      = Ok (df_MEFL, rfus, [Fin q1; Fin q2], slope, intercept, r_squared)
    /\ q1 == 120440000000000000000
    /\ (1 # 1000000000) * 120440000000000 < Qabs (q1 - 120440000000000).
Proof.
  destruct (rfu_to_mefl fl_calibration [1; 2] 200 ["A1"; "A2"] None)
    as [[[[[[df_MEFL rfus] molecules] slope] intercept] r_squared]|e] eqn:E;
    [|discriminate E].
  pose proof (rfu_to_mefl_molecules _ _ _ _ _ _ _ _ _ _ _ E) as Hm. subst molecules.
  eexists df_MEFL, rfus, _, _, slope, intercept, r_squared.
  split; [reflexivity|]. split; vm_compute; reflexivity.
Qed.


(* ================================================================== *)
(** * The orchestrator: claims C2 and C4 *)

(** C2, at the failing input.  A configuration without a calibration section
    and two sheets that every stage accepts: the run goes through loading,
    cleaning, time indexing, renaming and normalization, and then raises
    UnboundLocalError, because [df_norm_MEFL] is assigned only when a
    calibration was made and the table of plot sources reads it in every
    run.  (The averages [df_..._avg] are set to None beforehand;
    [df_norm_MEFL] is not.)  No run without calibration returns:
    [run_pipeline_without_calibration]. *)
Theorem run_pipeline_without_calibration_scenario :
  run_pipeline first_occurrences config_without_calibration example_workbook []
  = (Raise (UnboundLocalError "df_norm_MEFL"),
     [ Info "Data imported."; Info "Fluorescence data cleaned.";
       Info "Time indices set.";
       Info "No calibration performed; using raw RFU values.";
       Info "Samples named."; Info "RFU normalized by optical density." ]).
Proof.
  vm_compute. reflexivity.
Qed.

(** C4, counterexample.  The two sheets were read at different times of
    day: indexed on their own, the optical-density table is labelled 0 and
    1/2 hour, the fluorescence table 0 and 3/4 hour.  The run does not
    raise: it calibrates, normalizes and returns, and the table it returns
    is labelled 0 and 1/2 hour, the labels of the optical-density table
    having been written over those of the fluorescence table. *)
Lemma run_pipeline_accepts_other_times :
  (do od <- load_xlsx example_workbook "OD600"; do t <- index_to_time od; Ok (index t))
    = Ok [LFloat (Fin (0 / 3600)); LFloat (Fin (1800 / 3600))]
  /\ (do fl <- load_xlsx example_workbook "GFP"; do t <- index_to_time fl; Ok (index t))
     = Ok [LFloat (Fin (0 / 3600)); LFloat (Fin (2700 / 3600))]
  /\ info_lines (snd (run_pipeline first_occurrences config_with_calibration
                        example_workbook []))
     = [ "Data imported."; "Fluorescence data cleaned."; "Time indices set.";
         "MEFL data saved to results/MEFL.csv"; "Calibration complete.";
         "Samples named."; "RFU normalized by optical density.";
         "MEFL normalized by optical density.";
         "normalized MEFL data saved to results/normalized_MEFL_replicates.csv";
         "Requested data plotted."; "Pipeline completed successfully." ]
  /\ match fst (run_pipeline first_occurrences config_with_calibration
                  example_workbook []) with
     | Ok out => option_map index (normalized_MEFL_replicates out)
     | Raise _ => None
     end = Some [LFloat (Fin (0 / 3600)); LFloat (Fin (1800 / 3600))].
Proof.
  repeat split; vm_compute; reflexivity.
Qed.

Lemma combine_length_same {A B : Type} (l : list A) (l' : list B) :
  length l' = length l -> length (combine l l') = length l.
Proof.
  revert l'. induction l as [|a l IH]; intros [|b l'] H; simpl in *;
    try discriminate; [reflexivity|].
  now rewrite IH by lia.
Qed.

Lemma load_xlsx_index (wb : workbook) (sheet_name : string) (df : DataFrame) :
  load_xlsx wb sheet_name = Ok df -> index df = range_labels (length (rows df)).
Proof.
  unfold load_xlsx. destruct (lookup sheet_name wb) as [ws|]; [|discriminate].
  intros H. injection H as <-. unfold index. simpl.
  assert (Hlen : length (body ws) = length (range_labels (length (body ws))))
    by (unfold range_labels; now rewrite length_map, length_seq).
  unfold row. rewrite combine_length_same by exact Hlen. rewrite <- Hlen.
  now apply map_fst_combine_same_length.
Qed.

Lemma index_equals_range (n : nat) :
  index_equals (range_labels n) (range_labels n) = true.
Proof.
  unfold range_labels. induction (seq 0 n) as [|i l IH]; simpl; [reflexivity|].
  rewrite IH, andb_true_r. apply Qeq_bool_iff. reflexivity.
Qed.

(** C4, as amended.  The run compares the row labels of the two tables as
    loaded, which are the row positions, so what it checks is the number of
    rows.  (1) When the two sheets have different numbers of rows the run
    raises ValueError before cleaning, time indexing, calibration or
    normalization: nothing is logged.  (2) When they have the same number
    of rows but [index_to_time] leaves the optical-density table with
    another number of rows than the fluorescence table, the run raises
    ValueError after "Fluorescence data cleaned.", before calibration and
    normalization.  (3) Whenever the run gets past time indexing, the
    fluorescence table carries the elapsed hours of the optical-density
    table; its own "Time" column is not read. *)
Theorem run_pipeline_checks_row_counts (set_iter : list string -> list string)
    (cfg : config) (wb : workbook) (tr : list event)
    (fp : string) (sh : string * string) (rm : list (string * string))
    (plots : list plot_cfg) (od fl : DataFrame) :
  file_path cfg = Some fp ->
  sheets cfg = Some sh ->
  rename_map cfg = Some rm ->
  plotting cfg = Some plots ->
  load_xlsx wb (fst sh) = Ok od ->
  load_xlsx wb (snd sh) = Ok fl ->
  (length (rows od) <> length (rows fl) ->
   run_pipeline set_iter cfg wb tr =
   (Raise (ValueError "OD600 and fluorescence time axes do not match."), tr))
  /\ (forall fl' od',
        length (rows od) = length (rows fl) ->
        handle_ovrflw fl (clean_replacement cfg) = Ok fl' ->
        index_to_time od = Ok od' ->
        length (rows od') <> length (rows fl') ->
        run_pipeline set_iter cfg wb tr =
        (Raise (ValueError "Length mismatch"),
         tr ++ [Info "Data imported."] ++ [Info "Fluorescence data cleaned."]))
  /\ (forall output_folder df_od600 df_sfGFP tr',
        load_and_index cfg wb tr = (Ok (output_folder, df_od600, df_sfGFP), tr') ->
        index_to_time od = Ok df_od600 /\ index df_sfGFP = index df_od600).
Proof.
  intros Hfp Hsh Hrm Hpl Hod Hfl. split; [|split].
  - intros Hlen. unfold run_pipeline, bindM at 1.
    now rewrite (load_and_index_guard cfg wb tr fp sh rm plots od fl).
  - intros fl' od' Hlen Hclean Htime Hlen'.
    unfold run_pipeline, bindM at 1. unfold load_and_index.
    rewrite Hfp, Hsh, Hrm, Hpl. unfold bindM, require, ret, lift, info, emit. simpl.
    rewrite Hod, Hfl.
    rewrite (load_xlsx_index _ _ _ Hod), (load_xlsx_index _ _ _ Hfl), Hlen,
      index_equals_range.
    simpl. rewrite Hclean, Htime. unfold assign_index.
    rewrite index_length_rows.
    destruct (Nat.eqb_spec (length (rows od')) (length (rows fl'))); [contradiction|].
    now rewrite <- app_assoc.
  - intros folder df_od600 df_sfGFP tr' H. split.
    + unfold load_and_index in H. rewrite Hfp, Hsh, Hrm, Hpl in H.
      unfold bindM at 1 2 3 4 in H. unfold require, ret in H.
      unfold bindM at 1 2 in H. unfold lift at 1 2 in H. rewrite Hod, Hfl in H.
      destruct (negb (index_equals (index od) (index fl))); [discriminate|].
      inv_bind H as u1 t7 E7. inv_bind H as fl1 t8 E8.
      inv_bind H as u2 t9 E9. inv_bind H as od1 t10 E10.
      inv_bind H as fl2 t11 E11. inv_bind H as u3 t12 E12.
      unfold ret in H. injection H as _ <- _ _.
      unfold lift in E10. now injection E10 as E10 _.
    + now apply (load_and_index_shared_index cfg wb tr tr' folder).
Qed.

(** C4, witness: a fluorescence sheet with one reading cycle more than the
    optical-density sheet. *)
Lemma run_pipeline_checks_row_counts_example :
  run_pipeline first_occurrences config_long_sheet example_workbook []
  = (Raise (ValueError "OD600 and fluorescence time axes do not match."), []).
Proof.
  destruct (load_xlsx example_workbook "OD600") as [od|] eqn:Hod; [|discriminate Hod].
  destruct (load_xlsx example_workbook "GFP long") as [fl|] eqn:Hfl; [|discriminate Hfl].
  apply (proj1 (run_pipeline_checks_row_counts first_occurrences config_long_sheet
                  example_workbook [] "plate.xlsx" ("OD600", "GFP long")
                  example_rename_map [] od fl
                  eq_refl eq_refl eq_refl eq_refl Hod Hfl)).
  injection Hod as <-. injection Hfl as <-. discriminate.
Defined.


(* ================================================================== *)
(** * The orchestrator: what stops a run before it loads anything *)

(** A configuration lacking one of the four required sections stops the run
    with a KeyError that names the first section missing, in the order
    file_path, sheets, rename_map, plotting; nothing has been logged,
    written or drawn by then. *)
Theorem run_pipeline_missing_section (set_iter : list string -> list string)
    (cfg : config) (wb : workbook) (tr : list event) (section : string) :
  first_missing_section cfg = Some section ->
  run_pipeline set_iter cfg wb tr =
  (Raise (KeyError ("Missing required config section: " ++ section)), tr).
Proof.
  unfold first_missing_section, run_pipeline, load_and_index, bindM, require, ret, raise.
  intros H.
  destruct (file_path cfg), (sheets cfg), (rename_map cfg), (plotting cfg);
    inversion H; reflexivity.
Qed.

Lemma run_pipeline_missing_section_example :
  run_pipeline first_occurrences config_without_rename_map example_workbook []
  = (Raise (KeyError "Missing required config section: rename_map"), []).
Proof.
  apply (run_pipeline_missing_section first_occurrences config_without_rename_map
           example_workbook [] "rename_map").
  reflexivity.
Defined.

(** With the four required sections present, a sheet name the workbook does
    not have stops the run with a KeyError for that sheet, the optical
    density sheet being looked up first; no line has been logged, no table
    written and no figure drawn by then. *)
Theorem run_pipeline_missing_sheet (set_iter : list string -> list string)
    (cfg : config) (wb : workbook) (tr : list event) (sh : string * string)
    (sheet_name : string) :
  first_missing_section cfg = None ->
  sheets cfg = Some sh ->
  first_missing_sheet wb sh = Some sheet_name ->
  run_pipeline set_iter cfg wb tr = (Raise (KeyError sheet_name), tr).
Proof.
  unfold first_missing_section, first_missing_sheet, run_pipeline, load_and_index.
  intros Hcfg Hsh Hwb. rewrite Hsh in *.
  destruct (file_path cfg), (rename_map cfg), (plotting cfg); try discriminate.
  unfold bindM, require, ret, raise, lift, load_xlsx.
  destruct (lookup (fst sh) wb); [destruct (lookup (snd sh) wb)|];
    inversion Hwb; reflexivity.
Qed.

Lemma run_pipeline_missing_sheet_example :
  run_pipeline first_occurrences config_unknown_sheet example_workbook []
  = (Raise (KeyError "mCherry"), []).
Proof.
  apply (run_pipeline_missing_sheet first_occurrences config_unknown_sheet
           example_workbook [] ("OD600", "mCherry") "mCherry");
    reflexivity.
Defined.

(* ================================================================== *)
(** * The overflow normalizer on a table as loaded *)

Lemma range_labels_length (n : nat) : length (range_labels n) = n.
Proof.
  unfold range_labels. now rewrite length_map, length_seq.
Qed.

Lemma In_combine_snd {A B : Type} (l : list A) (l' : list B) (x : A * B) :
  In x (combine l l') -> In (snd x) l'.
Proof.
  destruct x as [a b]. apply in_combine_r.
Qed.

(** A sheet whose rows all have one cell per header cell, and which holds
    no pd.NA outside its first two columns, loads as a table that
    [handle_ovrflw] cleans without raising, whatever usable substitute it is
    given: the columns are the header, the rows are numbered from 0, and
    every row is the sheet's row with the overflow sentinels outside the
    first two columns replaced. *)
Theorem handle_ovrflw_after_load (wb : workbook) (sheet_name : string) (ws : sheet)
    (integer : replacement) :
  lookup sheet_name wb = Some ws ->
  rectangular ws = true ->
  sheet_no_NA ws = true ->
  usable integer = true ->
  exists df df',
    load_xlsx wb sheet_name = Ok df
    /\ handle_ovrflw df integer = Ok df'
    /\ columns df' = header ws
    /\ index df' = range_labels (length (body ws))
    /\ map snd (rows df') = map (mapi (clean_cell (substitute integer))) (body ws).
Proof.
  intros Hws Hrect Hna Hu.
  assert (Hlen : length (body ws) = length (range_labels (length (body ws))))
    by now rewrite range_labels_length.
  set (df := mkDF (header ws) (combine (range_labels (length (body ws))) (body ws))).
  assert (Hload : load_xlsx wb sheet_name = Ok df)
    by (unfold load_xlsx; now rewrite Hws).
  assert (Hsnd : map snd (rows df) = body ws).
  { subst df. cbn [rows]. clear -Hlen. revert Hlen.
    generalize (range_labels (length (body ws))). induction (body ws) as [|r rs IH];
      intros [|l ls] H; simpl in *; try discriminate; [reflexivity|].
    f_equal. apply IH. lia. }
  exists df, (cleaned (substitute integer) df). split; [exact Hload|]. split.
  - apply handle_ovrflw_cleaned; [| |  |exact Hu].
    + unfold wf. apply Forall_forall. intros r Hr. subst df. cbn [rows columns] in *.
      apply In_combine_snd in Hr. unfold rectangular in Hrect.
      rewrite forallb_forall in Hrect. now apply Nat.eqb_eq, Hrect.
    + now apply (load_xlsx_index wb sheet_name).
    + unfold no_NA_outside_metadata. apply forallb_forall. intros r Hr.
      subst df. cbn [rows] in Hr. apply In_combine_snd in Hr.
      unfold sheet_no_NA in Hna. rewrite forallb_forall in Hna. now apply Hna.
  - split; [reflexivity|]. split.
    + rewrite cleaned_index.
      rewrite (load_xlsx_index wb sheet_name df Hload).
      f_equal. transitivity (length (map snd (rows df)));
        [symmetry; apply length_map|now rewrite Hsnd].
    + unfold cleaned. cbn [rows]. rewrite map_map. cbn [snd].
      rewrite <- Hsnd. now rewrite map_map.
Qed.

Lemma handle_ovrflw_after_load_example :
  exists df df',
    load_xlsx [("GFP", overflow_sheet)] "GFP" = Ok df
    /\ handle_ovrflw df (RNum 9999) = Ok df'
    /\ columns df' = header overflow_sheet
    /\ index df' = range_labels (length (body overflow_sheet))
    /\ map snd (rows df')
       = map (mapi (clean_cell (substitute (RNum 9999)))) (body overflow_sheet).
Proof.
  apply (handle_ovrflw_after_load [("GFP", overflow_sheet)] "GFP" overflow_sheet
           (RNum 9999)); reflexivity.
Defined.

(* ================================================================== *)
(** * The overflow normalizer on any table: what it never touches *)














Lemma handle_ovrflw_twice_with_substitute_example :
  exists df',
    handle_ovrflw overflow_table (RNum 9999) = Ok df'
    /\ handle_ovrflw df' (RNum 9999) = Ok df'.
Proof.
  apply (handle_ovrflw_twice_with_substitute overflow_table 9999).
  - repeat constructor.
  - reflexivity.
  - reflexivity.
  - reflexivity.
Defined.

(* ================================================================== *)
(** * The time indexer: a second pass, and what it refuses *)

Lemma filter_map_comm {A B : Type} (p : B -> bool) (f : A -> B) (l : list A) :
  filter p (map f l) = map f (filter (fun a => p (f a)) l).
Proof.
  induction l as [|a l IH]; simpl; [reflexivity|].
  destruct (p (f a)); simpl; now rewrite IH.
Qed.

Lemma filter_filter_same {A : Type} (p : A -> bool) (l : list A) :
  filter p (filter p l) = filter p l.
Proof.
  induction l as [|a l IH]; simpl; [reflexivity|].
  destruct (p a) eqn:E; simpl; [rewrite E; now f_equal|exact IH].
Qed.

Lemma forallb_filter_same {A : Type} (p : A -> bool) (l : list A) :
  forallb p (filter p l) = true.
Proof.
  apply forallb_forall. intros a Ha. now apply filter_In in Ha.
Qed.

(** [index_to_time] returns only complete rows, and applying it to its own
    result changes nothing: the "Time" column it read is still there, so
    the second pass computes the same row labels again.  Stated for tables
    with one "Time" column holding times of day in the complete rows. *)
Theorem index_to_time_idempotent (df : DataFrame) (j : nat) :
  wf df ->
  positions "Time" (columns df) = [j] ->
  positions "hours elapsed" (columns df) = [] ->
  forallb (fun r : row => is_time (cell_at j (snd r))) (filter no_missing (rows df)) = true ->
  exists df',
    index_to_time df = Ok df'
    /\ index_to_time df' = Ok df'
    /\ forallb no_missing (rows df') = true
    /\ (length (rows df') <= length (rows df))%nat.
Proof.
  intros Hwf Htime Hnew Hcells.
  pose proof (index_to_time_rows df j Hwf Htime Hnew Hcells) as H1.
  set (relabel := fun r : row =>
         (match cell_at j (snd r) with
          | CTime h m s => LFloat (Fin (total_seconds h m s / 3600))
          | _ => LFloat NaN
          end, snd r)) in *.
  set (df' := mkDF (columns df) (map relabel (filter no_missing (rows df)))) in *.
  assert (Hkeep : filter no_missing (rows df') = rows df').
  { subst df'. cbn [rows]. rewrite filter_map_comm.
    now replace (filter (fun a : row => no_missing (relabel a)) (filter no_missing (rows df)))
      with (filter no_missing (rows df)) by (symmetry; apply filter_filter_same). }
  exists df'. split; [exact H1|]. split; [|split].
  - rewrite (index_to_time_rows df' j).
    + fold relabel. rewrite Hkeep. subst df'. cbn [rows columns].
      rewrite map_map. do 2 f_equal.
    + unfold wf. apply Forall_forall. intros r' Hr'. subst df'. cbn [rows columns] in *.
      apply in_map_iff in Hr' as [r [<- Hr]]. unfold relabel. cbn [snd].
      apply filter_In in Hr as [Hr _].
      unfold wf in Hwf. rewrite Forall_forall in Hwf. now apply Hwf.
    + exact Htime.
    + exact Hnew.
    + rewrite Hkeep. subst df'. cbn [rows]. apply forallb_forall.
      intros r' Hr'. apply in_map_iff in Hr' as [r [<- Hr]]. unfold relabel. cbn [snd].
      rewrite forallb_forall in Hcells. now apply Hcells.
  - rewrite <- Hkeep. apply forallb_filter_same.
  - subst df'. cbn [rows]. rewrite length_map. apply filter_length_le.
Qed.

Lemma index_to_time_idempotent_example :
  exists df',
    index_to_time od_table = Ok df'
    /\ index_to_time df' = Ok df'
    /\ forallb no_missing (rows df') = true
    /\ (length (rows df') <= length (rows od_table))%nat.
Proof.
  apply (index_to_time_idempotent od_table 0).
  - repeat constructor.
  - reflexivity.
  - reflexivity.
  - reflexivity.
Defined.

Lemma mapM_total_hours_raise (cs : list cell) :
  existsb (fun c => negb (is_time c)) cs = true ->
  mapM total_hours cs = Raise (AttributeError "hour").
Proof.
  induction cs as [|c cs IH]; simpl; [discriminate|].
  destruct c; simpl; try reflexivity.
  intros H. now rewrite IH.
Qed.

(** A table without a column labelled "Time" is refused with KeyError,
    whatever its rows hold. *)
Theorem index_to_time_without_time_column (df : DataFrame) :
  positions "Time" (columns df) = [] ->
  index_to_time df = Raise (KeyError "Time").
Proof.
  intros H. unfold index_to_time, time_column, dropna. cbn [columns]. now rewrite H.
Qed.

Lemma index_to_time_without_time_column_example :
  index_to_time replicate_table = Raise (KeyError "Time").
Proof.
  apply (index_to_time_without_time_column replicate_table). reflexivity.
Defined.

(** A complete row whose "Time" cell is not a time of day (a time read as
    text, a number) stops [index_to_time] with AttributeError; a row with a
    missing cell is dropped before its "Time" cell is looked at. *)
Theorem index_to_time_refuses_other_cells (df : DataFrame) (j : nat) (r : row) :
  positions "Time" (columns df) = [j] ->
  In r (rows df) ->
  no_missing r = true ->
  is_time (cell_at j (snd r)) = false ->
  index_to_time df = Raise (AttributeError "hour").
Proof.
  intros Htime Hr Hcomplete Hcell.
  unfold index_to_time, time_column, dropna. cbn [columns rows]. rewrite Htime.
  cbn [bind]. rewrite mapM_total_hours_raise; [reflexivity|].
  apply existsb_exists. exists (cell_at j (snd r)). split.
  - apply in_map_iff. exists r. split; [reflexivity|].
    apply filter_In. now split.
  - now rewrite Hcell.
Qed.

Lemma index_to_time_refuses_other_cells_example :
  index_to_time od_text_time = Raise (AttributeError "hour").
Proof.
  apply (index_to_time_refuses_other_cells od_text_time 0
           (LInt 1, [CStr "0:30:00"; num 30; num 1])).
  - reflexivity.
  - right. left. reflexivity.
  - reflexivity.
  - reflexivity.
Defined.

(* ================================================================== *)
(** * Renaming and normalization *)



(* ================================================================== *)
(** * The replicate averager: the table it builds *)

Lemma filter_nil_forallb {A : Type} (p : A -> bool) (l : list A) :
  filter p l = [] <-> forallb (fun a => negb (p a)) l = true.
Proof.
  induction l as [|a l IH]; simpl; [tauto|].
  destruct (p a); simpl; [split; discriminate|exact IH].
Qed.

Lemma mapM_mean_inv (ps : list nat) (rs : list row) (m : list cell) :
  mapM (fun r : row => do x <- mean (select ps (snd r)); Ok (CNum x)) rs = Ok m ->
  m = map (fun r : row => mean_cell (select ps (snd r))) rs
  /\ forall r, In r rs -> exists x, mean (select ps (snd r)) = Ok x.
Proof.
  revert m. induction rs as [|r rs IH]; intros m H; cbn [mapM] in H.
  - injection H as <-. split; [reflexivity|]. intros r [].
  - destruct (mean (select ps (snd r))) as [x|e] eqn:Ex; [|discriminate].
    cbn [bind] in H.
    destruct (mapM (fun r : row => do x <- mean (select ps (snd r)); Ok (CNum x)) rs)
      as [m'|e]; [|discriminate].
    cbn [bind] in H. injection H as <-.
    destruct (IH m' eq_refl) as [-> Hall]. split.
    + cbn [map]. unfold mean_cell. now rewrite Ex.
    + intros r' [<-|Hr']; [eauto|auto].
Qed.

(** Appending the column of a condition not yet present. *)
Lemma setitem_averaged (sel : string -> list nat) (done : list string) (df : DataFrame)
    (cond : string) :
  ~ In cond done ->
  setitem (averaged sel done df) cond
          (map (fun r : row => mean_cell (select (sel cond) (snd r))) (rows df))
  = averaged sel (done ++ [cond]) df.
Proof.
  intros Hnew. unfold setitem, averaged. cbn [columns rows].
  unfold positions. rewrite positions_from_notin by exact Hnew.
  f_equal. rewrite combine_map_map, map_map. apply map_ext. intros r.
  cbn [fst snd]. now rewrite map_app.
Qed.

Lemma average_loop_averaged (df : DataFrame) (todo : list string) :
  forall (done : list string) (out : DataFrame),
    NoDup (done ++ todo) ->
    average_loop todo df (averaged (selected_positions df) done df) = Ok out ->
    out = averaged (selected_positions df) (done ++ matching todo df) df
    /\ forall cond r,
         In cond (matching todo df) -> In r (rows df) ->
         exists x, mean (select (selected_positions df cond) (snd r)) = Ok x.
Proof.
  induction todo as [|cond todo IH]; intros done out Hnodup H.
  - simpl in H. injection H as <-. simpl. rewrite app_nil_r. split; [reflexivity|].
    intros cond r [].
  - cbn [average_loop] in H.
    assert (Hm : matching (cond :: todo) df
                 = if forallb (fun col => negb (startswith col cond)) (columns df)
                   then matching todo df else cond :: matching todo df).
    { unfold matching, matches_nothing. cbn [filter].
      now destruct (forallb (fun col => negb (startswith col cond)) (columns df)). }
    rewrite Hm. clear Hm.
    destruct (filter (fun col => startswith col cond) (columns df)) as [|c cs] eqn:Ef.
    + apply filter_nil_forallb in Ef. rewrite Ef.
      apply IH; [|exact H]. now apply NoDup_remove_1 in Hnodup.
    + assert (Hmatch : forallb (fun col => negb (startswith col cond)) (columns df) = false).
      { destruct (forallb (fun col => negb (startswith col cond)) (columns df)) eqn:E;
          [|reflexivity].
        apply filter_nil_forallb in E. congruence. }
      rewrite Hmatch.
      destruct (mean_axis1 df (c :: cs)) as [m|e] eqn:Em; [|discriminate].
      cbn [bind] in H. unfold mean_axis1 in Em.
      assert (Hsel : getitem_positions (columns df) (c :: cs)
                     = Ok (selected_positions df cond)).
      { unfold selected_positions. rewrite Ef.
        destruct (getitem_positions (columns df) (c :: cs)); [reflexivity|discriminate]. }
      rewrite Hsel in Em. cbn [bind] in Em.
      apply mapM_mean_inv in Em as [-> Hok].
      rewrite setitem_averaged in H.
      * apply IH in H; [|now rewrite <- app_assoc].
        rewrite <- app_assoc in H. destruct H as [-> Hrest].
        split; [reflexivity|].
        intros cond' r [<-|Hc] Hr; [now apply Hok|now apply Hrest].
      * apply NoDup_remove_2 in Hnodup. intros Hin. apply Hnodup.
        apply in_or_app. now left.
Qed.

Lemma averaged_wf (sel : string -> list nat) (conds : list string) (df : DataFrame) :
  wf (averaged sel conds df).
Proof.
  unfold wf, averaged. cbn [rows columns]. apply Forall_forall.
  intros r' Hr'. apply in_map_iff in Hr' as [r [<- _]]. cbn [snd]. apply length_map.
Qed.

(** The averaged table has one column for every condition that is a prefix
    of some column label and none for the others, in the order in which
    the set of conditions is iterated, and every row of it has one cell per
    column.  A set yields each of its elements once. *)
Theorem average_replicates_columns (set_iter : list string -> list string)
    (df : DataFrame) (conditions : list string) (df_avg : DataFrame) :
  NoDup (set_iter conditions) ->
  average_replicates set_iter df conditions = Ok df_avg ->
  columns df_avg = matching (set_iter conditions) df
  /\ wf df_avg
  /\ Forall (fun cond => exists col, In col (columns df) /\ startswith col cond = true)
            (columns df_avg).
Proof.
  intros Hnodup H. unfold average_replicates in H.
  apply (average_loop_averaged df (set_iter conditions) []) in H; [|exact Hnodup].
  destruct H as [-> _]. cbn [app]. split; [reflexivity|].
  split; [apply averaged_wf|]. cbn [averaged columns].
  - apply Forall_forall. intros cond Hc. unfold matching in Hc.
    apply filter_In in Hc as [_ Hc]. unfold matches_nothing in Hc.
    apply negb_true_iff in Hc.
    destruct (filter (fun col => startswith col cond) (columns df)) as [|col l] eqn:Ef.
    + apply filter_nil_forallb in Ef. congruence.
    + exists col. apply (filter_In (fun col => startswith col cond)).
      rewrite Ef. now left.
Qed.

Lemma average_replicates_columns_example :
  exists df_avg,
    average_replicates first_occurrences named_wells ["WT"; "absent"; "mut"; "WT"]
      = Ok df_avg
    /\ columns df_avg = ["mut"; "WT"].
Proof.
  destruct (average_replicates first_occurrences named_wells
              ["WT"; "absent"; "mut"; "WT"]) as [df_avg|e] eqn:E;
    [|vm_compute in E; discriminate E].
  exists df_avg. split; [reflexivity|].
  exact (proj1 (average_replicates_columns first_occurrences named_wells
                  ["WT"; "absent"; "mut"; "WT"] df_avg (NoDup_nodup _ _) E)).
Defined.

Lemma averaged_ext (sel sel' : string -> list nat) (conds : list string) (df : DataFrame) :
  (forall cond, sel cond = sel' cond) -> averaged sel conds df = averaged sel' conds df.
Proof.
  intros H. unfold averaged. f_equal. apply map_ext. intros r. f_equal.
  apply map_ext. intros cond. now rewrite H.
Qed.

Lemma selected_positions_distinct (df : DataFrame) (cond : string) :
  NoDup (columns df) -> selected_positions df cond = matched_positions cond df.
Proof.
  intros H. unfold selected_positions, matched_positions.
  pose proof (getitem_positions_distinct (fun col => startswith col cond)
                (columns df) [] H) as E.
  cbn [app length] in E. now rewrite E.
Qed.

(** When no two columns share a label, the averaged table holds, for every
    row and every matching condition, the mean of the row's cells in the
    columns whose label starts with the condition, every such column
    counted once; the run of [average_replicates] raised nowhere, so each of
    these means exists. *)
Theorem average_replicates_distinct_labels (set_iter : list string -> list string)
    (df : DataFrame) (conditions : list string) (df_avg : DataFrame) :
  NoDup (columns df) ->
  NoDup (set_iter conditions) ->
  average_replicates set_iter df conditions = Ok df_avg ->
  df_avg = averaged (fun cond => matched_positions cond df)
                    (matching (set_iter conditions) df) df
  /\ forall cond r,
       In cond (matching (set_iter conditions) df) -> In r (rows df) ->
       exists x, mean (select (matched_positions cond df) (snd r)) = Ok x.
Proof.
  intros Hcols Hnodup H. unfold average_replicates in H.
  apply (average_loop_averaged df (set_iter conditions) []) in H; [|exact Hnodup].
  destruct H as [-> Hok]. cbn [app]. split.
  - apply averaged_ext. intros cond. now apply selected_positions_distinct.
  - intros cond r Hc Hr. rewrite <- selected_positions_distinct by exact Hcols.
    now apply Hok.
Qed.

Lemma average_replicates_distinct_labels_example :
  exists df_avg,
    average_replicates first_occurrences named_wells ["WT"; "mut"] = Ok df_avg
    /\ df_avg = averaged (fun cond => matched_positions cond named_wells)
                         (matching (first_occurrences ["WT"; "mut"]) named_wells)
                         named_wells.
Proof.
  destruct (average_replicates first_occurrences named_wells ["WT"; "mut"])
    as [df_avg|e] eqn:E; [|vm_compute in E; discriminate E].
  exists df_avg. split; [reflexivity|].
  assert (Hcols : NoDup (columns named_wells))
    by (repeat constructor; simpl; intuition discriminate).
  exact (proj1 (average_replicates_distinct_labels first_occurrences named_wells
                  ["WT"; "mut"] df_avg Hcols (NoDup_nodup _ _) E)).
Defined.

Lemma numeric_values_finite (cs : list cell) :
  forallb finite_or_missing cs = true ->
  numeric_values cs = Ok (map Fin (finite_cells cs)).
Proof.
  induction cs as [|c cs IH]; simpl; [reflexivity|].
  intros H. apply andb_true_iff in H as [Hc Hcs]. specialize (IH Hcs).
  destruct c as [[q| | |]| | | |]; simpl in *; try discriminate; rewrite IH; reflexivity.
Qed.

(** The mean of a row skips the missing cells: over finite numbers and
    missing-data markers it is the sum of the numbers divided by how many
    there are, and NaN when every cell is missing (or there is no cell). *)
Theorem mean_skips_missing (cs : list cell) :
  forallb finite_or_missing cs = true ->
  exists x,
    mean cs = Ok x
    /\ match finite_cells cs with
       | [] => x = NaN
       | qs => exists q, x = Fin q
                 /\ q * inject_Z (Z.of_nat (length qs)) == qsum qs
       end.
Proof.
  intros H. pose proof (numeric_values_finite cs H) as Hnum.
  destruct (finite_cells cs) as [|q0 qs] eqn:E.
  - exists NaN. split; [|reflexivity]. unfold mean. now rewrite Hnum.
  - destruct (mean_finite cs (q0 :: qs) Hnum) as (q & Hq & Hsum); [discriminate|].
    exists (Fin q). split; [exact Hq|]. now exists q.
Qed.

Lemma mean_skips_missing_example :
  exists x,
    mean [num 2; CNone; num 7] = Ok x
    /\ exists q, x = Fin q /\ q * inject_Z (Z.of_nat 2) == qsum [inject_Z 2; inject_Z 7].
Proof.
  apply (mean_skips_missing [num 2; CNone; num 7]). reflexivity.
Defined.

(* ================================================================== *)
(** * The calibration: a well that is not a column *)

Lemma positions_nil_notin (name : string) (cols : list string) :
  positions name cols = [] -> ~ In name cols.
Proof.
  intros H Hin. now apply (positions_from_nonempty 0 name cols Hin).
Qed.

Lemma getitem_positions_missing (cols names : list string) (w : string) :
  In w names -> ~ In w cols ->
  exists key,
    getitem_positions cols names = Raise (KeyError key)
    /\ In key names /\ ~ In key cols.
Proof.
  intros Hw Hmiss. induction names as [|n names IH]; [destruct Hw|].
  cbn [getitem_positions].
  destruct (positions n cols) as [|p ps] eqn:E.
  - exists n. split; [reflexivity|]. split; [now left|]. now apply positions_nil_notin.
  - destruct Hw as [->|Hw].
    + unfold positions in E. now rewrite positions_from_notin in E.
    + destruct (IH Hw) as (key & -> & Hk & Hk'). exists key.
      split; [reflexivity|]. split; [now right|exact Hk'].
Qed.

(** When one of the fluorescein calibration wells is not a column of the
    table, [rfu_to_mefl] raises KeyError for a well that is listed and is
    not a column, before it copies the table: no table object is created
    and none is changed. *)
Theorem rfu_to_mefl_obj_missing_well (h : heap) (df : ref) (src : DataFrame)
    (fluor_conc_uM : list Q) (well_volume_uL : Q) (fluorescein_wells : list string)
    (background : option string) (well : string) :
  load h df = Some src ->
  In well fluorescein_wells ->
  ~ In well (columns src) ->
  exists key,
    rfu_to_mefl_obj df fluor_conc_uM well_volume_uL fluorescein_wells background h
      = (Raise (KeyError key), h)
    /\ rfu_to_mefl src fluor_conc_uM well_volume_uL fluorescein_wells background
       = Raise (KeyError key)
    /\ In key fluorescein_wells
    /\ ~ In key (columns src).
Proof.
  intros Hload Hw Hmiss.
  destruct (getitem_positions_missing (columns src) fluorescein_wells well Hw Hmiss)
    as (key & Hkey & Hin & Hnot).
  assert (Hfit : calibration_fit src fluor_conc_uM well_volume_uL fluorescein_wells
                   background = Raise (KeyError key)).
  { unfold calibration_fit, mean_axis0. now rewrite Hkey. }
  exists key. split; [|split; [|split; assumption]].
  - unfold rfu_to_mefl_obj. now rewrite Hload, Hfit.
  - unfold rfu_to_mefl. now rewrite Hfit.
Qed.

Lemma rfu_to_mefl_obj_missing_well_example :
  exists key,
    rfu_to_mefl_obj 0%nat [1; 2] 200 ["A1"; "A9"] None [fl_calibration]
      = (Raise (KeyError key), [fl_calibration])
    /\ rfu_to_mefl fl_calibration [1; 2] 200 ["A1"; "A9"] None = Raise (KeyError key)
    /\ In key ["A1"; "A9"]
    /\ ~ In key (columns fl_calibration).
Proof.
  apply (rfu_to_mefl_obj_missing_well [fl_calibration] 0%nat fl_calibration
           [1; 2] 200 ["A1"; "A9"] None "A9").
  - reflexivity.
  - right. left. reflexivity.
  - simpl. intuition discriminate.
Defined.

(* ================================================================== *)
(** * The figures: curves drawn by plot_columns *)

Lemma zip3_firstn {A B C : Type} (a : list A) (b : list B) (c : list C) :
  let n := Nat.min (length a) (Nat.min (length b) (length c)) in
  map (fun t : A * B * C => fst (fst t)) (zip3 a b c) = firstn n a
  /\ map (fun t : A * B * C => snd (fst t)) (zip3 a b c) = firstn n b
  /\ map (fun t : A * B * C => snd t) (zip3 a b c) = firstn n c.
Proof.
  revert b c. induction a as [|x a IH]; intros b c; [now destruct b, c|].
  destruct b as [|y b]; [now destruct c|].
  destruct c as [|z c]; [simpl; auto|].
  destruct (IH b c) as (H1 & H2 & H3). cbn [zip3 map length Nat.min firstn fst snd].
  cbv zeta in H1, H2, H3. now rewrite H1, H2, H3.
Qed.

Lemma plot_loop_curves (df : DataFrame) (todo : list (string * color * string))
    (curves : list curve) :
  mapM (fun clc : string * color * string =>
          let '(col, color, label) := clc in
          do y <- loc_column df col;
          Ok (mkCurve col (index df) y color label)) todo = Ok curves ->
  map curve_column curves = map (fun t => fst (fst t)) todo
  /\ map curve_color curves = map (fun t => snd (fst t)) todo
  /\ map curve_label curves = map (fun t => snd t) todo
  /\ Forall (fun col => In col (columns df)) (map curve_column curves).
Proof.
  revert curves. induction todo as [|[[col clr] lbl] todo IH]; intros curves H;
    cbn [mapM] in H.
  - injection H as <-. simpl. auto.
  - destruct (loc_column df col) as [y|e] eqn:Ey; [|discriminate]. cbn [bind] in H.
    match type of H with
    | bind ?m _ = _ => destruct m as [rest|e] eqn:Erest; [|discriminate]
    end.
    cbn [bind] in H. injection H as <-.
    destruct (IH rest eq_refl) as (H1 & H2 & H3 & H4).
    cbn [map curve_column curve_color curve_label fst snd].
    rewrite H1, H2, H3. repeat split; try reflexivity.
    constructor; [|now rewrite <- H1].
    unfold loc_column in Ey.
    destruct (positions col (columns df)) as [|p ps] eqn:Ep; [discriminate|].
    apply (positions_In 0 col (columns df) p). unfold positions in Ep. rewrite Ep.
    now left.
Qed.



Lemma loc_column_ok (df : DataFrame) (col : string) :
  In col (columns df) -> exists y, loc_column df col = Ok y.
Proof.
  intros H. unfold loc_column.
  pose proof (positions_from_nonempty 0 col (columns df) H) as Hne.
  unfold positions. destruct (positions_from 0 col (columns df)); [congruence|eauto].
Qed.

Lemma plot_loop_ok (df : DataFrame) (todo : list (string * color * string)) :
  Forall (fun col => In col (columns df)) (map (fun t => fst (fst t)) todo) ->
  exists curves,
    mapM (fun clc : string * color * string =>
            let '(col, color, label) := clc in
            do y <- loc_column df col;
            Ok (mkCurve col (index df) y color label)) todo = Ok curves.
Proof.
  induction todo as [|[[col clr] lbl] todo IH]; intros H; cbn [mapM]; [eauto|].
  cbn [map fst] in H. apply Forall_cons_iff in H as [Hcol Hrest].
  destruct (loc_column_ok df col Hcol) as [y ->]. cbn [bind].
  destruct (IH Hrest) as [curves ->]. cbn [bind]. eauto.
Qed.

Lemma tab10_colors_length : length tab10_colors = 10%nat.
Proof.
  reflexivity.
Qed.

(** With no colours given, [plot_columns] draws the first ten of the
    requested columns and no more: the colours are cut from a palette of
    ten, and the loop stops with the shortest list.  The call succeeds as
    soon as those first ten are columns of the table; a request for more
    columns raises nothing and leaves the others out of the figure. *)
Theorem plot_columns_default_palette (df : DataFrame) (cols : list string)
    (title units : string) (output_folder filename : string) :
  Forall (fun col => In col (columns df)) (firstn 10 cols) ->
  exists fig,
    plot_columns df cols title units output_folder filename None None = Ok (fig, df)
    /\ map curve_column (fig_curves fig) = firstn 10 cols
    /\ map curve_label (fig_curves fig) = firstn 10 cols
    /\ map curve_color (fig_curves fig) = firstn (length cols) tab10_colors.
Proof.
  intros Hcols.
  assert (Hlen : length (firstn (length cols) tab10_colors)
                 = Nat.min (length cols) 10)
    by (rewrite length_firstn; now rewrite tab10_colors_length).
  assert (Hn : firstn (Nat.min (length cols)
                         (Nat.min (length (firstn (length cols) tab10_colors))
                                  (length cols))) cols = firstn 10 cols).
  { rewrite Hlen. destruct (Nat.le_gt_cases (length cols) 10) as [Hle|Hgt].
    - rewrite !Nat.min_l by lia. rewrite firstn_all. symmetry. now apply firstn_all2.
    - f_equal. lia. }
  destruct (zip3_firstn cols (firstn (length cols) tab10_colors) cols) as (Z1 & Z2 & Z3).
  cbv zeta in Z1, Z2, Z3.
  destruct (plot_loop_ok df (zip3 cols (firstn (length cols) tab10_colors) cols))
    as [curves Hcurves].
  { rewrite Z1, Hn. exact Hcols. }
  assert (Hplot : plot_columns df cols title units output_folder filename None None
                  = Ok (mkFigure curves title "Time (hours)" units
                          (join output_folder filename), df)).
  { unfold plot_columns. now rewrite Hcurves. }
  eexists. split; [exact Hplot|]. cbn [fig_curves].
  apply plot_loop_curves in Hcurves as (H1 & H2 & H3 & _).
  rewrite H1, H2, H3, Z1, Z2, Z3, Hn. repeat split.
  apply firstn_all2. rewrite Hlen. lia.
Qed.

Lemma plot_columns_default_palette_example :
  exists fig,
    plot_columns eleven_samples (columns eleven_samples ++ ["absent"])
      "All samples" "RFU" "results" "all.png" None None = Ok (fig, eleven_samples)
    /\ map curve_column (fig_curves fig)
       = ["s1"; "s2"; "s3"; "s4"; "s5"; "s6"; "s7"; "s8"; "s9"; "s10"].
Proof.
  destruct (plot_columns_default_palette eleven_samples
              (columns eleven_samples ++ ["absent"]) "All samples" "RFU" "results"
              "all.png") as (fig & H & H1 & _).
  - cbn [firstn columns eleven_samples app].
    repeat (apply Forall_cons; [cbn [In]; auto 20|]). apply Forall_nil.
  - exists fig. split; assumption.
Defined.

(* ================================================================== *)
(** * The renaming averager *)

(** [rename_and_average] is [average_replicates] applied to the renamed
    table: the conditions are matched against the new labels, and the row
    labels are those of the table passed in. *)
Theorem rename_and_average_composes (set_iter : list string -> list string)
    (df : DataFrame) (rename_map : list (string * string)) (conditions : list string) :
  rename_and_average set_iter df rename_map conditions
  = average_replicates set_iter (rename_sample_columns df rename_map) conditions
  /\ forall df_avg,
       rename_and_average set_iter df rename_map conditions = Ok df_avg ->
       index df_avg = index df.
Proof.
  split; [reflexivity|]. intros df_avg H.
  change (index df) with (index (rename_sample_columns df rename_map)).
  apply (average_loop_index (set_iter conditions)
           (rename_sample_columns df rename_map) (empty_like df)); [|exact H].
  exact (index_empty_like df).
Qed.

(* ================================================================== *)
(** * The orchestrator: what a run that returns has written and drawn *)

Lemma csv_files_app (a b : list event) : csv_files (a ++ b) = csv_files a ++ csv_files b.
Proof.
  induction a as [|[] a IH]; simpl; now rewrite ?IH.
Qed.

Lemma figures_app (a b : list event) : figures (a ++ b) = figures a ++ figures b.
Proof.
  induction a as [|[] a IH]; simpl; now rewrite ?IH.
Qed.

Lemma csv_files_plots (folder : string) (plots : list plot_cfg) :
  csv_files (map (fun p => PlotColumns (join folder (filename p))) plots) = [].
Proof.
  induction plots; simpl; auto.
Qed.

Lemma figures_plots (folder : string) (plots : list plot_cfg) :
  figures (map (fun p => PlotColumns (join folder (filename p))) plots)
  = map (fun p => join folder (filename p)) plots.
Proof.
  induction plots; simpl; now f_equal.
Qed.


Lemma calibrate_inv (cfg : config) (cal : calibration_cfg) (folder : string)
    (df_sfGFP : DataFrame) (tr tr' : list event)
    (df_MEFL : option DataFrame) (Slope Intercept R_squared : option fnum) :
  calibration cfg = Some cal ->
  calibrate cfg folder df_sfGFP tr = (Ok (df_MEFL, Slope, Intercept, R_squared), tr') ->
  exists d rfus molecules slope intercept r_squared msg,
    rfu_to_mefl df_sfGFP (fluorescein_micromolar_concentration cal)
      (microliters_in_wells cal) (fluorescein_calibration_wells cal)
      (background_well cal)
    = Ok (d, rfus, molecules, slope, intercept, r_squared)
    /\ df_MEFL = Some d /\ Slope = Some slope /\ Intercept = Some intercept
    /\ R_squared = Some r_squared
    /\ tr' = tr ++ [ToCsv (join folder "MEFL.csv") d; Info msg;
                    PlotCalibration (join folder (calibration_plot cal));
                    Info "Calibration complete."].
Proof.
  intros Hcal H. unfold calibrate in H. rewrite Hcal in H.
  inv_bind H as fit t1 E1. destruct fit as [[[[[d rfus] molecules] slope] intercept] r2].
  inv_bind H as u1 t2 E2. inv_bind H as u2 t3 E3.
  inv_bind H as u3 t4 E4. inv_bind H as u4 t5 E5.
  unfold ret in H. injection H as <- <- <- <- <-.
  unfold lift in E1. injection E1 as E1 <-.
  unfold to_csv, info, emit in E2, E3, E4, E5.
  injection E2 as _ <-. injection E3 as _ <-. injection E4 as _ <-. injection E5 as _ <-.
  exists d, rfus, molecules, slope, intercept, r2. eexists.
  split; [exact E1|]. repeat (split; [reflexivity|]). now rewrite <- !app_assoc.
Qed.

Lemma average_and_save_inv (set_iter : list string -> list string) (df : DataFrame)
    (conds : list string) (folder file what : string) (tr tr' : list event)
    (avg : DataFrame) :
  average_and_save set_iter df conds folder file what tr = (Ok avg, tr') ->
  average_replicates set_iter df conds = Ok avg
  /\ exists msg, tr' = tr ++ [ToCsv (join folder file) avg; Info msg].
Proof.
  unfold average_and_save. intros H.
  inv_bind H as a t1 E1. inv_bind H as u1 t2 E2. inv_bind H as u2 t3 E3.
  unfold ret in H. injection H as <- <-.
  unfold lift in E1. injection E1 as E1 <-.
  unfold to_csv, info, emit in E2, E3. injection E2 as _ <-. injection E3 as _ <-.
  split; [exact E1|]. eexists. now rewrite <- app_assoc.
Qed.

Lemma plot_all_inv (df_map : list (string * option DataFrame)) (folder : string)
    (plots : list plot_cfg) :
  forall (tr tr' : list event) (u : unit),
    plot_all df_map folder plots tr = (Ok u, tr') ->
    tr' = tr ++ map (fun p => PlotColumns (join folder (filename p))) plots
    /\ Forall (fun p => exists d,
                 lookup (source p) df_map = Some (Some d)
                 /\ forall c, In c (plot_cols p) -> In c (columns d)) plots.
Proof.
  induction plots as [|p plots IH]; intros tr tr' u H; cbn [plot_all] in H.
  - unfold ret in H. injection H as _ <-. rewrite app_nil_r. split; constructor.
  - inv_bind H as u1 t1 E1. apply IH in H as [-> Hall].
    unfold plot_one in E1.
    destruct (lookup (source p) df_map) as [[d|]|] eqn:El; try discriminate.
    destruct (filter (fun c => negb (mem c (columns d))) (plot_cols p)) eqn:Ef.
    + unfold emit in E1. injection E1 as _ <-. split; [now rewrite <- app_assoc|].
      constructor; [|exact Hall]. exists d. split; [exact El|].
      intros c Hc. apply filter_nil_forallb in Ef. rewrite forallb_forall in Ef.
      specialize (Ef c Hc). rewrite negb_involutive in Ef. unfold mem in Ef.
      apply existsb_exists in Ef as [x [Hx Hex]]. apply String.eqb_eq in Hex.
      now subst.
    + destruct (name p); discriminate.
Qed.

Lemma analyse_inv (set_iter : list string -> list string) (cfg : config)
    (folder : string) (df_od600 df_sfGFP d : DataFrame)
    (Slope Intercept R_squared : option fnum) (tr tr' : list event)
    (out : pipeline_output) :
  analyse set_iter cfg folder df_od600 df_sfGFP (Some d) Slope Intercept R_squared tr
    = (Ok out, tr') ->
  exists rm plots norm avg ev,
    rename_map cfg = Some rm
    /\ plotting cfg = Some plots
    /\ normalize_by_OD (rename_sample_columns df_od600 rm) (rename_sample_columns d rm)
       = Ok norm
    /\ out = mkOutput (Some norm) avg Slope Intercept R_squared
    /\ match conditions cfg with
       | Some (c :: cs) =>
           exists a, average_replicates set_iter norm (c :: cs) = Ok a /\ avg = Some a
       | _ => avg = None
       end
    /\ tr' = tr ++ ev
    /\ csv_files ev
       = map (join folder)
           ("normalized_MEFL_replicates.csv"
              :: if has_conditions cfg then average_files else [])
    /\ figures ev = map (fun p => join folder (filename p)) plots.
Proof.
  unfold analyse. intros H.
  inv_bind H as rm t1 E1. inv_bind H as u1 t2 E2.
  inv_bind H as norm_rfu t3 E3. inv_bind H as u2 t4 E4.
  inv_bind H as b t5 E5. cbv beta iota in E5.
  inv_bind E5 as norm t6 E6. inv_bind E5 as u3 t7 E7.
  inv_bind E5 as u4 t8 E8. inv_bind E5 as u5 t9 E9.
  unfold ret in E5. injection E5 as <- <-.
  inv_bind H as averages t10 E10. destruct averages as [[[[a1 a2] a3] a4] a5].
  inv_bind H as df t11 E11. cbn [read_local] in E11. unfold ret in E11.
  injection E11 as <- <-.
  inv_bind H as plots t12 E12. inv_bind H as u6 t13 E13.
  inv_bind H as u7 t14 E14. inv_bind H as u8 t15 E15.
  unfold ret in H. injection H as <- <-.
  unfold require in E1, E12.
  destruct (rename_map cfg) as [rm'|] eqn:Hrm; [|discriminate].
  destruct (plotting cfg) as [plots'|] eqn:Hpl; [|discriminate].
  unfold ret in E1, E12. injection E1 as <- <-. injection E12 as <- <-.
  unfold lift in E3, E6. injection E3 as E3 <-. injection E6 as E6 <-.
  unfold to_csv, info, emit in E2, E4, E7, E8, E9, E14, E15.
  injection E2 as _ <-. injection E4 as _ <-. injection E7 as _ <-.
  injection E8 as _ <-. injection E9 as _ <-.
  injection E15 as _ <-. injection E14 as _ <-.
  apply plot_all_inv in E13 as [-> _].
  exists rm', plots', norm, a5.
  unfold has_conditions.
  destruct (conditions cfg) as [[|c cs]|] eqn:Hcond.
  - unfold ret in E10. injection E10 as <- <- <- <- <- <-.
    eexists. split; [reflexivity|]. split; [reflexivity|]. split; [exact E6|].
    split; [reflexivity|]. split; [reflexivity|].
    split; [rewrite <- !app_assoc; reflexivity|].
    cbn [app csv_files figures]. rewrite csv_files_app, figures_app.
    rewrite csv_files_plots, figures_plots. split; [reflexivity|].
    cbn [figures]. now rewrite app_nil_r.
  - inv_bind E10 as x1 s1 F1. inv_bind E10 as x2 s2 F2. inv_bind E10 as x3 s3 F3.
    inv_bind E10 as x4 s4 F4. inv_bind F4 as x4' s4' F4'.
    unfold ret in F4. injection F4 as <- <-.
    inv_bind E10 as n s5 F5. cbn [read_local] in F5. unfold ret in F5.
    injection F5 as <- <-.
    inv_bind E10 as x5 s6 F6. inv_bind E10 as u9 s7 F7.
    unfold ret in E10. injection E10 as <- <- <- <- <- <-.
    apply average_and_save_inv in F1 as [_ [m1 ->]].
    apply average_and_save_inv in F2 as [_ [m2 ->]].
    apply average_and_save_inv in F3 as [_ [m3 ->]].
    apply average_and_save_inv in F4' as [_ [m4 ->]].
    apply average_and_save_inv in F6 as [Havg [m5 ->]].
    unfold info, emit in F7. injection F7 as _ <-.
    eexists. split; [reflexivity|]. split; [reflexivity|]. split; [exact E6|].
    split; [reflexivity|]. split; [exists x5; now split|].
    split; [rewrite <- !app_assoc; reflexivity|].
    cbn [app csv_files figures]. rewrite csv_files_app, figures_app.
    rewrite csv_files_plots, figures_plots. split; [reflexivity|].
    cbn [figures]. now rewrite app_nil_r.
  - unfold ret in E10. injection E10 as <- <- <- <- <- <-.
    eexists. split; [reflexivity|]. split; [reflexivity|]. split; [exact E6|].
    split; [reflexivity|]. split; [reflexivity|].
    split; [rewrite <- !app_assoc; reflexivity|].
    cbn [app csv_files figures]. rewrite csv_files_app, figures_app.
    rewrite csv_files_plots, figures_plots. split; [reflexivity|].
    cbn [figures]. now rewrite app_nil_r.
Qed.



(** What a run with a calibration section returns: the slope, intercept and
    r squared are those [rfu_to_mefl] fitted on the cleaned fluorescence
    table under the row labels of the optical-density table; the
    normalized replicates are the calibrated table divided by the
    optical-density table, both renamed; and the normalized average is the
    [average_replicates] of that quotient when conditions are configured,
    None when they are not. *)
Theorem run_pipeline_returns (set_iter : list string -> list string) (cfg : config)
    (wb : workbook) (tr tr' : list event) (out : pipeline_output)
    (cal : calibration_cfg) :
  calibration cfg = Some cal ->
  run_pipeline set_iter cfg wb tr = (Ok out, tr') ->
  exists folder od fl tr1 d rfus molecules slope intercept r_squared rm norm,
    load_and_index cfg wb tr = (Ok (folder, od, fl), tr1)
    /\ rfu_to_mefl fl (fluorescein_micromolar_concentration cal)
         (microliters_in_wells cal) (fluorescein_calibration_wells cal)
         (background_well cal)
       = Ok (d, rfus, molecules, slope, intercept, r_squared)
    /\ rename_map cfg = Some rm
    /\ normalize_by_OD (rename_sample_columns od rm) (rename_sample_columns d rm)
       = Ok norm
    /\ normalized_MEFL_replicates out = Some norm
    /\ out_slope out = Some slope
    /\ out_intercept out = Some intercept
    /\ out_r_squared out = Some r_squared
    /\ match conditions cfg with
       | Some (c :: cs) =>
           exists a, average_replicates set_iter norm (c :: cs) = Ok a
                     /\ normalized_MEFL_average out = Some a
       | _ => normalized_MEFL_average out = None
       end.
Proof.
  intros Hcal H. unfold run_pipeline in H.
  inv_bind H as loaded t1 E1. destruct loaded as [[folder df_od600] df_sfGFP].
  inv_bind H as fit t2 E2. destruct fit as [[[df_MEFL Slope] Intercept] R_squared].
  apply (calibrate_inv cfg cal) in E2; [|exact Hcal].
  destruct E2 as (d & rfus & mols & slope & intercept & r2 & msg
                  & Hfit & -> & -> & -> & -> & _).
  apply analyse_inv in H.
  destruct H as (rm & plots & norm & avg & ev & Hrm & _ & Hnorm & -> & Havg & _).
  exists folder, df_od600, df_sfGFP, t1, d, rfus, mols, slope, intercept, r2, rm, norm.
  split; [exact E1|]. split; [exact Hfit|]. split; [exact Hrm|]. split; [exact Hnorm|].
  cbn [normalized_MEFL_replicates out_slope out_intercept out_r_squared
       normalized_MEFL_average].
  repeat (split; [reflexivity|]). exact Havg.
Qed.

Lemma run_pipeline_returns_example :
  exists out tr' folder od fl tr1 d rfus molecules slope intercept r_squared norm a,
    run_pipeline first_occurrences config_with_conditions example_workbook []
      = (Ok out, tr')
    /\ load_and_index config_with_conditions example_workbook []
       = (Ok (folder, od, fl), tr1)
    /\ rfu_to_mefl fl [1; 2] 200 ["A1"; "A2"] None
       = Ok (d, rfus, molecules, slope, intercept, r_squared)
    /\ normalize_by_OD (rename_sample_columns od example_rename_map)
                       (rename_sample_columns d example_rename_map) = Ok norm
    /\ normalized_MEFL_replicates out = Some norm
    /\ out_slope out = Some slope
    /\ average_replicates first_occurrences norm ["cond"] = Ok a
    /\ normalized_MEFL_average out = Some a.
Proof.
  destruct (run_pipeline first_occurrences config_with_conditions example_workbook [])
    as [[out|e] tr'] eqn:E; [|vm_compute in E; discriminate E].
  destruct (run_pipeline_returns first_occurrences config_with_conditions
              example_workbook [] tr' out example_calibration eq_refl E)
    as (folder & od & fl & tr1 & d & rfus & mols & slope & intercept & r2 & rm & norm
        & Hload & Hfit & Hrm & Hnorm & Hrep & Hs & _ & _ & a & Havg & Hout).
  injection Hrm as <-.
  exists out, tr', folder, od, fl, tr1, d, rfus, mols, slope, intercept, r2, norm, a.
  repeat (split; [assumption || reflexivity|]). assumption.
Defined.

(* ================================================================== *)
(** * The orchestrator: figures drawn before a plot is refused *)

Lemma filter_negb_nil {A : Type} (p : A -> bool) (l : list A) :
  forallb p l = true -> filter (fun a => negb (p a)) l = [].
Proof.
  induction l as [|a l IH]; simpl; intros H; [reflexivity|].
  apply andb_true_iff in H as [Ha Hl]. rewrite Ha. simpl. auto.
Qed.

Lemma plot_one_drawable (df_map : list (string * option DataFrame)) (folder : string)
    (p : plot_cfg) (tr : list event) :
  drawable df_map p = true ->
  plot_one df_map folder p tr = (Ok tt, tr ++ [PlotColumns (join folder (filename p))]).
Proof.
  unfold drawable, plot_one. intros H.
  destruct (lookup (source p) df_map) as [[d|]|]; try discriminate.
  now rewrite (filter_negb_nil (fun c => mem c (columns d)) (plot_cols p) H).
Qed.

(** The plots are checked one at a time, each just before it is drawn: when
    a plot asks for a table that was not computed, the run raises
    ValueError naming that source, and the figures of the plots listed
    before it have been drawn by then. *)
Theorem plot_all_stops_at_first_failure (df_map : list (string * option DataFrame))
    (folder : string) (good : list plot_cfg) (bad : plot_cfg) (rest : list plot_cfg)
    (tr : list event) :
  forallb (drawable df_map) good = true ->
  source_available df_map bad = false ->
  plot_all df_map folder (good ++ bad :: rest) tr
  = (Raise (ValueError ("Plot source '" ++ source bad
                        ++ "' requested but data not available")),
     tr ++ map (fun p => PlotColumns (join folder (filename p))) good).
Proof.
  intros Hgood Hbad. revert tr.
  induction good as [|p good IH]; intros tr; cbn [app plot_all map].
  - rewrite app_nil_r. unfold bindM, plot_one. unfold source_available in Hbad.
    destruct (lookup (source bad) df_map) as [[d|]|]; [discriminate| |]; reflexivity.
  - cbn [forallb] in Hgood. apply andb_true_iff in Hgood as [Hp Hgood].
    unfold bindM at 1. rewrite (plot_one_drawable df_map folder p tr Hp).
    rewrite (IH Hgood). now rewrite <- app_assoc.
Qed.

Lemma plot_all_stops_at_first_failure_example :
  plot_all tables_without_averages "results"
    [plot_of_replicates; plot_of_averages; plot_of_replicates] []
  = (Raise (ValueError "Plot source 'OD average' requested but data not available"),
     [PlotColumns "results/od.png"]).
Proof.
  apply (plot_all_stops_at_first_failure tables_without_averages "results"
           [plot_of_replicates] plot_of_averages [plot_of_replicates] []);
    reflexivity.
Defined.
